(** * edit-in-neovim: the Neovim session manager ([src/Neovim.ts], [src/utils.ts])

    A shallow embedding of the [Neovim] class that launches, probes and
    tears down the external editor, together with the string helpers and
    the [utils] functions it calls, the settings record of
    [Settings.ts], and the [openFile] of the two earlier copies of the
    class.

    Conventions of the embedding.
    - A JavaScript string is a [string] of 8-bit code units (the Latin-1
      range); the white-space set and the case mapping are the ECMAScript
      ones restricted to that range.
    - A JavaScript number that holds an integer is a [Z]; [NaN] is [None].
    - The outside world (child processes, tmux, the network table, the
      RPC endpoint, the file system) is an oracle record [World]. What
      the component sends out (spawns, tmux commands, the remote-open
      command, the query of the network table, RPC calls, notices) is
      recorded, in order, in the [trace] of the machine; file-existence
      tests and the binary search are read off the oracle without an
      entry.
    - [async] functions are run to completion one after the other: an
      [await] advances the logical clock [now] and nothing else runs in
      between. Callbacks of the child process are separate operations.
    - Every attach attempt completes after a finite latency given by the
      oracle; [setTimeout] fires exactly on time. The network-table
      query always resolves. *)

From Stdlib Require Import Bool Ascii String List ZArith Lia.
Import ListNotations.

Open Scope string_scope.
Open Scope Z_scope.

(* ================================================================== *)
(** ** JavaScript string primitives used by the sources *)
(* ================================================================== *)

Module JS.

Definition code (c : ascii) : Z := Z.of_nat (nat_of_ascii c).

(** [String.prototype.startsWith]. *)
Fixpoint startsWith (p s : string) : bool :=
  match p, s with
  | EmptyString, _ => true
  | String _ _, EmptyString => false
  | String a p', String b s' => Ascii.eqb a b && startsWith p' s'
  end.

(** [String.prototype.includes]. *)
Fixpoint includes (sub s : string) : bool :=
  startsWith sub s ||
  match s with
  | EmptyString => false
  | String _ s' => includes sub s'
  end.

(** [String.prototype.lastIndexOf] for a one-character search string:
    the largest index holding [c], or [-1]. *)
Fixpoint lastIndexOf (c : ascii) (s : string) : Z :=
  match s with
  | EmptyString => -1
  | String a s' =>
      let r := lastIndexOf c s' in
      if 0 <=? r then r + 1
      else if Ascii.eqb a c then 0 else -1
  end.

Definition len (s : string) : Z := Z.of_nat (String.length s).

(** [String.prototype.substring(start, end)]: both indices are clamped
    to [0, length] and swapped when out of order; [end] defaults to the
    length. *)
Definition clamp (n i : Z) : Z := Z.max 0 (Z.min i n).

Definition substring (s : string) (start : Z) (end_ : option Z) : string :=
  let n := len s in
  let a := clamp n start in
  let b := match end_ with Some e => clamp n e | None => n end in
  let lo := Z.min a b in
  let hi := Z.max a b in
  String.substring (Z.to_nat lo) (Z.to_nat (hi - lo)) s.

(** White space and line terminators below U+0100. *)
Definition isWhiteSpace (c : ascii) : bool :=
  let k := code c in
  ((9 <=? k) && (k <=? 13)) || (k =? 32) || (k =? 160).

Fixpoint trimStart (s : string) : string :=
  match s with
  | EmptyString => EmptyString
  | String c s' => if isWhiteSpace c then trimStart s' else s
  end.

Definition reverse (s : string) : string :=
  string_of_list_ascii (rev (list_ascii_of_string s)).

Definition trimEnd (s : string) : string := reverse (trimStart (reverse s)).

(** [String.prototype.trim]. *)
Definition trim (s : string) : string := trimEnd (trimStart s).

(** [String.prototype.endsWith]. *)
Definition endsWith (suffix s : string) : bool :=
  startsWith (reverse suffix) (reverse s).

(** [String.prototype.split] on a one-character separator. The result
    is never empty: a string without separator is its own only piece. *)
Fixpoint split (sep : ascii) (s : string) : list string :=
  match s with
  | EmptyString => [EmptyString]
  | String c s' =>
      if Ascii.eqb c sep then EmptyString :: split sep s'
      else match split sep s' with
           | [] => [String c EmptyString]
           | piece :: rest => String c piece :: rest
           end
  end.

(** [Array.prototype.pop] / [.at(-1)] on the result of a [split]. *)
Definition lastOf (l : list string) : option string :=
  match rev l with
  | [] => None
  | x :: _ => Some x
  end.

(** [String.prototype.toLowerCase] below U+0100. *)
Definition lowerChar (c : ascii) : ascii :=
  let k := code c in
  if ((65 <=? k) && (k <=? 90))
     || ((192 <=? k) && (k <=? 222) && negb (k =? 215))
  then ascii_of_nat (Z.to_nat (k + 32)) else c.

Fixpoint toLowerCase (s : string) : string :=
  match s with
  | EmptyString => EmptyString
  | String c s' => String (lowerChar c) (toLowerCase s')
  end.

(** The value of a character as a digit in some radix up to 36. *)
Definition digitValue (c : ascii) : option Z :=
  let k := code c in
  if (48 <=? k) && (k <=? 57) then Some (k - 48)
  else if (97 <=? k) && (k <=? 122) then Some (k - 87)
  else if (65 <=? k) && (k <=? 90) then Some (k - 55)
  else None.

Definition isDecimalDigit (c : ascii) : bool :=
  let k := code c in (48 <=? k) && (k <=? 57).

(** The longest prefix of [s] made of digits of [radix], read as a
    number; [acc] is [None] until a first digit has been read. *)
Fixpoint digitsPrefix (radix : Z) (s : string) (acc : option Z) : option Z :=
  match s with
  | EmptyString => acc
  | String c s' =>
      match digitValue c with
      | Some d =>
          if d <? radix
          then digitsPrefix radix s'
                 (Some (radix * match acc with Some a => a | None => 0 end + d))
          else acc
      | None => acc
      end
  end.

(** [parseInt(s)] with no radix argument: leading white space, a sign,
    an optional [0x]/[0X] prefix, then the longest digit prefix. [None]
    is [NaN]. The value is the mathematical one (JavaScript rounds it
    to a double, which does not change whether it is [NaN]). *)
Definition parseInt (s : string) : option Z :=
  let s1 := trimStart s in
  let '(sign, s2) :=
    match s1 with
    | String "-" r => (-1, r)
    | String "+" r => (1, r)
    | _ => (1, s1)
    end in
  let '(radix, s3) :=
    if startsWith "0x" s2 || startsWith "0X" s2
    then (16, substring s2 2 None) else (10, s2) in
  option_map (Z.mul sign) (digitsPrefix radix s3 None).

(** The regular expression [/^\d+$/]. *)
Fixpoint allDigits (s : string) : bool :=
  match s with
  | EmptyString => true
  | String c s' => isDecimalDigit c && allDigits s'
  end.

Definition isDigits (s : string) : bool :=
  match s with
  | EmptyString => false
  | _ => allDigits s
  end.

(** Truthiness of a string and of [string | undefined]. *)
Definition truthy (s : string) : bool :=
  match s with EmptyString => false | _ => true end.

Definition truthyOpt (o : option string) : bool :=
  match o with Some s => truthy s | None => false end.

(** [a || b] on strings. *)
Definition orElse (a b : string) : string := if truthy a then a else b.

(** [Array.prototype.includes] on an array of strings. *)
Definition arrayIncludes (x : string) (l : list string) : bool :=
  existsb (String.eqb x) l.

End JS.


(* ================================================================== *)
(** ** Data model *)
(* ================================================================== *)

(** [EditInNeovimSettings] of [Settings.ts]. *)
Inductive HostMode := HostNvim | HostTmux.

Record EditInNeovimSettings := mkSettings {
  hostMode : HostMode;
  terminal : string;
  listenOn : string;
  openNeovimOnLoad : bool;
  supportedFileTypes : list string;
  pathToBinary : string;
  appname : string;
  tmuxSessionName : string;
  tmuxAttachOnStart : bool;
  tmuxKeepAliveOnQuit : bool
}.

(** The private field [startedVia]. *)
Inductive StartedVia := ViaHeadless | ViaTerminal | ViaTmux | ViaUnknown.

(** An entry of [findNvim(...).matches]. *)
Record NvimBinary := mkNvimBinary {
  path : string;
  nvimVersion : option string;
  error : option string
}.

(** What [child_process.spawn] returns; [pid] is [undefined] when the
    operating system could not start the program. *)
Record ChildProcess := mkChildProcess { pid : option Z }.

(** What an RPC client is connected through. *)
Inductive Transport :=
| TcpStream (host : string) (port : Z)   (* attach({ reader: socket, writer: socket }) *)
| SocketPath (socket : string).          (* attach({ socket: listenAddr }) *)

Record NeovimClient := mkClient { transport : Transport }.

Record TFile := mkTFile {
  extension : string;
  filePath : string;
  basename : string
}.

Record FileSystemAdapter := mkAdapter {
  getBasePath : string;
  getFullPath : string -> string
}.

(** An error value: its [message] and, for system errors, its [code]. *)
Record JsError := mkError { message : string; errno : option string }.

(** The fields of the class [Neovim]. *)
Record Neovim := mkNeovim {
  instance : option NeovimClient;
  process : option ChildProcess;
  settings : EditInNeovimSettings;
  nvimBinary : option NvimBinary;
  termBinary : option string;
  tmuxBinary : option string;
  adapter : FileSystemAdapter;
  apiKey : option string;
  startedVia : StartedVia
}.

(** A JavaScript object used as an ordered string-to-string record
    ([process.env], [extraEnvVars]). *)
Definition Env := list (string * string).

Fixpoint envSet (k v : string) (e : Env) : Env :=
  match e with
  | [] => [(k, v)]
  | (k', v') :: e' =>
      if String.eqb k k' then (k', v) :: e' else (k', v') :: envSet k v e'
  end.

(** Object spread [{ ...a, ...b }]: the keys of [b] win. *)
Definition envSpread (a b : Env) : Env :=
  fold_left (fun acc kv => envSet (fst kv) (snd kv) acc) b a.

(** The [shell] option of [spawn]. *)
Inductive ShellOpt := ShellFalse | ShellTrue | ShellPath (sh : string).

Inductive Stdio := StdioDefault | StdioIgnore.

(** [SpawnProcessOptions] of [utils.ts], with the fields the code sets. *)
Record SpawnProcessOptions := mkSpawnOptions {
  spawnArgs : list string;
  cwd : string;
  env : Env;
  shell : ShellOpt;
  detached : bool;
  stdio : Stdio
}.

(** The user-visible notices, one constructor per [new Notice(...)] of
    [Neovim.ts]; the display time is kept beside it in the event. *)
Inductive Notice :=
| NoticeConfigIssues              (* Potential issues in plugin config *)
| NoticeBuffersFailed (msg : string)
| NoticeAlreadyRunning            (* Instance already running *)
| NoticeNoNvimBinary              (* No path to valid nvim binary has been found *)
| NoticeProcessNotCreated         (* Failed to create Neovim process *)
| NoticeServerStarted (addr : string)
| NoticeConnected                 (* Neovim instance started and connected. *)
| NoticeConnectFailed (addr : string)
| NoticeSpawnError (msg : string)
| NoticeProcessError              (* Neovim ran into an error *)
| NoticeNoTerminal                (* No terminal configured; can't auto-attach to tmux. *)
| NoticeTerminalAttachFailed
| NoticeTmuxUnsupported           (* tmux host mode is not supported on Windows *)
| NoticeTmuxNotFound              (* Could not find tmux on PATH *)
| NoticePortInUse (addr : string) (* <addr> is already in use, so tmux-hosted Neovim can't bind to it *)
| NoticeTmuxStartFailed
| NoticeTmuxRunning (session : string)
| NoticeSocketMissing (addr : string)
| NoticeTmuxUnreachable (addr : string)
| NoticeOpenError (msg : string)
| NoticeNvimNotFoundAt (p : string)
| NoticeServerRefused (addr : string)
| NoticeFileNotFound (name : string)
| NoticeRunFailed (msg : string)
| NoticeTmuxNoBinary              (* Disconnected from tmux-hosted Neovim (tmux not found). *)
| NoticeTmuxKilled (session : string)
| NoticeTmuxKillFailed (session : string)
| NoticeClosed.                   (* Neovim instance closed. *)

(** Every call that leaves the component. *)
Inductive Event :=
| ENotice (n : Notice) (ms : option Z)
| ESpawn (bin : string) (opts : SpawnProcessOptions)
| ERegisterProcessEvents (p : ChildProcess)
| EExecFileSync (bin : string) (args : list string)
| EExecFile (bin : string) (args : list string)
| EExec (cmdline : string)
| ENetworkConnections
| ECreateConnection (host : string) (port : Z)
| EAttach (t : Transport)
| EEval (c : NeovimClient)
| EBuffers (c : NeovimClient)
| EKill (p : ChildProcess)
| EQuit (c : NeovimClient).

(** How the asynchronous [execFile] of the remote-open command ends. *)
Record ExecFileResult := mkExecFileResult {
  execError : option JsError;
  stdout : string;
  stderr : string
}.

(** One attach attempt as the endpoint answers it: whether [eval("1")]
    resolves, and after how many milliseconds the attempt settles. *)
Record Probe := mkProbe { probeOk : bool; probeMs : N }.

Definition Buffer := string.

(** The environment of one operation. *)
Record World := mkWorld {
  win32 : bool;                                   (* process.platform === "win32" *)
  processEnv : Env;                               (* process.env *)
  userShell : string;                             (* os.userInfo().shell *)
  searchBinary : string -> option string;         (* outcome of the binary search *)
  findNvim : list NvimBinary;                     (* findNvim(...).matches *)
  spawn : string -> list string -> JsError + ChildProcess;
  execFileSync : string -> list string -> bool;   (* false: the call throws *)
  execFile : string -> list string -> JsError + ExecFileResult;
  existsSync : string -> bool;
  networkConnections : list string;               (* localPort of every connection *)
  probe : nat -> Probe;                           (* the n-th attach attempt *)
  buffers : JsError + list Buffer                 (* the buffer query *)
}.

(** The running component: its fields, the calls made so far, the
    logical clock in milliseconds and the number of attach attempts
    already made. *)
Record Machine := mkMachine {
  self : Neovim;
  trace : list Event;
  now : Z;
  attempts : nat
}.

(* ================================================================== *)
(** ** A state-and-exception monad for the method bodies *)
(* ================================================================== *)

Inductive Outcome (A : Type) :=
| Returned (a : A)
| Thrown (e : JsError)
| Stuck.                 (* the step budget of a loop ran out *)

Arguments Returned {A} a.
Arguments Thrown {A} e.
Arguments Stuck {A}.

Definition M (A : Type) : Type := Machine -> Outcome A * Machine.

Definition ret {A} (a : A) : M A := fun m => (Returned a, m).

Definition throw {A} (e : JsError) : M A := fun m => (Thrown e, m).

Definition bind {A B} (c : M A) (k : A -> M B) : M B :=
  fun m =>
    match c m with
    | (Returned a, m') => k a m'
    | (Thrown e, m') => (Thrown e, m')
    | (Stuck, m') => (Stuck, m')
    end.

(** [try { body } catch (e) { handler e }]: what [body] did to the
    fields before it threw stays done. *)
Definition tryCatch {A} (body : M A) (handler : JsError -> M A) : M A :=
  fun m =>
    match body m with
    | (Thrown e, m') => handler e m'
    | r => r
    end.

Declare Scope js_scope.
Delimit Scope js_scope with js.
Notation "x <- c ;; k" := (bind c (fun x => k))
  (at level 61, c at next level, right associativity) : js_scope.
Notation "c ;;; k" := (bind c (fun _ => k))
  (at level 61, right associativity) : js_scope.
Open Scope js_scope.

Definition getSelf : M Neovim := fun m => (Returned (self m), m).

Definition modify (f : Neovim -> Neovim) : M unit :=
  fun m => (Returned tt, mkMachine (f (self m)) (trace m) (now m) (attempts m)).

Definition emit (e : Event) : M unit :=
  fun m => (Returned tt, mkMachine (self m) (trace m ++ [e]) (now m) (attempts m)).

(** [Date.now()]. *)
Definition dateNow : M Z := fun m => (Returned (now m), m).

(** [await new Promise(r => setTimeout(r, ms))]. *)
Definition sleep (ms : Z) : M unit :=
  fun m => (Returned tt, mkMachine (self m) (trace m) (now m + ms) (attempts m)).

Definition notice (n : Notice) (ms : Z) : M unit := emit (ENotice n (Some ms)).

(** Field assignments. *)
Definition setInstance (c : option NeovimClient) (s : Neovim) : Neovim :=
  mkNeovim c (process s) (settings s) (nvimBinary s) (termBinary s)
           (tmuxBinary s) (adapter s) (apiKey s) (startedVia s).

Definition setProcess (p : option ChildProcess) (s : Neovim) : Neovim :=
  mkNeovim (instance s) p (settings s) (nvimBinary s) (termBinary s)
           (tmuxBinary s) (adapter s) (apiKey s) (startedVia s).

Definition setStartedVia (v : StartedVia) (s : Neovim) : Neovim :=
  mkNeovim (instance s) (process s) (settings s) (nvimBinary s) (termBinary s)
           (tmuxBinary s) (adapter s) (apiKey s) v.

Definition setSettings (st : EditInNeovimSettings) (s : Neovim) : Neovim :=
  mkNeovim (instance s) (process s) st (nvimBinary s) (termBinary s)
           (tmuxBinary s) (adapter s) (apiKey s) (startedVia s).

Definition isSome {A} (o : option A) : bool :=
  match o with Some _ => true | None => false end.

Definition typeError : JsError :=
  mkError "Cannot read properties of undefined" None.

(** [this.nvimBinary!.path] and [this.termBinary!]. *)
Definition nvimPath : M string :=
  s <- getSelf ;;
  match nvimBinary s with
  | Some b => ret (path b)
  | None => throw typeError
  end.

Definition termPath : M string :=
  s <- getSelf ;;
  match termBinary s with
  | Some t => ret t
  | None => throw typeError
  end.

(* ================================================================== *)
(** ** [utils.ts] *)
(* ================================================================== *)

(** [isPortInUse(port)]: is some connection of the network table bound
    to that local port. *)
Definition isPortInUse (w : World) (port : string) : M bool :=
  emit ENetworkConnections ;;;
  ret (existsb (fun localPort => String.eqb localPort port) (networkConnections w)).

(** [configureProcessSpawnArgs]. *)
Definition withArgs (o : SpawnProcessOptions) (args : list string) (sh : ShellOpt)
  : SpawnProcessOptions :=
  mkSpawnOptions args (cwd o) (env o) sh (detached o) (stdio o).

Definition configureProcessSpawnArgs (w : World) (spawnOptions : SpawnProcessOptions)
    (terminalName terminalPath nvimPath_ port : string) : SpawnProcessOptions :=
  if negb (win32 w) then
    withArgs spawnOptions ["-e"; nvimPath_; "--listen"; port]
      (if JS.truthy (userShell w) then ShellPath (userShell w) else ShellTrue)
  else if String.eqb terminalName "alacritty.exe" || String.eqb terminalName "wezterm.exe"
          || String.eqb terminalName "kitty.exe" then
    withArgs spawnOptions ["-e"; nvimPath_; "--listen"; port] (shell spawnOptions)
  else if String.eqb terminalName "wt.exe" then
    withArgs spawnOptions ["new-tab"; "--title"; "Neovim"; nvimPath_; "--listen"; port]
      (shell spawnOptions)
  else if String.eqb terminalName "powershell.exe" || String.eqb terminalName "pwsh.exe" then
    let command := "Start-Process -FilePath '" ++ nvimPath_ ++ "' -ArgumentList '--listen "
                   ++ port ++ "' -WindowStyle Normal" in
    withArgs spawnOptions
      ["-ExecutionPolicy"; "Bypass"; "-NoProfile"; "-NoExit"; "-Command"; command] ShellTrue
  else if String.eqb terminalName "cmd.exe" then
    let dq := String (ascii_of_nat 34) EmptyString in
    withArgs spawnOptions
      ["/c"; "start"; dq ++ "Neovim" ++ dq; dq ++ nvimPath_ ++ dq; "--listen"; port] ShellTrue
  else
    withArgs spawnOptions ["-e"; nvimPath_; "--listen"; port] (shell spawnOptions).

(* ================================================================== *)
(** ** [Neovim.ts]: the class [Neovim] *)
(* ================================================================== *)

(** The constructor. The binary search of [utils.ts] and [findNvim] are
    answered by the oracle. *)
Definition construct (w : World) (st : EditInNeovimSettings) (ad : FileSystemAdapter)
    (key : option string) : Machine :=
  let term := if JS.truthy (terminal st) then searchBinary w (terminal st) else None in
  let tmux := searchBinary w "tmux" in
  let mk nv tr := mkMachine (mkNeovim None None st (Some nv) term tmux ad key ViaUnknown) tr 0 0 in
  if JS.truthy (pathToBinary st) then
    mk (mkNvimBinary (pathToBinary st) (Some "manual_path") None) []
  else
    match findNvim w with
    | b :: _ => mk b []
    | [] =>
        mk (mkNvimBinary "" None (Some "Neovim binary not found, and no manual path specified"))
           [ENotice NoticeConfigIssues (Some 5000)]
    end.

(** [getBuffers]. *)
Definition queryBuffers (w : World) (c : NeovimClient) : M (list Buffer) :=
  emit (EBuffers c) ;;;
  match buffers w with
  | inr bs => ret bs
  | inl e => throw e
  end.

Definition getBuffers (w : World) : M (list Buffer) :=
  s <- getSelf ;;
  match instance s with
  | None => ret []
  | Some c =>
      tryCatch (queryBuffers w c)
        (fun e => notice (NoticeBuffersFailed (message e)) 5000 ;;; ret [])
  end.

(** [disconnect]: drop both handles, contact nobody. *)
Definition disconnect : M unit :=
  modify (setInstance None) ;;;
  modify (setProcess None).

(** [child_process.execFileSync(bin, args, { stdio: "ignore" })]. *)
Definition runSync (w : World) (bin : string) (args : list string) : M unit :=
  emit (EExecFileSync bin args) ;;;
  if execFileSync w bin args then ret tt
  else throw (mkError "Command failed" None).

Definition defaultSessionName : string := "edit-in-neovim".

Definition sessionNameOf (st : EditInNeovimSettings) : string :=
  JS.trim (JS.orElse (tmuxSessionName st) defaultSessionName).

(** [close]. *)
Definition close (w : World) : M unit :=
  s <- getSelf ;;
  match startedVia s with
  | ViaTmux =>
      let sessionName := sessionNameOf (settings s) in
      match tmuxBinary s with
      | Some tmux =>
          if JS.truthy tmux then
            tryCatch
              (runSync w tmux ["kill-session"; "-t"; sessionName] ;;;
               disconnect ;;;
               notice (NoticeTmuxKilled sessionName) 4000)
              (fun _ =>
                 disconnect ;;;
                 notice (NoticeTmuxKillFailed sessionName) 10000)
          else disconnect ;;; notice NoticeTmuxNoBinary 5000
      | None => disconnect ;;; notice NoticeTmuxNoBinary 5000
      end
  | _ =>
      match process s with Some p => emit (EKill p) | None => ret tt end ;;;
      match instance s with Some c => emit (EQuit c) | None => ret tt end ;;;
      modify (setInstance None) ;;;
      modify (setProcess None) ;;;
      notice NoticeClosed 3000
  end.

(** [onObsidianQuit]. *)
Definition onObsidianQuit (w : World) : M unit :=
  s <- getSelf ;;
  match startedVia s with
  | ViaTmux =>
      if tmuxKeepAliveOnQuit (settings s) then disconnect else close w
  | _ => close w
  end.

(** Where [attachToServer] connects to, read off the listen address:
    the test and the parsing of its first branch. The string tested by
    [includes] is the two-character string of two backslashes. *)
Definition looksLikeHostPort (listenAddr : string) : bool :=
  let colonIdx := JS.lastIndexOf ":" listenAddr in
  (0 <? colonIdx) && negb (JS.startsWith "/" listenAddr)
  && negb (JS.includes "\\" listenAddr).

Definition listenTarget (listenAddr : string) : JsError + Transport :=
  let colonIdx := JS.lastIndexOf ":" listenAddr in
  if looksLikeHostPort listenAddr then
    let host := JS.substring listenAddr 0 (Some colonIdx) in
    match JS.parseInt (JS.substring listenAddr (colonIdx + 1) None) with
    | None => inl (mkError ("Invalid listen port in: " ++ listenAddr) None)
    | Some port => inr (TcpStream host port)
    end
  else inr (SocketPath listenAddr).

(** [await this.instance.eval("1")]: the oracle settles the attempt. *)
Definition evalProbe (w : World) : M unit :=
  fun m =>
    match instance (self m) with
    | None => (Thrown typeError, m)
    | Some c =>
        let p := probe w (attempts m) in
        let m' := mkMachine (self m) (trace m ++ [EEval c])
                            (now m + Z.of_N (probeMs p)) (S (attempts m)) in
        if probeOk p then (Returned tt, m')
        else (Thrown (mkError "Neovim RPC connection failed" None), m')
    end.

(** [attachToServer]: one attempt. *)
Definition attachToServer (w : World) : M bool :=
  s <- getSelf ;;
  let listenAddr := listenOn (settings s) in
  tryCatch
    (match listenTarget listenAddr with
     | inl e => throw e
     | inr (TcpStream host port) =>
         emit (ECreateConnection host port) ;;;
         emit (EAttach (TcpStream host port)) ;;;
         modify (setInstance (Some (mkClient (TcpStream host port))))
     | inr (SocketPath socket) =>
         emit (EAttach (SocketPath socket)) ;;;
         modify (setInstance (Some (mkClient (SocketPath socket))))
     end ;;;
     evalProbe w ;;;
     ret true)
    (fun _ =>
       modify (setInstance None) ;;;
       ret false).

(** [waitForServerReady]: the polling loop. [fuel] bounds the number
    of times the loop condition is evaluated. *)
Definition pollInterval : Z := 200.

Definition stuck {A} : M A := fun m => (Stuck, m).

Fixpoint waitLoop (w : World) (start timeoutMs : Z) (fuel : nat) : M bool :=
  match fuel with
  | O => stuck
  | S fuel' =>
      t <- dateNow ;;
      if t - start <? timeoutMs then
        ok <- attachToServer w ;;
        if ok then ret true
        else sleep pollInterval ;;; waitLoop w start timeoutMs fuel'
      else ret false
  end.

Definition waitFuel (timeoutMs : Z) : nat :=
  S (Z.to_nat ((timeoutMs + (pollInterval - 1)) / pollInterval)).

Definition waitForServerReady (w : World) (timeoutMs : Z) : M bool :=
  start <- dateNow ;;
  waitLoop w start timeoutMs (waitFuel timeoutMs).

(** [registerProcessEvents] and the four handlers it installs. *)
Inductive ProcessEvent :=
| ProcError (err : JsError)
| ProcClose (exitCode : option Z)
| ProcDisconnect
| ProcExit (exitCode : option Z).

Definition registerProcessEvents : M unit :=
  s <- getSelf ;;
  match process s with
  | Some p => emit (ERegisterProcessEvents p)
  | None => ret tt
  end.

Definition onProcessEvent (ev : ProcessEvent) : M unit :=
  match ev with
  | ProcError _ => emit (ENotice NoticeProcessError None)
  | _ => ret tt
  end ;;;
  modify (setProcess None) ;;;
  modify (setInstance None).

(** [child_process.spawn(bin, args, options)]. *)
Definition doSpawn (w : World) (bin : string) (opts : SpawnProcessOptions)
  : M ChildProcess :=
  emit (ESpawn bin opts) ;;;
  match spawn w bin (spawnArgs opts) with
  | inr p => ret p
  | inl e => throw e
  end.

(** The part shared by the two direct strategies after the spawn. *)
Definition spawnCatch (e : JsError) : M unit :=
  notice (NoticeSpawnError (message e)) 10000 ;;;
  modify (setProcess None) ;;;
  modify (setInstance None).

(** [spawnHeadless]. *)
Definition spawnHeadless (w : World) (ad : FileSystemAdapter) (extraEnvVars : Env)
  : M unit :=
  s <- getSelf ;;
  let addr := listenOn (settings s) in
  let args := ["--headless"; "--listen"; addr] in
  nvim <- nvimPath ;;
  tryCatch
    (modify (setStartedVia ViaHeadless) ;;;
     p <- doSpawn w nvim
            (mkSpawnOptions args (getBasePath ad) (envSpread (processEnv w) extraEnvVars)
               ShellFalse false StdioIgnore) ;;
     modify (setProcess (Some p)) ;;;
     match pid p with
     | None =>
         notice NoticeProcessNotCreated 5000 ;;;
         modify (setProcess None)
     | Some _ =>
         registerProcessEvents ;;;
         ready <- waitForServerReady w 7000 ;;
         if ready then notice (NoticeServerStarted addr) 4000
         else notice (NoticeConnectFailed addr) 7000 ;;; close w
     end)
    spawnCatch.

(** [spawnWithTerminal]. *)
Definition spawnWithTerminal (w : World) (ad : FileSystemAdapter) (extraEnvVars : Env)
  : M unit :=
  s <- getSelf ;;
  let addr := listenOn (settings s) in
  term <- termPath ;;
  let terminalName :=
    match JS.lastOf (JS.split "\" term) with
    | Some piece => JS.orElse (JS.toLowerCase piece) ""
    | None => ""
    end in
  let defaultSpawnOptions :=
    mkSpawnOptions [] (getBasePath ad) (envSpread (processEnv w) extraEnvVars)
      ShellFalse false StdioDefault in
  nvim <- nvimPath ;;
  let spawnOptions :=
    configureProcessSpawnArgs w defaultSpawnOptions terminalName term nvim addr in
  tryCatch
    (modify (setStartedVia ViaTerminal) ;;;
     p <- doSpawn w term spawnOptions ;;
     modify (setProcess (Some p)) ;;;
     match pid p with
     | None =>
         notice NoticeProcessNotCreated 5000 ;;;
         modify (setProcess None)
     | Some _ =>
         registerProcessEvents ;;;
         ready <- waitForServerReady w 7000 ;;
         if ready then notice NoticeConnected 3000
         else notice (NoticeConnectFailed addr) 7000
     end)
    spawnCatch.

(** [tmuxHasSession]. *)
Definition tmuxHasSession (w : World) (sessionName : string) : M bool :=
  s <- getSelf ;;
  match tmuxBinary s with
  | Some tmux =>
      if JS.truthy tmux then
        tryCatch (runSync w tmux ["has-session"; "-t"; sessionName] ;;; ret true)
                 (fun _ => ret false)
      else ret false
  | None => ret false
  end.

(** [spawnTerminalToAttachTmux]: the child it starts is not kept. *)
Definition spawnTerminalToAttachTmux (w : World) (sessionName : string) : M unit :=
  s <- getSelf ;;
  if negb (JS.truthyOpt (termBinary s)) then notice NoticeNoTerminal 5000
  else
    tryCatch
      (term <- termPath ;;
       _ <- doSpawn w term
              (mkSpawnOptions
                 ["-e"; match tmuxBinary s with Some t => t | None => "tmux" end;
                  "attach"; "-t"; sessionName]
                 (getBasePath (adapter s)) (processEnv w) ShellFalse true StdioIgnore) ;;
       ret tt)
      (fun _ => notice NoticeTerminalAttachFailed 7000).

(** The launcher's own reading of the listen address in
    [spawnWithTmux]: the text after the last colon and whether the
    address is a TCP one. *)
Definition portStrOf (listenAddr : string) : string :=
  let colonIdx := JS.lastIndexOf ":" listenAddr in
  if 0 <? colonIdx then JS.substring listenAddr (colonIdx + 1) None else "".

Definition isTcpListen (listenAddr : string) : bool :=
  let colonIdx := JS.lastIndexOf ":" listenAddr in
  (0 <? colonIdx) && JS.isDigits (portStrOf listenAddr)
  && negb (JS.startsWith "/" listenAddr).

(** [spawnWithTmux]. *)
Definition tmuxNewSessionArgs (w : World) (sessionName basePath nvim addr : string)
    (extraEnvVars : Env) : list string :=
  let envPairs := map (fun kv => fst kv ++ "=" ++ snd kv) extraEnvVars in
  let envBin := if existsSync w "/usr/bin/env" then "/usr/bin/env" else "env" in
  ["new-session"; "-d"; "-s"; sessionName; "-c"; basePath; envBin]
    ++ envPairs ++ [nvim; "--listen"; addr].

Definition tmuxConnect (w : World) (sessionName : string) : M unit :=
  s <- getSelf ;;
  let addr := listenOn (settings s) in
  (if tmuxAttachOnStart (settings s) then spawnTerminalToAttachTmux w sessionName
   else ret tt) ;;;
  ready <- waitForServerReady w 7000 ;;
  if ready then notice (NoticeTmuxRunning sessionName) 4000
  else if negb (isTcpListen addr) && negb (existsSync w addr)
       then notice (NoticeSocketMissing addr) 10000
       else notice (NoticeTmuxUnreachable addr) 10000.

Definition tmuxCreateSession (w : World) (ad : FileSystemAdapter) (extraEnvVars : Env)
    (tmux sessionName : string) : M bool :=
  s <- getSelf ;;
  nvim <- nvimPath ;;
  tryCatch
    (runSync w tmux
       (tmuxNewSessionArgs w sessionName (getBasePath ad) nvim (listenOn (settings s))
          extraEnvVars) ;;;
     ret true)
    (fun _ => notice NoticeTmuxStartFailed 10000 ;;; ret false).

(** What [spawnWithTmux] does once the port conflict is ruled out. *)
Definition tmuxEnsureAndConnect (w : World) (ad : FileSystemAdapter) (extraEnvVars : Env)
    (tmux sessionName : string) (sessionExists : bool) : M unit :=
  if negb sessionExists then
    created <- tmuxCreateSession w ad extraEnvVars tmux sessionName ;;
    if created then tmuxConnect w sessionName else ret tt
  else tmuxConnect w sessionName.

Definition spawnWithTmux (w : World) (ad : FileSystemAdapter) (extraEnvVars : Env)
  : M unit :=
  if win32 w then notice NoticeTmuxUnsupported 7000
  else
    s <- getSelf ;;
    match tmuxBinary s with
    | None => notice NoticeTmuxNotFound 10000
    | Some tmux =>
        if negb (JS.truthy tmux) then notice NoticeTmuxNotFound 10000
        else
          modify (setStartedVia ViaTmux) ;;;
          let sessionName := sessionNameOf (settings s) in
          let listenAddr := listenOn (settings s) in
          let port := if isTcpListen listenAddr then Some (portStrOf listenAddr) else None in
          sessionExists <- tmuxHasSession w sessionName ;;
          inUse <- match port with
                   | Some p => if JS.truthy p then isPortInUse w p else ret false
                   | None => ret false
                   end ;;
          if inUse && negb sessionExists then
            notice (NoticePortInUse listenAddr) 12000
          else tmuxEnsureAndConnect w ad extraEnvVars tmux sessionName sessionExists
    end.

(** The strategy chosen by [newInstance] once its two guards have let
    the call through. *)
Inductive Strategy := StratHeadless | StratTerminal | StratTmux.

Definition selectStrategy (s : Neovim) : Strategy :=
  match hostMode (settings s) with
  | HostTmux => StratTmux
  | HostNvim =>
      let useHeadless := negb (JS.truthyOpt (termBinary s)) in
      if useHeadless then StratHeadless else StratTerminal
  end.

Definition launchEnv (s : Neovim) : Env :=
  let e1 := match apiKey s with
            | Some k => if JS.truthy k then envSet "OBSIDIAN_REST_API_KEY" k [] else []
            | None => []
            end in
  if negb (String.eqb (appname (settings s)) "")
  then envSet "NVIM_APPNAME" (appname (settings s)) e1 else e1.

Definition nvimBinaryMissing (s : Neovim) : bool :=
  match nvimBinary s with
  | None => true
  | Some b => String.eqb (path b) ""
  end.

Definition isHostNvim (s : Neovim) : bool :=
  match hostMode (settings s) with HostNvim => true | HostTmux => false end.

(** [newInstance]. *)
Definition newInstance (w : World) (ad : FileSystemAdapter) : M unit :=
  s <- getSelf ;;
  if isHostNvim s && isSome (process s) then notice NoticeAlreadyRunning 5000
  else if nvimBinaryMissing s then notice NoticeNoNvimBinary 5000
  else
    let extraEnvVars := launchEnv s in
    match selectStrategy s with
    | StratTmux => spawnWithTmux w ad extraEnvVars
    | StratHeadless => spawnHeadless w ad extraEnvVars
    | StratTerminal => spawnWithTerminal w ad extraEnvVars
    end.

(** [openFile]: the checks, then the remote-open command and the
    callback that reads its outcome. *)
Definition lineFeed : ascii := ascii_of_nat 10.

Definition isSupportedFile (s : Neovim) (file : TFile) : bool :=
  let isExcalidrawMd :=
    String.eqb (extension file) "md" && JS.endsWith ".excalidraw.md" (filePath file) in
  let types := supportedFileTypes (settings s) in
  JS.arrayIncludes (extension file) types
  || (isExcalidrawMd && JS.arrayIncludes "excalidraw" types).

Definition remoteArgs (s : Neovim) (file : TFile) : list string :=
  ["--server"; listenOn (settings s); "--remote"; getFullPath (adapter s) (filePath file)].

Definition openCallback (s : Neovim) (file : TFile) (nvim : string) (r : ExecFileResult)
  : M unit :=
  let absolutePath := getFullPath (adapter s) (filePath file) in
  let err := stderr r in
  match execError r with
  | None => ret tt
  | Some e =>
      notice
        (if match errno e with Some c => String.eqb c "ENOENT" | None => false end
         then NoticeNvimNotFoundAt nvim
         else if JS.truthy err
                 && (JS.includes "ECONNREFUSED" err || JS.includes "Connection refused" err)
         then NoticeServerRefused (listenOn (settings s))
         else if JS.truthy err && JS.includes "No such file or directory" err
                 && JS.includes absolutePath err
         then NoticeFileNotFound (basename file)
         else if JS.truthy err
         then NoticeOpenError (hd "" (JS.split lineFeed err))
         else NoticeOpenError (message e))
        10000
  end.

Definition remoteOpen (w : World) (s : Neovim) (file : TFile) (nvim : string) : M unit :=
  tryCatch
    (emit (EExecFile nvim (remoteArgs s file)) ;;;
     match execFile w nvim (remoteArgs s file) with
     | inr r => openCallback s file nvim r
     | inl e => throw e
     end)
    (fun e => notice (NoticeRunFailed (message e)) 10000).

Definition nvimPathOrEmpty (s : Neovim) : string :=
  match nvimBinary s with Some b => path b | None => "" end.

Definition openFile (w : World) (file : option TFile) : M unit :=
  match file with
  | None => ret tt
  | Some f =>
      s <- getSelf ;;
      if negb (JS.truthy (nvimPathOrEmpty s)) then ret tt
      else if negb (isSupportedFile s f) then ret tt
      else remoteOpen w s f (nvimPathOrEmpty s)
  end.

(* ================================================================== *)
(** ** The historical [openFile] (the two earlier copies of the class) *)
(* ================================================================== *)

Module Legacy.

(** [openFile] as the earlier copies have it: the port is the text
    after the last colon of the listen address, and the command is
    only sent when something is bound to that port. *)
Definition portOf (listenAddr : string) : option string :=
  JS.lastOf (JS.split ":" listenAddr).

Definition openFile (w : World) (file : option TFile) : M unit :=
  match file with
  | None => ret tt
  | Some f =>
      s <- getSelf ;;
      let nvim := nvimPathOrEmpty s in
      if negb (JS.truthy nvim) then ret tt
      else if negb (isSupportedFile s f) then ret tt
      else
        let port := portOf (listenOn (settings s)) in
        if negb (isSome (instance s) && isSome (process s)) && negb (JS.truthyOpt port)
        then ret tt
        else
          inUse <- match port with
                   | Some p => if JS.truthy p then isPortInUse w p else ret false
                   | None => ret false
                   end ;;
          if negb inUse then ret tt
          else
            emit (EExec (nvim ++ " --server " ++ listenOn (settings s) ++ " --remote '"
                         ++ getFullPath (adapter s) (filePath f) ++ "'")) ;;;
            remoteOpen w s f nvim
  end.

End Legacy.

(* ================================================================== *)
(** ** Operations on the component and the states they reach *)
(* ================================================================== *)

(** What can happen to a constructed component: a call of one of its
    public methods, a callback of the child process, or the settings
    tab of [Settings.ts] writing a new value into the settings object
    ([this.plugin.settings.hostMode = value], and so on for each field),
    the object the component holds in [this.settings]. *)
Inductive Op :=
| OpNewInstance (ad : FileSystemAdapter)
| OpOpenFile (file : option TFile)
| OpGetBuffers
| OpDisconnect
| OpOnObsidianQuit
| OpClose
| OpProcessEvent (ev : ProcessEvent)
| OpSaveSettings (st : EditInNeovimSettings).

Definition forget {A} (c : M A) : M unit := c ;;; ret tt.

Definition run (w : World) (op : Op) : M unit :=
  match op with
  | OpNewInstance ad => newInstance w ad
  | OpOpenFile file => openFile w file
  | OpGetBuffers => forget (getBuffers w)
  | OpDisconnect => disconnect
  | OpOnObsidianQuit => onObsidianQuit w
  | OpClose => close w
  | OpProcessEvent ev => onProcessEvent ev
  | OpSaveSettings st => modify (setSettings st)
  end.

Definition after (w : World) (op : Op) (m : Machine) : Machine := snd (run w op m).

(** Does the operation leave the host mode as it is. *)
Definition keepsHostMode (s : Neovim) (op : Op) : Prop :=
  match op with
  | OpSaveSettings st => hostMode st = hostMode (settings s)
  | _ => True
  end.

(** The states reached from the constructor by operations that satisfy
    [allowed]. *)
Inductive reachableBy (allowed : Neovim -> Op -> Prop) : Machine -> Prop :=
| reach_construct : forall w st ad key,
    reachableBy allowed (construct w st ad key)
| reach_step : forall m w op,
    reachableBy allowed m ->
    allowed (self m) op ->
    reachableBy allowed (after w op m).

Definition reachable : Machine -> Prop := reachableBy (fun _ _ => True).

Definition reachableFixedMode : Machine -> Prop := reachableBy keepsHostMode.

(* ================================================================== *)
(** ** The words of the specification, for comparison with the code *)
(* ================================================================== *)


(** The events an operation added to the trace. *)
Definition newEvents (before after_ : Machine) : list Event :=
  skipn (List.length (trace before)) (trace after_).

(** Is the event the remote-open command. *)
Definition isRemoteOpen (e : Event) : bool :=
  match e with
  | EExecFile _ _ => true
  | EExec _ => true
  | _ => false
  end.


(* ================================================================== *)
(** ** Sample configurations *)
(* ================================================================== *)

(** [DEFAULT_SETTINGS] of [Settings.ts], with [TERMINAL] unset. *)
Definition DEFAULT_SETTINGS : EditInNeovimSettings :=
  mkSettings HostNvim "" "127.0.0.1:2006" true
    ["txt"; "md"; "css"; "js"; "ts"; "tsx"; "jsx"; "json"]
    "" "" "obsidian" false false.

Definition withHostMode (h : HostMode) (st : EditInNeovimSettings) : EditInNeovimSettings :=
  mkSettings h (terminal st) (listenOn st) (openNeovimOnLoad st) (supportedFileTypes st)
    (pathToBinary st) (appname st) (tmuxSessionName st) (tmuxAttachOnStart st)
    (tmuxKeepAliveOnQuit st).

Definition withListenOn (a : string) (st : EditInNeovimSettings) : EditInNeovimSettings :=
  mkSettings (hostMode st) (terminal st) a (openNeovimOnLoad st) (supportedFileTypes st)
    (pathToBinary st) (appname st) (tmuxSessionName st) (tmuxAttachOnStart st)
    (tmuxKeepAliveOnQuit st).

Definition withKeepAlive (b : bool) (st : EditInNeovimSettings) : EditInNeovimSettings :=
  mkSettings (hostMode st) (terminal st) (listenOn st) (openNeovimOnLoad st)
    (supportedFileTypes st) (pathToBinary st) (appname st) (tmuxSessionName st)
    (tmuxAttachOnStart st) b.

Definition vaultAdapter : FileSystemAdapter :=
  mkAdapter "/vault" (fun p => "/vault/" ++ p).

(** A machine on which everything asked for is there and answers at
    once: binaries are found under [/usr/bin], every spawn yields a
    process, every tmux command succeeds, the endpoint answers. *)
Definition readyWorld : World :=
  mkWorld false [] "/bin/sh"
    (fun name => Some ("/usr/bin/" ++ name))
    [mkNvimBinary "/usr/bin/nvim" (Some "0.10.0") None]
    (fun _ _ => inr (mkChildProcess (Some 4242)))
    (fun _ _ => true)
    (fun _ _ => inr (mkExecFileResult None "" ""))
    (fun _ => true)
    []
    (fun _ => mkProbe true 0)
    (inr []).

(** The same machine with nothing listening: every attach attempt
    fails after [ms] milliseconds, and the port table is empty. *)
Definition deafWorld (ms : N) : World :=
  mkWorld false [] "/bin/sh"
    (fun name => Some ("/usr/bin/" ++ name))
    [mkNvimBinary "/usr/bin/nvim" (Some "0.10.0") None]
    (fun _ _ => inr (mkChildProcess (Some 4242)))
    (fun _ _ => true)
    (fun _ _ => inr (mkExecFileResult (Some (mkError "Command failed" None)) ""
                       "E247: Failed to connect: Connection refused"))
    (fun _ => false)
    []
    (fun _ => mkProbe false ms)
    (inl (mkError "not connected" None)).

(** A machine where port 2006 is taken and the tmux session exists. *)
Definition busyWorld : World :=
  mkWorld false [] "/bin/sh"
    (fun name => Some ("/usr/bin/" ++ name))
    [mkNvimBinary "/usr/bin/nvim" (Some "0.10.0") None]
    (fun _ _ => inr (mkChildProcess (Some 4242)))
    (fun _ _ => true)
    (fun _ _ => inr (mkExecFileResult None "" ""))
    (fun _ => true)
    ["22"; "2006"]
    (fun _ => mkProbe true 0)
    (inr []).

Definition noteFile : TFile := mkTFile "md" "notes/today.md" "today".

(** The component as constructed from the default settings. *)
Definition freshMachine : Machine := construct readyWorld DEFAULT_SETTINGS vaultAdapter None.

Definition tmuxMachine (keepAlive : bool) : Machine :=
  construct readyWorld (withKeepAlive keepAlive (withHostMode HostTmux DEFAULT_SETTINGS))
    vaultAdapter None.

(* ================================================================== *)
(** ** Reasoning principles for the method bodies *)
(* ================================================================== *)

(** [c] relates every machine it starts from to the one it leaves. *)
Definition respects (R : Machine -> Machine -> Prop) {A} (c : M A) : Prop :=
  forall m, R m (snd (c m)).

(** [c] always returns a value: it neither throws nor runs out of steps. *)
Definition returns {A} (c : M A) : Prop :=
  forall m, exists a, fst (c m) = Returned a.

(** The relations the frame arguments use. *)
Definition sameProcess (m m' : Machine) : Prop :=
  process (self m') = process (self m).

Definition sameSettings (m m' : Machine) : Prop :=
  settings (self m') = settings (self m).

Definition sameStatics (m m' : Machine) : Prop :=
  settings (self m') = settings (self m)
  /\ nvimBinary (self m') = nvimBinary (self m)
  /\ termBinary (self m') = termBinary (self m)
  /\ tmuxBinary (self m') = tmuxBinary (self m)
  /\ adapter (self m') = adapter (self m)
  /\ apiKey (self m') = apiKey (self m).

Definition sameStartedVia (m m' : Machine) : Prop :=
  startedVia (self m') = startedVia (self m).

(** The process handle is kept or dropped, never newly set. *)
Definition processNotSet (m m' : Machine) : Prop :=
  process (self m') = process (self m) \/ process (self m') = None.

(** [startedVia] does not become [tmux]. *)
Definition notToTmux (m m' : Machine) : Prop :=
  startedVia (self m) <> ViaTmux -> startedVia (self m') <> ViaTmux.

(** The trace grows by events that all satisfy [P]. *)
Definition extendsBy (P : Event -> Prop) (m m' : Machine) : Prop :=
  exists evs, trace m' = (trace m ++ evs)%list /\ Forall P evs.

(** The machine with both handles dropped and nothing else touched. *)
Definition handlesDropped (m : Machine) : Machine :=
  mkMachine (setProcess None (setInstance None (self m))) (trace m) (now m) (attempts m).

(** The machine with more events on its trace and nothing else touched. *)
Definition logged (evs : list Event) (m : Machine) : Machine :=
  mkMachine (self m) (trace m ++ evs) (now m) (attempts m).

(** The default machine after one launch on [readyWorld]. *)
Definition launchedMachine : Machine :=
  snd (newInstance readyWorld vaultAdapter freshMachine).

(** The tmux-mode machine after one launch on [busyWorld]. *)
Definition tmuxLaunched (keepAlive : bool) : Machine :=
  snd (newInstance busyWorld vaultAdapter (tmuxMachine keepAlive)).

(** The default machine with another listen address. *)
Definition machineListening (addr : string) : Machine :=
  construct readyWorld (withListenOn addr DEFAULT_SETTINGS) vaultAdapter None.

(** The text before and after the last colon of an address, as
    [attachToServer] cuts it. *)
Definition beforeLastColon (addr : string) : string :=
  JS.substring addr 0 (Some (JS.lastIndexOf ":" addr)).

Definition afterLastColon (addr : string) : string :=
  JS.substring addr (JS.lastIndexOf ":" addr + 1) None.

(** The machine after a failed attach attempt that made no call. *)
Definition instanceCleared (m : Machine) : Machine :=
  mkMachine (setInstance None (self m)) (trace m) (now m) (attempts m).

(** The machine after an attach attempt through [t] that the endpoint
    settled: the calls made, the clock advanced by the latency of the
    attempt, the handle kept when the probe succeeded. *)
Definition connectEvents (t : Transport) : list Event :=
  match t with
  | TcpStream host port =>
      [ECreateConnection host port; EAttach t; EEval (mkClient t)]
  | SocketPath _ => [EAttach t; EEval (mkClient t)]
  end.

Definition attempted (w : World) (t : Transport) (m : Machine) : Machine :=
  let p := probe w (attempts m) in
  mkMachine
    (setInstance (if probeOk p then Some (mkClient t) else None) (self m))
    (trace m ++ connectEvents t)
    (now m + Z.of_N (probeMs p))
    (S (attempts m)).

(** The machine after [await new Promise(r => setTimeout(r, 200))]. *)
Definition slept (m : Machine) : Machine :=
  mkMachine (self m) (trace m) (now m + pollInterval) (attempts m).

(** The step budget [fuel] is enough for a loop entered on [m]. *)
Definition enoughFuel (start timeoutMs : Z) (fuel : nat) (m : Machine) : Prop :=
  timeoutMs - (now m - start) <= pollInterval * (Z.of_nat fuel - 1).

(** The operations that neither launch nor save settings. *)
Definition quietOp (op : Op) : Prop :=
  match op with
  | OpNewInstance _ => False
  | OpSaveSettings _ => False
  | _ => True
  end.

(** The invariant behind "no process handle in a tmux session" while
    the host mode stays as it is: in tmux mode no process handle is
    held, and in nvim mode the session is never recorded as started
    through tmux. *)
Definition modeInvariant (s : Neovim) : Prop :=
  match hostMode (settings s) with
  | HostTmux => process s = None
  | HostNvim => startedVia s <> ViaTmux
  end.

(** The machine of [spawnWithTmux] after the session and the port have
    been looked up: [startedVia] is [tmux], and the trace holds the
    [has-session] command followed, for a TCP address, by the query of
    the network table. *)
Definition tmuxLookedUp (tmux : string) (m : Machine) : Machine :=
  mkMachine (setStartedVia ViaTmux (self m))
    (trace m
     ++ EExecFileSync tmux ["has-session"; "-t"; sessionNameOf (settings (self m))]
        :: (if isTcpListen (listenOn (settings (self m))) then [ENetworkConnections] else []))
    (now m) (attempts m).

(** Is something bound to the port of the address. *)
Definition portBound (w : World) (addr : string) : bool :=
  existsb (fun localPort => String.eqb localPort (portStrOf addr)) (networkConnections w).

(** The state reached by launching headless, switching the host mode
    to tmux in the settings tab, and launching again. *)
Definition staleMachine : Machine :=
  after readyWorld (OpNewInstance vaultAdapter)
    (after readyWorld (OpSaveSettings (withHostMode HostTmux DEFAULT_SETTINGS))
       (after readyWorld (OpNewInstance vaultAdapter) freshMachine)).


(* ================================================================== *)
(** ** [utils.ts]: the binary search *)
(* ================================================================== *)

(** The functions of [node:path] and [node:fs] that [searchForBinary]
    calls besides [existsSync]. *)
Record PathLib := mkPathLib {
  normalize : string -> string;            (* path.normalize *)
  pathJoin : string -> string -> string;   (* path.join *)
  accessSync : string -> bool              (* accessSync(path, X_OK); false: it throws *)
}.

(** Reading a key of [process.env]. *)
Fixpoint envGet (k : string) (e : Env) : option string :=
  match e with
  | [] => None
  | (k', v) :: e' => if String.eqb k k' then Some v else envGet k e'
  end.

(** [Set.prototype.add], the set kept in insertion order. *)
Definition setAdd (x : string) (l : list string) : list string :=
  if existsb (String.eqb x) l then l else l ++ [x].

Definition setAddAll (xs l : list string) : list string :=
  fold_left (fun acc x => setAdd x acc) xs l.

(** [path.delimiter]. *)
Definition delimiter (w : World) : ascii := if win32 w then ";"%char else ":"%char.

(** [normalizePath]. *)
Definition normalizePath (w : World) (lib : PathLib) (p : string) : string :=
  normalize lib (if win32 w then JS.toLowerCase p else p).

(** [if (VAR) paths.add(normalizePath(`${VAR}suffix`))], for each suffix. *)
Definition addUnder (w : World) (lib : PathLib) (var : string) (suffixes : list string)
    (paths : list string) : list string :=
  match envGet var (processEnv w) with
  | Some v =>
      if JS.truthy v
      then setAddAll (map (fun suffix => normalizePath w lib (v ++ suffix)) suffixes) paths
      else paths
  | None => paths
  end.

(** The directories [searchForBinary] looks into, in order. *)
Definition searchPaths (w : World) (lib : PathLib) : list string :=
  let fromPath :=
    match envGet "PATH" (processEnv w) with
    | Some PATH =>
        setAddAll (map (normalizePath w lib) (JS.split (delimiter w) PATH)) []
    | None => []
    end in
  if win32 w then
    let p1 := addUnder w lib "USERPROFILE" ["/scoop/shims"] fromPath in
    let p2 := setAdd (normalizePath w lib "C:/ProgramData/scoop/shims") p1 in
    let p3 := addUnder w lib "LOCALAPPDATA"
                ["/Microsoft/WindowsApps"; "/Microsoft/WinGet/Packages"] p2 in
    addUnder w lib "PROGRAMFILES" ["/WinGet/Packages"; " (x86)/WinGet/Packages"] p3
  else
    let p1 := setAddAll ["/usr/local/bin"; "/usr/bin"; "/opt/homebrew/bin";
                         "/home/linuxbrew/.linuxbrew/bin"] fromPath in
    addUnder w lib "HOME" ["/bin"; "/.linuxbrew/bin"] p1.

(** The loop over the candidate files: the first one that exists
    decides. *)
Fixpoint firstUsable (w : World) (lib : PathLib) (allPaths : list string)
  : option string :=
  match allPaths with
  | [] => None
  | p :: rest =>
      if negb (existsSync w p) then firstUsable w lib rest
      else if accessSync lib p then Some p else None
  end.

Definition binaryName (w : World) (name : string) : string :=
  if win32 w then name ++ ".exe" else name.

(** [searchForBinary]. *)
Definition searchForBinary (w : World) (lib : PathLib) (name : string) : option string :=
  firstUsable w lib
    (map (fun p => pathJoin lib p (binaryName w name)) (searchPaths w lib)).

(* ================================================================== *)
(** ** [Settings.ts]: what the settings tab writes *)
(* ================================================================== *)

(** [Array.prototype.join] on an array of strings. *)
Fixpoint arrayJoin (sep : string) (l : list string) : string :=
  match l with
  | [] => ""
  | x :: rest =>
      match rest with
      | [] => x
      | _ :: _ => x ++ sep ++ arrayJoin sep rest
      end
  end.

Definition withTmuxSessionName (n : string) (st : EditInNeovimSettings)
  : EditInNeovimSettings :=
  mkSettings (hostMode st) (terminal st) (listenOn st) (openNeovimOnLoad st)
    (supportedFileTypes st) (pathToBinary st) (appname st) n (tmuxAttachOnStart st)
    (tmuxKeepAliveOnQuit st).

Definition withSupportedFileTypes (l : list string) (st : EditInNeovimSettings)
  : EditInNeovimSettings :=
  mkSettings (hostMode st) (terminal st) (listenOn st) (openNeovimOnLoad st)
    l (pathToBinary st) (appname st) (tmuxSessionName st) (tmuxAttachOnStart st)
    (tmuxKeepAliveOnQuit st).

(** The [onChange] handler of the "tmux session name" field. *)
Definition onChangeTmuxSessionName (value : string) (st : EditInNeovimSettings)
  : EditInNeovimSettings :=
  withTmuxSessionName (JS.orElse (JS.trim value) (tmuxSessionName DEFAULT_SETTINGS)) st.

(** The "Supported file types" field: what it shows and what its
    [onChange] handler stores. *)
Definition shownSupportedFileTypes (st : EditInNeovimSettings) : string :=
  arrayJoin " " (supportedFileTypes st).

Definition onChangeSupportedFileTypes (value : string) (st : EditInNeovimSettings)
  : EditInNeovimSettings :=
  withSupportedFileTypes (JS.split " " value) st.

(* ================================================================== *)
(** ** Further vocabulary for the properties *)
(* ================================================================== *)

(** The resolved binaries, the adapter and the API key. *)
Definition sameBinaries (m m' : Machine) : Prop :=
  nvimBinary (self m') = nvimBinary (self m)
  /\ termBinary (self m') = termBinary (self m)
  /\ tmuxBinary (self m') = tmuxBinary (self m)
  /\ adapter (self m') = adapter (self m)
  /\ apiKey (self m') = apiKey (self m).

Definition isNoticeEvent (e : Event) : Prop :=
  match e with ENotice _ _ => True | _ => False end.

(** The event signals the local process or asks the RPC client to quit. *)
Definition isSignal (e : Event) : bool :=
  match e with
  | EKill _ => true
  | EQuit _ => true
  | _ => false
  end.

Definition notSignal (e : Event) : Prop := isSignal e = false.

(** The event is a command given to tmux. *)
Definition isTmuxCommand (e : Event) : bool :=
  match e with
  | EExecFileSync _ _ => true
  | _ => false
  end.

(** What [close] sends out in a state not started through tmux. *)
Definition closeSignals (s : Neovim) : list Event :=
  (match process s with Some p => [EKill p] | None => [] end)
  ++ (match instance s with Some c => [EQuit c] | None => [] end)
  ++ [ENotice NoticeClosed (Some 3000)].

(** What [close] sends out in a state started through tmux. *)
Definition closeTmuxEvents (w : World) (tmux : string) (s : Neovim) : list Event :=
  let name := sessionNameOf (settings s) in
  [EExecFileSync tmux ["kill-session"; "-t"; name];
   if execFileSync w tmux ["kill-session"; "-t"; name]
   then ENotice (NoticeTmuxKilled name) (Some 4000)
   else ENotice (NoticeTmuxKillFailed name) (Some 10000)].


(** The machine right after a direct launch has got its process:
    [startedVia] recorded, the handle kept, the handlers installed. *)
Definition spawned (via : StartedVia) (bin : string) (opts : SpawnProcessOptions)
    (p : ChildProcess) (m : Machine) : Machine :=
  mkMachine (setProcess (Some p) (setStartedVia via (self m)))
    (trace m ++ [ESpawn bin opts; ERegisterProcessEvents p])
    (now m) (attempts m).

(** The machine after a spawn that threw or gave no process id. *)
Definition spawnThrew (via : StartedVia) (bin : string) (opts : SpawnProcessOptions)
    (e : JsError) (m : Machine) : Machine :=
  mkMachine (setInstance None (setProcess None (setStartedVia via (self m))))
    (trace m ++ [ESpawn bin opts; ENotice (NoticeSpawnError (message e)) (Some 10000)])
    (now m) (attempts m).

Definition spawnedNoPid (via : StartedVia) (bin : string) (opts : SpawnProcessOptions)
    (m : Machine) : Machine :=
  mkMachine (setProcess None (setStartedVia via (self m)))
    (trace m ++ [ESpawn bin opts; ENotice NoticeProcessNotCreated (Some 5000)])
    (now m) (attempts m).

(** The options of the two direct launches. *)
Definition headlessOptions (w : World) (ad : FileSystemAdapter) (extraEnvVars : Env)
    (addr : string) : SpawnProcessOptions :=
  mkSpawnOptions ["--headless"; "--listen"; addr] (getBasePath ad)
    (envSpread (processEnv w) extraEnvVars) ShellFalse false StdioIgnore.

Definition terminalNameOf (term : string) : string :=
  match JS.lastOf (JS.split "\" term) with
  | Some piece => JS.orElse (JS.toLowerCase piece) ""
  | None => ""
  end.

Definition terminalOptions (w : World) (ad : FileSystemAdapter) (extraEnvVars : Env)
    (term nvim addr : string) : SpawnProcessOptions :=
  configureProcessSpawnArgs w
    (mkSpawnOptions [] (getBasePath ad) (envSpread (processEnv w) extraEnvVars)
       ShellFalse false StdioDefault)
    (terminalNameOf term) term nvim addr.

(** The machine after a wait on an address whose port does not parse:
    no call, the handle cleared, the clock at the end of the last sleep. *)
Definition waitedInVain (timeoutMs : Z) (m : Machine) : Machine :=
  mkMachine (setInstance None (self m)) (trace m)
    (now m + pollInterval * ((timeoutMs + (pollInterval - 1)) / pollInterval))
    (attempts m).

(** A machine with a home directory and a search path. *)
Definition shellWorld : World :=
  mkWorld false [("PATH", "/opt/bin:/usr/bin"); ("HOME", "/home/me")] "/bin/sh"
    (fun name => Some ("/usr/bin/" ++ name))
    [mkNvimBinary "/usr/bin/nvim" (Some "0.10.0") None]
    (fun _ _ => inr (mkChildProcess (Some 4242)))
    (fun _ _ => true)
    (fun _ _ => inr (mkExecFileResult None "" ""))
    (fun p => String.eqb p "/usr/bin/kitty" || String.eqb p "/opt/bin/kitty")
    []
    (fun _ => mkProbe true 0)
    (inr []).

(** Paths taken as they are; only [/usr/bin/kitty] may be executed. *)
Definition plainPaths : PathLib :=
  mkPathLib (fun p => p) (fun d f => d ++ "/" ++ f)
    (fun p => String.eqb p "/usr/bin/kitty").

(** A world where no editor is found. *)
Definition blindWorld : World :=
  mkWorld false [] "/bin/sh" (fun _ => None) []
    (fun _ _ => inr (mkChildProcess (Some 4242)))
    (fun _ _ => true)
    (fun _ _ => inr (mkExecFileResult None "" ""))
    (fun _ => false) [] (fun _ => mkProbe false 0)
    (inl (mkError "not connected" None)).

(** A machine on which no program can be started. *)
Definition barrenWorld : World :=
  mkWorld false [] "/bin/sh"
    (fun name => Some ("/usr/bin/" ++ name))
    [mkNvimBinary "/usr/bin/nvim" (Some "0.10.0") None]
    (fun _ _ => inl (mkError "spawn EACCES" (Some "EACCES")))
    (fun _ _ => false)
    (fun _ _ => inl (mkError "spawn EACCES" (Some "EACCES")))
    (fun _ => false) [] (fun _ => mkProbe false 0)
    (inl (mkError "not connected" None)).


(** A history: the operations applied one after the other, each in the
    world it meets. *)
Definition afterAll (steps : list (World * Op)) (m : Machine) : Machine :=
  fold_left (fun m' step => after (fst step) (snd step) m') steps m.




(** The RPC handle is kept or dropped, never newly set. *)
Definition instanceNotSet (m m' : Machine) : Prop :=
  instance (self m') = instance (self m) \/ instance (self m') = None.

(** A component that has never started anything and cannot: no usable
    path to the editor, no handle, no strategy recorded, and nothing on
    its trace but notices. *)
Definition inert (m : Machine) : Prop :=
  nvimBinaryMissing (self m) = true
  /\ process (self m) = None
  /\ instance (self m) = None
  /\ startedVia (self m) = ViaUnknown
  /\ Forall isNoticeEvent (trace m).

(** A handle is held only in a session whose strategy is recorded. *)
Definition handlesImplyStarted (s : Neovim) : Prop :=
  process s <> None \/ instance s <> None -> startedVia s <> ViaUnknown.





(** A machine where port 2006 is taken and no tmux session exists. *)
Definition crowdedWorld : World :=
  mkWorld false [] "/bin/sh"
    (fun name => Some ("/usr/bin/" ++ name))
    [mkNvimBinary "/usr/bin/nvim" (Some "0.10.0") None]
    (fun _ _ => inr (mkChildProcess (Some 4242)))
    (fun _ args => match args with
                   | verb :: _ => negb (String.eqb verb "has-session")
                   | [] => true
                   end)
    (fun _ _ => inr (mkExecFileResult None "" ""))
    (fun _ => true)
    ["22"; "2006"]
    (fun _ => mkProbe true 0)
    (inr []).
(* ================================================================== *)
(** ** Checks of the embedding on concrete inputs *)
(* ================================================================== *)

Example parseInt_examples :
  JS.parseInt "2006" = Some 2006 /\ JS.parseInt " +12ab" = Some 12
  /\ JS.parseInt "ab" = None /\ JS.parseInt "0x1f" = Some 31
  /\ JS.parseInt "" = None /\ JS.parseInt "-" = None.
Proof. repeat split; reflexivity. Qed.

Example split_examples :
  JS.split ":" "127.0.0.1:2006" = ["127.0.0.1"; "2006"]
  /\ JS.split ":" "" = [""] /\ JS.split ":" "a:" = ["a"; ""].
Proof. repeat split; reflexivity. Qed.

Example lastIndexOf_examples :
  JS.lastIndexOf ":" "a:b:c" = 3 /\ JS.lastIndexOf ":" "abc" = -1
  /\ JS.lastIndexOf ":" ":abc" = 0.
Proof. repeat split; reflexivity. Qed.

Example substring_examples :
  JS.substring "127.0.0.1:2006" 0 (Some 9) = "127.0.0.1"
  /\ JS.substring "127.0.0.1:2006" 10 None = "2006"
  /\ JS.substring "abc" 2 (Some 1) = "b".
Proof. repeat split; reflexivity. Qed.

Example trim_examples :
  JS.trim "  a b  " = "a b" /\ JS.endsWith ".excalidraw.md" "x.excalidraw.md" = true.
Proof. repeat split; reflexivity. Qed.

Example fresh_launch_is_headless :
  let r := newInstance readyWorld vaultAdapter freshMachine in
  fst r = Returned tt
  /\ startedVia (self (snd r)) = ViaHeadless
  /\ process (self (snd r)) = Some (mkChildProcess (Some 4242))
  /\ instance (self (snd r)) = Some (mkClient (TcpStream "127.0.0.1" 2006)).
Proof. vm_compute. repeat split; reflexivity. Qed.

(* ================================================================== *)
(** ** The monad and the frame relations *)
(* ================================================================== *)

Section Respects.

Variable R : Machine -> Machine -> Prop.
Hypothesis R_refl : forall m, R m m.
Hypothesis R_trans : forall a b c, R a b -> R b c -> R a c.

Lemma respects_ret {A} (a : A) : respects R (ret a).
Proof. intros m. apply R_refl. Qed.

Lemma respects_throw {A} (e : JsError) : respects R (@throw A e).
Proof. intros m. apply R_refl. Qed.

Lemma respects_stuck {A} : respects R (@stuck A).
Proof. intros m. apply R_refl. Qed.

Lemma respects_getSelf : respects R getSelf.
Proof. intros m. apply R_refl. Qed.

Lemma respects_dateNow : respects R dateNow.
Proof. intros m. apply R_refl. Qed.

Lemma respects_bind {A B} (c : M A) (k : A -> M B) :
  respects R c -> (forall a, respects R (k a)) -> respects R (bind c k).
Proof.
  intros Hc Hk m. unfold bind. specialize (Hc m).
  destruct (c m) as [[a | e |] m']; simpl in *; trivial.
  eapply R_trans; [exact Hc | apply Hk].
Qed.

Lemma respects_tryCatch {A} (body : M A) (handler : JsError -> M A) :
  respects R body -> (forall e, respects R (handler e)) ->
  respects R (tryCatch body handler).
Proof.
  intros Hb Hh m. unfold tryCatch. specialize (Hb m).
  destruct (body m) as [[a | e |] m']; simpl in *; trivial.
  eapply R_trans; [exact Hb | apply Hh].
Qed.

End Respects.

(* ================================================================== *)
(** ** Shutdown dispatch *)
(* ================================================================== *)

Lemma skipn_own_length {A} (l : list A) : skipn (List.length l) l = [].
Proof. induction l; simpl; trivial. Qed.

Lemma newEvents_logged (m : Machine) (evs : list Event) :
  newEvents m (logged evs m) = evs.
Proof.
  unfold newEvents, logged; simpl.
  rewrite skipn_app, skipn_own_length, Nat.sub_diag. reflexivity.
Qed.

(** C9. When [onObsidianQuit] runs with [startedVia = tmux] and the
    keep-alive-on-quit flag set, nothing leaves the component (so no
    [kill-session] command, no call of tmux at all) and the only change
    is that the process handle and the RPC handle are cleared; in every
    other case [onObsidianQuit] is exactly [close]. *)
Theorem onObsidianQuit_keep_alive_is_local :
  forall (w : World) (m : Machine),
    (startedVia (self m) = ViaTmux /\ tmuxKeepAliveOnQuit (settings (self m)) = true ->
       onObsidianQuit w m = (Returned tt, handlesDropped m)
       /\ newEvents m (snd (onObsidianQuit w m)) = []
       /\ instance (self (snd (onObsidianQuit w m))) = None
       /\ process (self (snd (onObsidianQuit w m))) = None
       /\ sameStatics m (snd (onObsidianQuit w m))
       /\ sameStartedVia m (snd (onObsidianQuit w m)))
    /\ (~ (startedVia (self m) = ViaTmux /\ tmuxKeepAliveOnQuit (settings (self m)) = true) ->
       onObsidianQuit w m = close w m).
Proof.
  intros w m. split.
  - intros [Hvia Hkeep].
    assert (E : onObsidianQuit w m = (Returned tt, handlesDropped m)).
    { unfold onObsidianQuit, bind, getSelf. rewrite Hvia, Hkeep. reflexivity. }
    rewrite E. simpl. split; [reflexivity |].
    split; [apply skipn_own_length |].
    repeat split.
  - intros Hnot. unfold onObsidianQuit, bind, getSelf.
    destruct (startedVia (self m)) eqn:Hvia; try reflexivity.
    destruct (tmuxKeepAliveOnQuit (settings (self m))) eqn:Hkeep; try reflexivity.
    exfalso. apply Hnot. split; reflexivity.
Qed.

Lemma onObsidianQuit_keep_alive_witness :
  onObsidianQuit readyWorld (tmuxLaunched true)
    = (Returned tt, handlesDropped (tmuxLaunched true))
  /\ onObsidianQuit readyWorld (tmuxLaunched false)
    = close readyWorld (tmuxLaunched false).
Proof.
  split.
  - apply (proj1 (onObsidianQuit_keep_alive_is_local readyWorld (tmuxLaunched true))).
    split; vm_compute; reflexivity.
  - apply (proj2 (onObsidianQuit_keep_alive_is_local readyWorld (tmuxLaunched false))).
    intros [_ H]. vm_compute in H. discriminate H.
Defined.

(* ================================================================== *)
(** ** The buffer query *)
(* ================================================================== *)

(** C10. [getBuffers] never raises: for every state it returns a list;
    the empty one, with nothing done, when no RPC handle is attached;
    and when the buffer query fails, the empty one after a notice that
    carries the error's message. *)
Theorem getBuffers_never_raises :
  forall (w : World),
    returns (getBuffers w)
    /\ forall m : Machine,
        getBuffers w m =
          match instance (self m) with
          | None => (Returned [], m)
          | Some c =>
              match buffers w with
              | inr bs => (Returned bs, logged [EBuffers c] m)
              | inl e =>
                  (Returned [],
                   logged [EBuffers c;
                           ENotice (NoticeBuffersFailed (message e)) (Some 5000)] m)
              end
          end.
Proof.
  intros w.
  assert (H : forall m : Machine,
        getBuffers w m =
          match instance (self m) with
          | None => (Returned [], m)
          | Some c =>
              match buffers w with
              | inr bs => (Returned bs, logged [EBuffers c] m)
              | inl e =>
                  (Returned [],
                   logged [EBuffers c;
                           ENotice (NoticeBuffersFailed (message e)) (Some 5000)] m)
              end
          end).
  { intros m. unfold getBuffers, bind, getSelf.
    destruct (instance (self m)) as [c |]; [| reflexivity].
    unfold tryCatch, queryBuffers, bind, emit, notice, emit, ret, throw, logged.
    destruct (buffers w) as [e | bs]; simpl; [| reflexivity].
    rewrite <- app_assoc. reflexivity. }
  split; [| exact H].
  intros m. rewrite H.
  destruct (instance (self m)); [destruct (buffers w) |]; eexists; reflexivity.
Qed.

(* ================================================================== *)
(** ** The launch entry point: guards and strategy *)
(* ================================================================== *)

(** C7. In a state that holds a process handle, under a configuration
    whose strategy is headless or terminal, [newInstance] does nothing
    but show the "already running" notice: the component's fields, the
    two handles among them, are left as they were, and nothing is
    spawned. *)
Theorem newInstance_refuses_when_running :
  forall (w : World) (ad : FileSystemAdapter) (m : Machine),
    process (self m) <> None ->
    selectStrategy (self m) <> StratTmux ->
    newInstance w ad m
      = (Returned tt, logged [ENotice NoticeAlreadyRunning (Some 5000)] m)
    /\ process (self (snd (newInstance w ad m))) = process (self m)
    /\ instance (self (snd (newInstance w ad m))) = instance (self m).
Proof.
  intros w ad m Hproc Hstrat.
  assert (E : newInstance w ad m
              = (Returned tt, logged [ENotice NoticeAlreadyRunning (Some 5000)] m)).
  { unfold newInstance, bind, getSelf, isHostNvim.
    unfold selectStrategy in Hstrat.
    destruct (hostMode (settings (self m))); [| congruence].
    destruct (process (self m)); [reflexivity | congruence]. }
  rewrite E. repeat split.
Qed.

Lemma newInstance_refuses_when_running_witness :
  newInstance readyWorld vaultAdapter launchedMachine
    = (Returned tt, logged [ENotice NoticeAlreadyRunning (Some 5000)] launchedMachine)
  /\ process (self (snd (newInstance readyWorld vaultAdapter launchedMachine)))
     = process (self launchedMachine)
  /\ instance (self (snd (newInstance readyWorld vaultAdapter launchedMachine)))
     = instance (self launchedMachine).
Proof.
  apply (newInstance_refuses_when_running readyWorld vaultAdapter launchedMachine).
  - vm_compute. discriminate.
  - vm_compute. discriminate.
Defined.

(** C6. For every configuration the strategy is tmux whenever
    [hostMode] is [tmux], whatever the terminal binary; otherwise it is
    headless when no terminal binary was resolved and terminal when one
    was. Once the two guards of [newInstance] have let the call through,
    the launch of that strategy is what [newInstance] runs. *)
Theorem newInstance_selects_strategy :
  (forall s : Neovim,
      (hostMode (settings s) = HostTmux -> selectStrategy s = StratTmux)
      /\ (hostMode (settings s) = HostNvim -> JS.truthyOpt (termBinary s) = false ->
          selectStrategy s = StratHeadless)
      /\ (hostMode (settings s) = HostNvim -> JS.truthyOpt (termBinary s) = true ->
          selectStrategy s = StratTerminal))
  /\ (forall (w : World) (ad : FileSystemAdapter) (m : Machine),
        isHostNvim (self m) && isSome (process (self m)) = false ->
        nvimBinaryMissing (self m) = false ->
        newInstance w ad m =
          match selectStrategy (self m) with
          | StratTmux => spawnWithTmux w ad (launchEnv (self m)) m
          | StratHeadless => spawnHeadless w ad (launchEnv (self m)) m
          | StratTerminal => spawnWithTerminal w ad (launchEnv (self m)) m
          end).
Proof.
  split.
  - intros s. unfold selectStrategy.
    repeat split; intros Hmode; rewrite Hmode; trivial; intros Hterm; rewrite Hterm;
      reflexivity.
  - intros w ad m Hrun Hbin.
    unfold newInstance, bind, getSelf. rewrite Hrun, Hbin.
    destruct (selectStrategy (self m)); reflexivity.
Qed.

Lemma newInstance_selects_strategy_witness :
  selectStrategy (self (tmuxMachine false)) = StratTmux
  /\ selectStrategy (self freshMachine) = StratHeadless
  /\ newInstance readyWorld vaultAdapter (tmuxMachine false) =
       match selectStrategy (self (tmuxMachine false)) with
       | StratTmux =>
           spawnWithTmux readyWorld vaultAdapter (launchEnv (self (tmuxMachine false)))
             (tmuxMachine false)
       | StratHeadless =>
           spawnHeadless readyWorld vaultAdapter (launchEnv (self (tmuxMachine false)))
             (tmuxMachine false)
       | StratTerminal =>
           spawnWithTerminal readyWorld vaultAdapter
             (launchEnv (self (tmuxMachine false))) (tmuxMachine false)
       end.
Proof.
  split; [| split].
  - apply (proj1 newInstance_selects_strategy (self (tmuxMachine false))).
    vm_compute. reflexivity.
  - apply (proj1 newInstance_selects_strategy (self freshMachine));
      vm_compute; reflexivity.
  - apply (proj2 newInstance_selects_strategy readyWorld vaultAdapter (tmuxMachine false));
      vm_compute; reflexivity.
Defined.

(* ================================================================== *)
(** ** The listen address and the single attach attempt *)
(* ================================================================== *)




(** One attach attempt, in full. *)
Lemma attachToServer_run (w : World) (m : Machine) :
  attachToServer w m =
    match listenTarget (listenOn (settings (self m))) with
    | inl _ => (Returned false, instanceCleared m)
    | inr t => (Returned (probeOk (probe w (attempts m))), attempted w t m)
    end.
Proof.
  unfold attachToServer, bind, getSelf, tryCatch.
  destruct (listenTarget (listenOn (settings (self m)))) as [e | t]; [reflexivity |].
  destruct t as [host port | p];
    unfold emit, modify, evalProbe, attempted, connectEvents, ret; simpl;
    destruct (probeOk (probe w (attempts m))); simpl;
    rewrite <- ?app_assoc; reflexivity.
Qed.

(** Cutting an address [host:rest] at its last colon gives back [host]
    and [rest]. *)
Lemma lastIndexOf_host_colon (host rest : string) :
  JS.lastIndexOf ":" rest = -1 ->
  JS.lastIndexOf ":" (host ++ String ":" rest) = JS.len host.
Proof.
  intros Hrest. unfold JS.len.
  induction host as [| a host IH]; simpl String.append; simpl JS.lastIndexOf.
  - rewrite Hrest. reflexivity.
  - rewrite IH. simpl String.length.
    destruct (0 <=? Z.of_nat (String.length host)) eqn:E; [lia |].
    apply Z.leb_gt in E. lia.
Qed.

Lemma substring_whole (s : string) : String.substring 0 (String.length s) s = s.
Proof. induction s as [| a s IH]; simpl; [reflexivity | now rewrite IH]. Qed.

Lemma substring_prefix (h x : string) :
  String.substring 0 (String.length h) (h ++ x) = h.
Proof.
  induction h as [| a h IH]; simpl.
  - destruct x; reflexivity.
  - now rewrite IH.
Qed.

Lemma substring_suffix (h x : string) (c : ascii) :
  String.substring (S (String.length h)) (String.length x) (h ++ String c x) = x.
Proof.
  induction h as [| a h IH]; simpl.
  - apply substring_whole.
  - exact IH.
Qed.

Lemma length_append (h x : string) :
  String.length (h ++ x) = (String.length h + String.length x)%nat.
Proof. induction h as [| a h IH]; simpl; [reflexivity | now rewrite IH]. Qed.

Lemma cut_host_colon (host rest : string) :
  JS.lastIndexOf ":" rest = -1 ->
  beforeLastColon (host ++ String ":" rest) = host
  /\ afterLastColon (host ++ String ":" rest) = rest.
Proof.
  intros Hrest. unfold beforeLastColon, afterLastColon.
  rewrite (lastIndexOf_host_colon host rest Hrest).
  unfold JS.substring, JS.clamp, JS.len.
  rewrite length_append. simpl String.length.
  set (h := String.length host). set (r := String.length rest).
  split.
  - replace (Z.min (Z.max 0 (Z.min 0 (Z.of_nat (h + S r))))
                   (Z.max 0 (Z.min (Z.of_nat h) (Z.of_nat (h + S r))))) with 0 by lia.
    replace (Z.max (Z.max 0 (Z.min 0 (Z.of_nat (h + S r))))
                   (Z.max 0 (Z.min (Z.of_nat h) (Z.of_nat (h + S r))))) with (Z.of_nat h) by lia.
    rewrite Z.sub_0_r, Nat2Z.id. simpl Z.to_nat. apply substring_prefix.
  - replace (Z.min (Z.max 0 (Z.min (Z.of_nat h + 1) (Z.of_nat (h + S r))))
                   (Z.of_nat (h + S r))) with (Z.of_nat (S h)) by lia.
    replace (Z.max (Z.max 0 (Z.min (Z.of_nat h + 1) (Z.of_nat (h + S r))))
                   (Z.of_nat (h + S r))) with (Z.of_nat (h + S r)) by lia.
    replace (Z.of_nat (h + S r) - Z.of_nat (S h)) with (Z.of_nat r) by lia.
    rewrite !Nat2Z.id. apply substring_suffix.
Qed.

(** What [listenTarget] answers, by cases. *)
Lemma listenTarget_cases (addr : string) :
  listenTarget addr =
    if looksLikeHostPort addr then
      match JS.parseInt (afterLastColon addr) with
      | Some port => inr (TcpStream (beforeLastColon addr) port)
      | None => inl (mkError ("Invalid listen port in: " ++ addr) None)
      end
    else inr (SocketPath addr).
Proof.
  unfold listenTarget, afterLastColon, beforeLastColon.
  destruct (looksLikeHostPort addr); [| reflexivity].
  destruct (JS.parseInt _); reflexivity.
Qed.




(** An address written [host:digits] is cut into exactly these parts. *)
Lemma listenTarget_host_port (host rest : string) :
  JS.lastIndexOf ":" rest = -1 ->
  looksLikeHostPort (host ++ String ":" rest) = true ->
  listenTarget (host ++ String ":" rest) =
    match JS.parseInt rest with
    | Some port => inr (TcpStream host port)
    | None => inl (mkError ("Invalid listen port in: " ++ (host ++ String ":" rest)) None)
    end.
Proof.
  intros Hrest Hlook. rewrite listenTarget_cases, Hlook.
  destruct (cut_host_colon host rest Hrest) as [-> ->]. reflexivity.
Qed.

(* ================================================================== *)
(** ** The polling loop *)
(* ================================================================== *)

Lemma waitLoop_step (w : World) (start timeoutMs : Z) (fuel : nat) (m : Machine) :
  waitLoop w start timeoutMs (S fuel) m =
    if now m - start <? timeoutMs then
      match attachToServer w m with
      | (Returned true, m1) => (Returned true, m1)
      | (Returned false, m1) => waitLoop w start timeoutMs fuel (slept m1)
      | (Thrown e, m1) => (Thrown e, m1)
      | (Stuck, m1) => (Stuck, m1)
      end
    else (Returned false, m).
Proof.
  simpl waitLoop. unfold bind at 1. unfold dateNow at 1.
  destruct (now m - start <? timeoutMs); [| reflexivity].
  unfold bind at 1.
  destruct (attachToServer w m) as [[[|] | e |] m1]; reflexivity.
Qed.

(** What one attempt does to the clock, the attempt counter and the
    RPC handle. *)
Lemma attachToServer_effect (w : World) (m : Machine) :
  exists b m1,
    attachToServer w m = (Returned b, m1)
    /\ now m <= now m1 <= now m + Z.of_N (probeMs (probe w (attempts m)))
    /\ (attempts m <= attempts m1 <= S (attempts m))%nat
    /\ (b = true -> instance (self m1) <> None /\ probeOk (probe w (attempts m)) = true)
    /\ (b = false -> instance (self m1) = None).
Proof.
  rewrite attachToServer_run.
  destruct (listenTarget (listenOn (settings (self m)))) as [e | t].
  - exists false, (instanceCleared m). simpl. repeat split; try lia; discriminate.
  - exists (probeOk (probe w (attempts m))), (attempted w t m).
    unfold attempted. simpl.
    destruct (probeOk (probe w (attempts m))); simpl;
      repeat split; try lia; try discriminate; trivial.
Qed.

(** The loop with enough budget: it returns, and how. *)
Lemma waitLoop_returns (w : World) (start timeoutMs : Z) :
  forall (fuel : nat) (m : Machine),
    enoughFuel start timeoutMs (S fuel) m ->
    exists b m',
      waitLoop w start timeoutMs (S fuel) m = (Returned b, m')
      /\ now m <= now m'
      /\ (attempts m' <= attempts m + fuel)%nat
      /\ (b = true -> instance (self m') <> None)
      /\ (b = false -> start + timeoutMs <= now m')
      /\ ((forall k, probeOk (probe w k) = false) -> b = false)
      /\ (forall L, (forall k, Z.of_N (probeMs (probe w k)) <= L) ->
            now m' <= Z.max (now m) (start + timeoutMs + pollInterval + L)).
Proof.
  unfold enoughFuel, pollInterval.
  induction fuel as [| fuel IH]; intros m Hfuel; rewrite waitLoop_step.
  - (* the last evaluation of the loop condition *)
    destruct (now m - start <? timeoutMs) eqn:Hcond.
    + apply Z.ltb_lt in Hcond. lia.
    + apply Z.ltb_ge in Hcond. exists false, m.
      repeat split; try lia; try discriminate; intros; lia.
  - destruct (now m - start <? timeoutMs) eqn:Hcond.
    + apply Z.ltb_lt in Hcond.
      destruct (attachToServer_effect w m)
        as [b [m1 [Hrun [Hnow [Hatt [Htrue Hfalse]]]]]].
      rewrite Hrun. destruct b.
      * exists true, m1. destruct (Htrue eq_refl) as [Hinst Hok].
        repeat split; try lia; trivial; try discriminate.
        -- intros Hdeaf. rewrite Hdeaf in Hok. discriminate Hok.
        -- intros L HL. specialize (HL (attempts m)). lia.
      * destruct (IH (slept m1)) as [b [m' [Hloop [Hn [Ha [Ht [Hf [Hd HL]]]]]]]].
        { unfold slept, pollInterval; cbn [now]. lia. }
        exists b, m'. unfold slept, pollInterval in *; cbn [now attempts] in *.
        repeat split; trivial; try lia.
        intros L HLat. specialize (HL L HLat). specialize (HLat (attempts m)). lia.
    + apply Z.ltb_ge in Hcond. exists false, m.
      repeat split; try lia; try discriminate; intros; lia.
Qed.

(** Any two budgets that are enough give the same run. *)
Lemma waitLoop_fuel_irrelevant (w : World) (start timeoutMs : Z) :
  forall (f1 f2 : nat) (m : Machine),
    enoughFuel start timeoutMs (S f1) m ->
    enoughFuel start timeoutMs (S f2) m ->
    waitLoop w start timeoutMs (S f1) m = waitLoop w start timeoutMs (S f2) m.
Proof.
  unfold enoughFuel, pollInterval.
  induction f1 as [| f1 IH]; intros f2 m H1 H2; rewrite !waitLoop_step;
    destruct (now m - start <? timeoutMs) eqn:Hcond; trivial;
    apply Z.ltb_lt in Hcond.
  - lia.
  - destruct f2 as [| f2]; [lia |].
    destruct (attachToServer_effect w m) as [b [m1 [Hrun [Hnow _]]]].
    rewrite Hrun. destruct b; [reflexivity |].
    apply IH; unfold slept, pollInterval; cbn [now]; lia.
Qed.

Lemma waitFuel_enough (timeoutMs : Z) (m : Machine) :
  enoughFuel (now m) timeoutMs (waitFuel timeoutMs) m.
Proof.
  unfold enoughFuel, waitFuel, pollInterval.
  rewrite Nat2Z.inj_succ.
  replace (now m - now m) with 0 by lia.
  destruct (Z_lt_le_dec ((timeoutMs + (200 - 1)) / 200) 0) as [Hneg | Hpos].
  - replace (Z.to_nat ((timeoutMs + (200 - 1)) / 200)) with 0%nat by lia.
    simpl Z.of_nat. revert Hneg.
    generalize (Z.div_le_lower_bound (timeoutMs + (200 - 1)) 200 0 ltac:(lia)). lia.
  - rewrite Z2Nat.id by exact Hpos.
    pose proof (Z.div_mod (timeoutMs + (200 - 1)) 200 ltac:(lia)).
    pose proof (Z.mod_pos_bound (timeoutMs + (200 - 1)) 200 ltac:(lia)). lia.
Qed.

Lemma waitForServerReady_unfold (w : World) (timeoutMs : Z) (m : Machine) :
  waitForServerReady w timeoutMs m = waitLoop w (now m) timeoutMs (waitFuel timeoutMs) m.
Proof. reflexivity. Qed.




(* ================================================================== *)
(** ** Frame properties of the methods *)
(* ================================================================== *)

Lemma sameProcess_refl m : sameProcess m m.
Proof. reflexivity. Qed.

Lemma sameProcess_trans a b c : sameProcess a b -> sameProcess b c -> sameProcess a c.
Proof. unfold sameProcess. congruence. Qed.

Lemma sameSettings_refl m : sameSettings m m.
Proof. reflexivity. Qed.

Lemma sameSettings_trans a b c : sameSettings a b -> sameSettings b c -> sameSettings a c.
Proof. unfold sameSettings. congruence. Qed.

Lemma sameStartedVia_refl m : sameStartedVia m m.
Proof. reflexivity. Qed.

Lemma sameStartedVia_trans a b c :
  sameStartedVia a b -> sameStartedVia b c -> sameStartedVia a c.
Proof. unfold sameStartedVia. congruence. Qed.

Lemma processNotSet_refl m : processNotSet m m.
Proof. left. reflexivity. Qed.

Lemma processNotSet_trans a b c :
  processNotSet a b -> processNotSet b c -> processNotSet a c.
Proof. unfold processNotSet. intros [H1 | H1] [H2 | H2]; auto; left + right; congruence. Qed.

Lemma notToTmux_refl m : notToTmux m m.
Proof. intros H. exact H. Qed.

Lemma notToTmux_trans a b c : notToTmux a b -> notToTmux b c -> notToTmux a c.
Proof. unfold notToTmux. auto. Qed.

Lemma extendsBy_refl P m : extendsBy P m m.
Proof. exists []. split; [now rewrite app_nil_r | constructor]. Qed.

Lemma extendsBy_trans P a b c : extendsBy P a b -> extendsBy P b c -> extendsBy P a c.
Proof.
  intros [e1 [H1 F1]] [e2 [H2 F2]]. exists (e1 ++ e2)%list. split.
  - rewrite H2, H1, app_assoc. reflexivity.
  - apply Forall_app. split; assumption.
Qed.

(** Walks through a method body down to its field assignments and
    outside calls; [leaf] closes those, [waitlem] is the property of the
    polling loop. *)
Ltac frame_with refl trans waitlem leaf :=
  repeat (intros;
    lazymatch goal with
    | |- respects _ (bind _ _) => apply (respects_bind _ trans)
    | |- respects _ (tryCatch _ _) => apply (respects_tryCatch _ trans)
    | |- respects _ (ret _) => apply (respects_ret _ refl)
    | |- respects _ (throw _) => apply (respects_throw _ refl)
    | |- respects _ stuck => apply (respects_stuck _ refl)
    | |- respects _ getSelf => apply (respects_getSelf _ refl)
    | |- respects _ dateNow => apply (respects_dateNow _ refl)
    | |- respects _ (waitForServerReady _ _) => apply waitlem
    | |- respects _ (if ?b then _ else _) => destruct b
    | |- respects _ (match ?x with _ => _ end) => destruct x
    | |- respects _ _ =>
        first
          [ progress unfold notice, isPortInUse, runSync, tmuxHasSession, nvimPath,
              termPath, doSpawn, attachToServer, spawnTerminalToAttachTmux,
              tmuxConnect, tmuxCreateSession, tmuxEnsureAndConnect, spawnWithTmux, disconnect, close, onObsidianQuit,
              getBuffers, queryBuffers, openFile, remoteOpen, openCallback,
              onProcessEvent, registerProcessEvents, spawnHeadless,
              spawnWithTerminal, spawnCatch, newInstance, forget
          | leaf ]
    end).

(** Closes a field assignment or an outside call for a relation that
    unfolds to equations between fields. *)
Ltac leaf_fields R :=
  let m := fresh "m" in
  intro m; unfold evalProbe, modify, emit, sleep;
  repeat match goal with
         | |- context [match ?x with _ => _ end] => destruct x
         | |- context [if ?x then _ else _] => destruct x
         end;
  unfold R; cbn; auto.

(** Closes a field assignment or an outside call for [extendsBy]. *)
Ltac leaf_events :=
  let m := fresh "m" in
  intro m; unfold evalProbe, modify, emit, sleep;
  repeat match goal with
         | |- context [match ?x with _ => _ end] => destruct x
         | |- context [if ?x then _ else _] => destruct x
         end;
  unfold extendsBy; cbn [snd trace];
  first [ exists []; split; [symmetry; apply app_nil_r | constructor]
        | eexists; split; [reflexivity | repeat constructor] ].

Lemma waitLoop_sameProcess w start timeoutMs fuel :
  respects sameProcess (waitLoop w start timeoutMs fuel).
Proof.
  induction fuel as [| fuel IH]; simpl waitLoop;
    frame_with sameProcess_refl sameProcess_trans IH
      ltac:(first [exact IH | leaf_fields sameProcess]).
Qed.

Lemma waitForServerReady_sameProcess w timeoutMs :
  respects sameProcess (waitForServerReady w timeoutMs).
Proof.
  unfold waitForServerReady.
  apply (respects_bind _ sameProcess_trans);
    [apply (respects_dateNow _ sameProcess_refl) | intros; apply waitLoop_sameProcess].
Qed.

(** The tmux launch never assigns the process handle. *)
Lemma spawnWithTmux_sameProcess w ad extraEnvVars :
  respects sameProcess (spawnWithTmux w ad extraEnvVars).
Proof.
  frame_with sameProcess_refl sameProcess_trans (waitForServerReady_sameProcess w)
    ltac:(leaf_fields sameProcess).
Qed.

Lemma waitLoop_sameSettings w start timeoutMs fuel :
  respects sameSettings (waitLoop w start timeoutMs fuel).
Proof.
  induction fuel as [| fuel IH]; simpl waitLoop;
    frame_with sameSettings_refl sameSettings_trans IH
      ltac:(first [exact IH | leaf_fields sameSettings]).
Qed.

Lemma waitForServerReady_sameSettings w timeoutMs :
  respects sameSettings (waitForServerReady w timeoutMs).
Proof.
  unfold waitForServerReady.
  apply (respects_bind _ sameSettings_trans);
    [apply (respects_dateNow _ sameSettings_refl) | intros; apply waitLoop_sameSettings].
Qed.

Lemma waitLoop_sameStartedVia w start timeoutMs fuel :
  respects sameStartedVia (waitLoop w start timeoutMs fuel).
Proof.
  induction fuel as [| fuel IH]; simpl waitLoop;
    frame_with sameStartedVia_refl sameStartedVia_trans IH
      ltac:(first [exact IH | leaf_fields sameStartedVia]).
Qed.

Lemma waitForServerReady_sameStartedVia w timeoutMs :
  respects sameStartedVia (waitForServerReady w timeoutMs).
Proof.
  unfold waitForServerReady.
  apply (respects_bind _ sameStartedVia_trans);
    [apply (respects_dateNow _ sameStartedVia_refl)
    | intros; apply waitLoop_sameStartedVia].
Qed.

Lemma waitLoop_notToTmux w start timeoutMs fuel :
  respects notToTmux (waitLoop w start timeoutMs fuel).
Proof.
  induction fuel as [| fuel IH]; simpl waitLoop;
    frame_with notToTmux_refl notToTmux_trans IH
      ltac:(first [exact IH | leaf_fields notToTmux]).
Qed.

Lemma waitForServerReady_notToTmux w timeoutMs :
  respects notToTmux (waitForServerReady w timeoutMs).
Proof.
  unfold waitForServerReady.
  apply (respects_bind _ notToTmux_trans);
    [apply (respects_dateNow _ notToTmux_refl) | intros; apply waitLoop_notToTmux].
Qed.

Lemma waitLoop_processNotSet w start timeoutMs fuel :
  respects processNotSet (waitLoop w start timeoutMs fuel).
Proof.
  induction fuel as [| fuel IH]; simpl waitLoop;
    frame_with processNotSet_refl processNotSet_trans IH
      ltac:(first [exact IH | leaf_fields processNotSet]).
Qed.

Lemma waitForServerReady_processNotSet w timeoutMs :
  respects processNotSet (waitForServerReady w timeoutMs).
Proof.
  unfold waitForServerReady.
  apply (respects_bind _ processNotSet_trans);
    [apply (respects_dateNow _ processNotSet_refl)
    | intros; apply waitLoop_processNotSet].
Qed.

(** Every operation but the saving of settings leaves the settings
    alone. *)
Lemma run_sameSettings w op :
  (forall st, op <> OpSaveSettings st) -> respects sameSettings (run w op).
Proof.
  intros Hop. destruct op; simpl run;
    try (frame_with sameSettings_refl sameSettings_trans
           (waitForServerReady_sameSettings w) ltac:(leaf_fields sameSettings)).
  exfalso. eapply Hop. reflexivity.
Qed.

(** The direct launches never record [tmux] as the way the session
    was started. *)
Lemma spawnHeadless_notToTmux w ad extraEnvVars :
  respects notToTmux (spawnHeadless w ad extraEnvVars).
Proof.
  frame_with notToTmux_refl notToTmux_trans (waitForServerReady_notToTmux w)
    ltac:(leaf_fields notToTmux; discriminate).
Qed.

Lemma spawnWithTerminal_notToTmux w ad extraEnvVars :
  respects notToTmux (spawnWithTerminal w ad extraEnvVars).
Proof.
  frame_with notToTmux_refl notToTmux_trans (waitForServerReady_notToTmux w)
    ltac:(leaf_fields notToTmux; discriminate).
Qed.

(** Everything but a launch and the saving of settings keeps
    [startedVia] and never sets the process handle. *)
Lemma run_quiet_sameStartedVia w op :
  quietOp op -> respects sameStartedVia (run w op).
Proof.
  intros Hop. destruct op; simpl in Hop; try contradiction; simpl run;
    frame_with sameStartedVia_refl sameStartedVia_trans
      (waitForServerReady_sameStartedVia w) ltac:(leaf_fields sameStartedVia).
Qed.

Lemma run_quiet_processNotSet w op :
  quietOp op -> respects processNotSet (run w op).
Proof.
  intros Hop. destruct op; simpl in Hop; try contradiction; simpl run;
    frame_with processNotSet_refl processNotSet_trans
      (waitForServerReady_processNotSet w) ltac:(leaf_fields processNotSet).
Qed.

Lemma newInstance_tmux_sameProcess w ad m :
  hostMode (settings (self m)) = HostTmux ->
  sameProcess m (snd (newInstance w ad m)).
Proof.
  intros Hmode. unfold newInstance, bind, getSelf, isHostNvim, selectStrategy.
  rewrite Hmode. simpl andb. cbv iota.
  destruct (nvimBinaryMissing (self m)).
  - reflexivity.
  - apply spawnWithTmux_sameProcess.
Qed.

Lemma newInstance_nvim_notToTmux w ad m :
  hostMode (settings (self m)) = HostNvim ->
  notToTmux m (snd (newInstance w ad m)).
Proof.
  intros Hmode. unfold newInstance, bind, getSelf, isHostNvim, selectStrategy.
  rewrite Hmode. cbv iota.
  destruct (true && isSome (process (self m))); [intros H; exact H |].
  destruct (nvimBinaryMissing (self m)); [intros H; exact H |].
  destruct (negb (JS.truthyOpt (termBinary (self m)))).
  - apply spawnHeadless_notToTmux.
  - apply spawnWithTerminal_notToTmux.
Qed.

Lemma construct_modeInvariant w st ad key : modeInvariant (self (construct w st ad key)).
Proof.
  unfold construct, modeInvariant.
  destruct (JS.truthy (pathToBinary st)); [| destruct (findNvim w)];
    simpl; destruct (hostMode st); (reflexivity || discriminate).
Qed.

Lemma step_modeInvariant w op m :
  keepsHostMode (self m) op ->
  modeInvariant (self m) -> modeInvariant (self (after w op m)).
Proof.
  intros Hkeep Hinv. unfold after.
  destruct op as [ad | file | | | | | ev | st].
  1: { pose proof (run_sameSettings w (OpNewInstance ad) ltac:(discriminate) m) as Hset.
       unfold sameSettings in Hset. unfold modeInvariant in *. rewrite Hset.
       destruct (hostMode (settings (self m))) eqn:Hmode.
       - exact (newInstance_nvim_notToTmux w ad m Hmode Hinv).
       - pose proof (newInstance_tmux_sameProcess w ad m Hmode) as Hp.
         unfold sameProcess in Hp. simpl run. congruence. }
  7: { unfold modeInvariant in *. simpl in *. rewrite Hkeep. exact Hinv. }
  all: match goal with
       | |- modeInvariant (self (snd (run ?w0 ?o ?m0))) =>
           pose proof (run_sameSettings w0 o ltac:(discriminate) m0) as Hset;
           pose proof (run_quiet_sameStartedVia w0 o I m0) as Hvia;
           pose proof (run_quiet_processNotSet w0 o I m0) as Hproc
       end;
    unfold sameSettings, sameStartedVia, processNotSet, modeInvariant in *;
    rewrite Hset, Hvia;
    destruct (hostMode (settings (self m))); trivial;
    destruct Hproc as [Hproc | Hproc]; congruence.
Qed.

(** C3, as amended. No tmux launch ever assigns the process handle:
    [spawnWithTmux] leaves it as it found it. Hence, as long as the host
    mode is not switched after construction, no reachable state holds a
    process handle while [startedVia] is [tmux]. *)
Theorem tmux_session_has_no_process :
  (forall w ad extraEnvVars m,
      process (self (snd (spawnWithTmux w ad extraEnvVars m))) = process (self m))
  /\ (forall m, reachableFixedMode m ->
        startedVia (self m) = ViaTmux -> process (self m) = None).
Proof.
  split.
  - intros w ad extraEnvVars m. apply spawnWithTmux_sameProcess.
  - intros m Hreach.
    assert (Hinv : modeInvariant (self m)).
    { induction Hreach as [w st ad key | m w op Hreach IH Hkeep].
      - apply construct_modeInvariant.
      - apply step_modeInvariant; assumption. }
    intros Hvia. unfold modeInvariant in Hinv.
    destruct (hostMode (settings (self m))); [contradiction | exact Hinv].
Qed.

Lemma tmux_session_has_no_process_witness :
  process (self (after busyWorld (OpNewInstance vaultAdapter)
                   (construct readyWorld
                      (withKeepAlive true (withHostMode HostTmux DEFAULT_SETTINGS))
                      vaultAdapter None))) = None.
Proof.
  apply (proj2 tmux_session_has_no_process).
  - apply reach_step; [apply reach_construct | exact I].
  - vm_compute. reflexivity.
Defined.

(** C3, the claim as written fails: launch headless, switch the host
    mode to tmux in the settings, launch again. The second launch
    records [tmux] while the process handle of the first is still held. *)
Lemma tmux_session_with_stale_process :
  reachable staleMachine
  /\ startedVia (self staleMachine) = ViaTmux
  /\ process (self staleMachine) = Some (mkChildProcess (Some 4242)).
Proof.
  split; [| split; vm_compute; reflexivity].
  unfold staleMachine, freshMachine.
  repeat (apply reach_step; [| exact I]).
  apply reach_construct.
Qed.

(* ================================================================== *)
(** ** The tmux launch and the port conflict *)
(* ================================================================== *)

Lemma isTcpListen_port_truthy (addr : string) :
  isTcpListen addr = true -> JS.truthy (portStrOf addr) = true.
Proof.
  unfold isTcpListen. rewrite !andb_true_iff. intros [[_ Hd] _].
  destruct (portStrOf addr); [discriminate Hd | reflexivity].
Qed.

(** [spawnWithTmux] once its two guards are passed: the look-ups, then
    either the refusal or the rest of the launch. *)
Lemma spawnWithTmux_run (w : World) (ad : FileSystemAdapter) (extraEnvVars : Env)
    (m : Machine) (tmux : string) :
  win32 w = false ->
  tmuxBinary (self m) = Some tmux ->
  JS.truthy tmux = true ->
  let name := sessionNameOf (settings (self m)) in
  let addr := listenOn (settings (self m)) in
  let sessionExists := execFileSync w tmux ["has-session"; "-t"; name] in
  spawnWithTmux w ad extraEnvVars m =
    if isTcpListen addr && portBound w addr && negb sessionExists
    then (Returned tt,
          logged [ENotice (NoticePortInUse addr) (Some 12000)] (tmuxLookedUp tmux m))
    else tmuxEnsureAndConnect w ad extraEnvVars tmux name sessionExists
           (tmuxLookedUp tmux m).
Proof.
  intros Hwin Htmux Htruthy name addr sessionExists.
  unfold spawnWithTmux. rewrite Hwin.
  unfold bind at 1. unfold getSelf at 1. rewrite Htmux, Htruthy. cbv [negb].
  unfold bind at 1. unfold modify at 1.
  unfold bind at 1. unfold tmuxHasSession at 1.
  unfold bind at 1. unfold getSelf at 1. cbn [self tmuxBinary setStartedVia].
  rewrite Htmux, Htruthy.
  unfold tryCatch, runSync, bind, emit, ret, throw, tmuxLookedUp, logged, portBound.
  cbn [self settings setStartedVia trace now attempts fst snd].
  fold name. fold addr. fold sessionExists.
  pose proof (isTcpListen_port_truthy addr) as Hport.
  destruct (isTcpListen addr); [rewrite (Hport eq_refl) |];
    destruct sessionExists; cbn [negb andb]; unfold isPortInUse, bind, emit, ret;
    cbn [self settings trace now attempts fst snd];
    rewrite <- ?app_assoc; cbn [app].
  all: try reflexivity.
  all: destruct (existsb _ (networkConnections w)); cbn [andb]; try reflexivity.
  unfold notice, emit; cbn [self trace now attempts].
  rewrite <- app_assoc. reflexivity.
Qed.





Lemma newEvents_app (m m' : Machine) (evs : list Event) :
  trace m' = (trace m ++ evs)%list -> newEvents m m' = evs.
Proof.
  intros H. unfold newEvents. rewrite H, skipn_app, skipn_own_length, Nat.sub_diag.
  reflexivity.
Qed.





(** The launcher and the attacher do not read every address alike: a
    port written in hexadecimal is a TCP port for [attachToServer] and
    no TCP address for [spawnWithTmux], which then asks for no port. *)
Example isTcpListen_is_stricter_than_attach :
  listenTarget "localhost:0x1f" = inr (TcpStream "localhost" 31)
  /\ isTcpListen "localhost:0x1f" = false
  /\ isTcpListen "127.0.0.1:2006" = true
  /\ isTcpListen "/tmp/nvim.sock" = false.
Proof. repeat split; vm_compute; reflexivity. Qed.

(* ================================================================== *)
(** ** The remote-open command *)
(* ================================================================== *)

(** The remote-open step: the command, then at most one notice. *)
Lemma remoteOpen_run (w : World) (s : Neovim) (f : TFile) (nvim : string) (m : Machine) :
  exists rest,
    remoteOpen w s f nvim m = (Returned tt, logged (EExecFile nvim (remoteArgs s f) :: rest) m)
    /\ (rest = [] \/ exists n, rest = [ENotice n (Some 10000)]).
Proof.
  unfold remoteOpen, tryCatch, bind, emit, throw, notice, emit, logged.
  cbn [self trace now attempts fst snd].
  destruct (execFile w nvim (remoteArgs s f)) as [e | r].
  - eexists. split; [| right; eexists; reflexivity].
    cbn [self trace now attempts]. rewrite <- app_assoc. reflexivity.
  - unfold openCallback. destruct (execError r) as [e |].
    + eexists. split; [| right; eexists; reflexivity].
      unfold notice, emit. cbn [self trace now attempts]. rewrite <- app_assoc. reflexivity.
    + exists []. split; [reflexivity | left; reflexivity].
Qed.

Lemma legacy_portOf_some (addr : string) : exists p, Legacy.portOf addr = Some p.
Proof.
  unfold Legacy.portOf, JS.lastOf.
  assert (H : JS.split ":" addr <> []).
  { induction addr as [| c s IH]; simpl; [discriminate |].
    destruct (Ascii.eqb c ":"); [discriminate |].
    destruct (JS.split ":" s); discriminate. }
  destruct (rev (JS.split ":" addr)) eqn:E.
  - apply (f_equal (@rev string)) in E. rewrite rev_involutive in E. contradiction.
  - eexists. reflexivity.
Qed.

(** The historical [openFile] sends the command only when something
    is bound to the port read off the listen address. *)
Lemma legacy_openFile_gated (w : World) (file : option TFile) (m : Machine) :
  existsb isRemoteOpen (newEvents m (snd (Legacy.openFile w file m))) = true ->
  exists p,
    Legacy.portOf (listenOn (settings (self m))) = Some p
    /\ JS.truthy p = true
    /\ existsb (fun localPort => String.eqb localPort p) (networkConnections w) = true.
Proof.
  unfold Legacy.openFile. destruct file as [f |];
    [| unfold ret; cbn [snd]; unfold newEvents; rewrite skipn_own_length; discriminate].
  unfold bind at 1. unfold getSelf at 1.
  destruct (negb (JS.truthy (nvimPathOrEmpty (self m))));
    [unfold ret; cbn [snd]; unfold newEvents; rewrite skipn_own_length; discriminate |].
  destruct (negb (isSupportedFile (self m) f));
    [unfold ret; cbn [snd]; unfold newEvents; rewrite skipn_own_length; discriminate |].
  destruct (legacy_portOf_some (listenOn (settings (self m)))) as [p Hp]. rewrite Hp.
  cbn [JS.truthyOpt].
  destruct (negb (isSome (instance (self m)) && isSome (process (self m)))
            && negb (JS.truthy p));
    [unfold ret; cbn [snd]; unfold newEvents; rewrite skipn_own_length; discriminate |].
  destruct (JS.truthy p) eqn:Htruthy.
  - unfold bind at 1. unfold isPortInUse, bind, emit, ret. cbn [fst snd].
    destruct (existsb (fun localPort => String.eqb localPort p) (networkConnections w))
      eqn:Hbound.
    + intros _. exists p. auto.
    + cbn [negb snd].
      erewrite (newEvents_app m _ [ENetworkConnections]) by reflexivity.
      discriminate.
  - unfold bind, ret. cbn [negb snd]. unfold newEvents. rewrite skipn_own_length.
    discriminate.
Qed.

(** C2, as amended. For every file that passes the extension check,
    with an editor binary resolved, [openFile] sends the remote-open
    command at once, whatever the process handle, the RPC handle and the
    network table are: it checks for no live handle pair and makes no
    reachability check. It touches no field and adds at most one notice,
    which is how an unreachable server shows. Only the historical copy
    of [openFile] holds the command back unless something is bound to
    the port of the listen address. *)
Theorem openFile_sends_without_reachability_check :
  forall (w : World) (m : Machine) (f : TFile),
    JS.truthy (nvimPathOrEmpty (self m)) = true ->
    isSupportedFile (self m) f = true ->
    let r := openFile w (Some f) m in
    fst r = Returned tt
    /\ self (snd r) = self m
    /\ (exists rest,
          newEvents m (snd r)
            = EExecFile (nvimPathOrEmpty (self m)) (remoteArgs (self m) f) :: rest
          /\ (rest = [] \/ exists n, rest = [ENotice n (Some 10000)]))
    /\ ~ In ENetworkConnections (newEvents m (snd r))
    /\ (forall file,
          existsb isRemoteOpen (newEvents m (snd (Legacy.openFile w file m))) = true ->
          exists p,
            Legacy.portOf (listenOn (settings (self m))) = Some p
            /\ JS.truthy p = true
            /\ existsb (fun localPort => String.eqb localPort p) (networkConnections w) = true).
Proof.
  intros w m f Hbin Hsup r.
  assert (Hr : r = remoteOpen w (self m) f (nvimPathOrEmpty (self m)) m).
  { unfold r, openFile, bind, getSelf. rewrite Hbin, Hsup. reflexivity. }
  destruct (remoteOpen_run w (self m) f (nvimPathOrEmpty (self m)) m)
    as [rest [Hrun Hrest]].
  rewrite Hr, Hrun. cbn [fst snd]. rewrite newEvents_logged.
  split; [reflexivity |]. split; [reflexivity |].
  split; [exists rest; split; [reflexivity | exact Hrest] |].
  split.
  - intros [H | H]; [discriminate H |].
    destruct Hrest as [-> | [n ->]]; simpl in H; [contradiction |].
    destruct H as [H | H]; [discriminate H | contradiction].
  - intros file. apply legacy_openFile_gated.
Qed.

Lemma openFile_sends_without_reachability_check_witness :
  let r := openFile (deafWorld 0) (Some noteFile) freshMachine in
  fst r = Returned tt
  /\ self (snd r) = self freshMachine
  /\ (exists rest,
        newEvents freshMachine (snd r)
          = EExecFile (nvimPathOrEmpty (self freshMachine))
              (remoteArgs (self freshMachine) noteFile) :: rest
        /\ (rest = [] \/ exists n, rest = [ENotice n (Some 10000)]))
  /\ ~ In ENetworkConnections (newEvents freshMachine (snd r))
  /\ (forall file,
        existsb isRemoteOpen
          (newEvents freshMachine (snd (Legacy.openFile (deafWorld 0) file freshMachine)))
          = true ->
        exists p,
          Legacy.portOf (listenOn (settings (self freshMachine))) = Some p
          /\ JS.truthy p = true
          /\ existsb (fun localPort => String.eqb localPort p)
               (networkConnections (deafWorld 0)) = true).
Proof.
  apply (openFile_sends_without_reachability_check (deafWorld 0) freshMachine noteFile);
    vm_compute; reflexivity.
Defined.

(** C2, the claim as written fails: with no process handle, no RPC
    handle and nothing bound to port 2006, opening a Markdown note still
    sends the remote-open command; the refusal shows afterwards. *)
Lemma openFile_sends_to_unreachable_server :
  instance (self freshMachine) = None
  /\ process (self freshMachine) = None
  /\ portBound (deafWorld 0) (listenOn (settings (self freshMachine))) = false
  /\ isSupportedFile (self freshMachine) noteFile = true
  /\ newEvents freshMachine (snd (openFile (deafWorld 0) (Some noteFile) freshMachine))
     = [EExecFile "/usr/bin/nvim"
          ["--server"; "127.0.0.1:2006"; "--remote"; "/vault/notes/today.md"];
        ENotice (NoticeServerRefused "127.0.0.1:2006") (Some 10000)].
Proof.
  repeat split; vm_compute; reflexivity.
Qed.

(* ================================================================== *)
(** ** Close, then launch again *)
(* ================================================================== *)

Lemma waitForServerReady_first_try (w : World) (timeoutMs : Z) (m : Machine)
    (t : Transport) :
  0 < timeoutMs ->
  listenTarget (listenOn (settings (self m))) = inr t ->
  probeOk (probe w (attempts m)) = true ->
  waitForServerReady w timeoutMs m = (Returned true, attempted w t m).
Proof.
  intros Hpos Haddr Hok.
  rewrite waitForServerReady_unfold. unfold waitFuel. rewrite waitLoop_step.
  rewrite Z.sub_diag. apply Z.ltb_lt in Hpos. rewrite Hpos.
  rewrite attachToServer_run, Haddr, Hok. reflexivity.
Qed.

(** What [close] leaves behind, in all its branches. *)
Lemma close_run (w : World) (m : Machine) :
  exists evs, close w m = (Returned tt, logged evs (handlesDropped m)).
Proof.
  unfold close, bind, getSelf, tryCatch, runSync, bind, disconnect, notice, bind,
    modify, emit, ret, throw, logged, handlesDropped.
  destruct (startedVia (self m));
    cbn [self trace now attempts fst snd];
    repeat match goal with
           | |- context [match tmuxBinary ?s with _ => _ end] => destruct (tmuxBinary s)
           | |- context [match process ?s with _ => _ end] => destruct (process s)
           | |- context [match instance ?s with _ => _ end] => destruct (instance s)
           | |- context [if JS.truthy ?t then _ else _] => destruct (JS.truthy t)
           | |- context [if execFileSync ?a ?b ?c then _ else _] =>
               destruct (execFileSync a b c)
           end;
    cbn [self trace now attempts fst snd setInstance setProcess instance process
         settings nvimBinary termBinary tmuxBinary adapter apiKey startedVia];
    eexists; rewrite <- ?app_assoc; reflexivity.
Qed.

(** A direct launch that finds its binary, gets a process and an
    answer to its first probe ends with both handles set. *)
Lemma spawnHeadless_succeeds (w : World) (ad : FileSystemAdapter) (extraEnvVars : Env)
    (m : Machine) (b : NvimBinary) (p : ChildProcess) (n : Z) (t : Transport) :
  nvimBinary (self m) = Some b ->
  (forall bin args, spawn w bin args = inr p) ->
  pid p = Some n ->
  listenTarget (listenOn (settings (self m))) = inr t ->
  probeOk (probe w (attempts m)) = true ->
  let r := spawnHeadless w ad extraEnvVars m in
  fst r = Returned tt
  /\ process (self (snd r)) = Some p
  /\ instance (self (snd r)) = Some (mkClient t)
  /\ startedVia (self (snd r)) = ViaHeadless.
Proof.
  intros Hbin Hspawn Hpid Haddr Hok r. unfold r, spawnHeadless.
  unfold nvimPath, tryCatch, doSpawn, registerProcessEvents, spawnCatch,
    bind, modify, emit, getSelf, ret, throw, notice, emit.
  rewrite Hbin. cbn [self trace now attempts fst snd spawnArgs].
  rewrite Hspawn, Hpid.
  cbn [self trace now attempts fst snd process setProcess setStartedVia].
  erewrite (waitForServerReady_first_try w 7000 _ t); [| lia | exact Haddr | exact Hok].
  cbn [fst snd self attempts attempted setInstance instance process startedVia].
  rewrite Hok. repeat split.
Qed.

Lemma spawnWithTerminal_succeeds (w : World) (ad : FileSystemAdapter) (extraEnvVars : Env)
    (m : Machine) (b : NvimBinary) (term : string) (p : ChildProcess) (n : Z)
    (t : Transport) :
  nvimBinary (self m) = Some b ->
  termBinary (self m) = Some term ->
  (forall bin args, spawn w bin args = inr p) ->
  pid p = Some n ->
  listenTarget (listenOn (settings (self m))) = inr t ->
  probeOk (probe w (attempts m)) = true ->
  let r := spawnWithTerminal w ad extraEnvVars m in
  fst r = Returned tt
  /\ process (self (snd r)) = Some p
  /\ instance (self (snd r)) = Some (mkClient t)
  /\ startedVia (self (snd r)) = ViaTerminal.
Proof.
  intros Hbin Hterm Hspawn Hpid Haddr Hok r. unfold r, spawnWithTerminal.
  unfold nvimPath, termPath, tryCatch, doSpawn, registerProcessEvents, spawnCatch,
    bind, modify, emit, getSelf, ret, throw, notice, emit.
  rewrite Hterm, Hbin. cbn [self trace now attempts fst snd].
  rewrite Hspawn, Hpid.
  cbn [self trace now attempts fst snd process setProcess setStartedVia].
  erewrite (waitForServerReady_first_try w 7000 _ t); [| lia | exact Haddr | exact Hok].
  cbn [fst snd self attempts attempted setInstance instance process startedVia].
  rewrite Hok. repeat split.
Qed.

(** The optional terminal of the tmux launch only adds to the trace. *)
Lemma spawnTerminalToAttachTmux_run (w : World) (name : string) (m : Machine) :
  exists evs, spawnTerminalToAttachTmux w name m = (Returned tt, logged evs m).
Proof.
  unfold spawnTerminalToAttachTmux, bind at 1. unfold getSelf at 1.
  destruct (termBinary (self m)) as [term |] eqn:Hterm; cbn [JS.truthyOpt negb].
  - destruct (JS.truthy term).
    + cbn [negb]. unfold tryCatch, termPath, doSpawn, bind, getSelf, emit, ret, throw,
        notice, emit, logged.
      rewrite Hterm. cbn [self trace now attempts fst snd spawnArgs].
      destruct (spawn w term _); cbn [self trace now attempts fst snd];
        eexists; rewrite <- ?app_assoc; reflexivity.
    + cbn [negb]. eexists. reflexivity.
  - eexists. reflexivity.
Qed.

Lemma bind_returned {A B} (c : M A) (k : A -> M B) (m m' : Machine) (a : A) :
  c m = (Returned a, m') -> bind c k m = k a m'.
Proof. intros H. unfold bind. rewrite H. reflexivity. Qed.

Lemma tmuxConnect_succeeds (w : World) (name : string) (m : Machine) (t : Transport) :
  listenTarget (listenOn (settings (self m))) = inr t ->
  probeOk (probe w (attempts m)) = true ->
  exists evs,
    tmuxConnect w name m
      = (Returned tt,
         logged [ENotice (NoticeTmuxRunning name) (Some 4000)]
           (attempted w t (logged evs m))).
Proof.
  intros Haddr Hok. unfold tmuxConnect.
  rewrite (bind_returned getSelf _ m m (self m) eq_refl).
  assert (Hstep : exists evs,
             (if tmuxAttachOnStart (settings (self m))
              then spawnTerminalToAttachTmux w name else ret tt) m
             = (Returned tt, logged evs m)).
  { destruct (tmuxAttachOnStart (settings (self m))).
    - apply spawnTerminalToAttachTmux_run.
    - exists []. unfold ret, logged. rewrite app_nil_r. destruct m; reflexivity. }
  destruct Hstep as [evs Hstep]. exists evs.
  rewrite (bind_returned _ _ m (logged evs m) tt Hstep).
  rewrite (bind_returned _ _ (logged evs m) (attempted w t (logged evs m)) true
             (waitForServerReady_first_try w 7000 (logged evs m) t ltac:(lia) Haddr Hok)).
  reflexivity.
Qed.

(** A tmux launch that finds the session and gets an answer to its
    first probe ends attached, with no process handle of its own. *)
Lemma spawnWithTmux_succeeds (w : World) (ad : FileSystemAdapter) (extraEnvVars : Env)
    (m : Machine) (tmux : string) (t : Transport) :
  win32 w = false ->
  tmuxBinary (self m) = Some tmux ->
  JS.truthy tmux = true ->
  (forall bin args, execFileSync w bin args = true) ->
  listenTarget (listenOn (settings (self m))) = inr t ->
  probeOk (probe w (attempts m)) = true ->
  let r := spawnWithTmux w ad extraEnvVars m in
  fst r = Returned tt
  /\ process (self (snd r)) = process (self m)
  /\ instance (self (snd r)) = Some (mkClient t)
  /\ startedVia (self (snd r)) = ViaTmux.
Proof.
  intros Hwin Htmux Htruthy Hexec Haddr Hok r.
  unfold r. rewrite (spawnWithTmux_run w ad extraEnvVars m tmux Hwin Htmux Htruthy).
  rewrite Hexec, !andb_false_r. unfold tmuxEnsureAndConnect. cbn [negb].
  destruct (tmuxConnect_succeeds w (sessionNameOf (settings (self m)))
              (tmuxLookedUp tmux m) t Haddr Hok) as [evs Hrun].
  rewrite Hrun.
  cbn [fst snd self attempts attempted setInstance instance process startedVia logged
       tmuxLookedUp setStartedVia].
  rewrite Hok. repeat split.
Qed.

(** C1, as amended. For every session state, after [close] has
    returned both the process handle and the RPC handle are empty and
    every other field, [startedVia] among them, is as it was: [close]
    does not reset [startedVia] to [unknown]. From that state a launch
    is not refused as already running and succeeds when the outside
    world cooperates: with the editor binary resolved and a usable
    listen address, a direct launch whose spawn yields a process and
    whose first probe is answered ends with both handles set, and a tmux
    launch that finds its session and is answered ends attached. *)
Theorem close_then_launch :
  forall (w : World) (m : Machine),
    let m' := snd (close w m) in
    fst (close w m) = Returned tt
    /\ instance (self m') = None
    /\ process (self m') = None
    /\ startedVia (self m') = startedVia (self m)
    /\ sameStatics m m'
    /\ (forall (w' : World) (ad : FileSystemAdapter) (p : ChildProcess) (n : Z)
               (t : Transport),
          nvimBinaryMissing (self m) = false ->
          hostMode (settings (self m)) = HostNvim ->
          (forall bin args, spawn w' bin args = inr p) ->
          pid p = Some n ->
          listenTarget (listenOn (settings (self m))) = inr t ->
          probeOk (probe w' (attempts m')) = true ->
          let r := newInstance w' ad m' in
          fst r = Returned tt
          /\ process (self (snd r)) = Some p
          /\ instance (self (snd r)) = Some (mkClient t)
          /\ startedVia (self (snd r))
             = if JS.truthyOpt (termBinary (self m)) then ViaTerminal else ViaHeadless)
    /\ (forall (w' : World) (ad : FileSystemAdapter) (tmux : string) (t : Transport),
          nvimBinaryMissing (self m) = false ->
          hostMode (settings (self m)) = HostTmux ->
          win32 w' = false ->
          tmuxBinary (self m) = Some tmux ->
          JS.truthy tmux = true ->
          (forall bin args, execFileSync w' bin args = true) ->
          listenTarget (listenOn (settings (self m))) = inr t ->
          probeOk (probe w' (attempts m')) = true ->
          let r := newInstance w' ad m' in
          fst r = Returned tt
          /\ process (self (snd r)) = None
          /\ instance (self (snd r)) = Some (mkClient t)
          /\ startedVia (self (snd r)) = ViaTmux).
Proof.
  intros w m m'. destruct (close_run w m) as [evs Hclose].
  assert (Hm' : m' = logged evs (handlesDropped m)) by (unfold m'; now rewrite Hclose).
  rewrite Hclose. clearbody m'. subst m'.
  split; [reflexivity |]. split; [reflexivity |]. split; [reflexivity |].
  split; [reflexivity |]. split; [repeat split |].
  set (m' := logged evs (handlesDropped m)).
  assert (Hset : settings (self m') = settings (self m)) by reflexivity.
  assert (Hnvim : nvimBinary (self m') = nvimBinary (self m)) by reflexivity.
  assert (Hproc : process (self m') = None) by reflexivity.
  split.
  - intros w' ad p n t Hbin Hmode Hspawn Hpid Haddr Hok r.
    assert (Hr : r = match selectStrategy (self m') with
                     | StratHeadless => spawnHeadless w' ad (launchEnv (self m')) m'
                     | StratTerminal => spawnWithTerminal w' ad (launchEnv (self m')) m'
                     | StratTmux => spawnWithTmux w' ad (launchEnv (self m')) m'
                     end).
    { unfold r, newInstance, bind, getSelf, isHostNvim. rewrite Hproc, andb_false_r.
      unfold nvimBinaryMissing in *. rewrite Hnvim, Hbin.
      destruct (selectStrategy (self m')); reflexivity. }
    rewrite Hr. clear Hr. clearbody r. clear r.
    unfold selectStrategy. rewrite Hset, Hmode.
    change (termBinary (self m')) with (termBinary (self m)).
    unfold nvimBinaryMissing in Hbin.
    destruct (nvimBinary (self m)) as [b |] eqn:Hb; [| discriminate Hbin].
    destruct (termBinary (self m)) as [term |] eqn:Hterm; cbn [JS.truthyOpt negb].
    + destruct (JS.truthy term); cbn [negb].
      * apply (spawnWithTerminal_succeeds w' ad _ m' b term p n t); trivial.
      * apply (spawnHeadless_succeeds w' ad _ m' b p n t); trivial.
    + apply (spawnHeadless_succeeds w' ad _ m' b p n t); trivial.
  - intros w' ad tmux t Hbin Hmode Hwin Htmux Htruthy Hexec Haddr Hok r.
    assert (Hr : r = spawnWithTmux w' ad (launchEnv (self m')) m').
    { unfold r, newInstance, bind, getSelf, isHostNvim, selectStrategy.
      rewrite Hset, Hmode. cbn [andb].
      unfold nvimBinaryMissing in *. rewrite Hnvim, Hbin. reflexivity. }
    rewrite Hr. clear Hr. clearbody r. clear r.
    destruct (spawnWithTmux_succeeds w' ad (launchEnv (self m')) m' tmux t
                Hwin Htmux Htruthy Hexec Haddr Hok) as [H1 [H2 [H3 H4]]].
    rewrite Hproc in H2. auto.
Qed.

Lemma close_then_launch_witness :
  let m' := snd (close readyWorld launchedMachine) in
  let r := newInstance readyWorld vaultAdapter m' in
  fst r = Returned tt
  /\ process (self (snd r)) = Some (mkChildProcess (Some 4242))
  /\ instance (self (snd r)) = Some (mkClient (TcpStream "127.0.0.1" 2006))
  /\ startedVia (self (snd r))
     = if JS.truthyOpt (termBinary (self launchedMachine)) then ViaTerminal else ViaHeadless.
Proof.
  pose proof (close_then_launch readyWorld launchedMachine) as H. cbv zeta in H.
  destruct H as [_ [_ [_ [_ [_ [Hlaunch _]]]]]].
  apply (Hlaunch readyWorld vaultAdapter (mkChildProcess (Some 4242)) 4242
           (TcpStream "127.0.0.1" 2006)).
  - vm_compute. reflexivity.
  - vm_compute. reflexivity.
  - intros bin args. reflexivity.
  - reflexivity.
  - vm_compute. reflexivity.
  - vm_compute. reflexivity.
Defined.

(** C1, the claim as written fails: after a headless launch and a
    [close], [startedVia] is still [headless], not [unknown]. *)
Lemma close_keeps_startedVia :
  startedVia (self launchedMachine) = ViaHeadless
  /\ fst (close readyWorld launchedMachine) = Returned tt
  /\ startedVia (self (snd (close readyWorld launchedMachine))) = ViaHeadless
  /\ startedVia (self (snd (close readyWorld launchedMachine))) <> ViaUnknown.
Proof.
  repeat split; vm_compute; (reflexivity || discriminate).
Qed.

(* ================================================================== *)
(** ** More on the string primitives *)
(* ================================================================== *)

Lemma startsWith_spec (p s : string) :
  JS.startsWith p s = true <-> exists post, s = p ++ post.
Proof.
  revert s. induction p as [| a p IH]; intros s; simpl.
  - split; [intros _; exists s; reflexivity | reflexivity].
  - destruct s as [| b s].
    + split; [discriminate | intros [post H]; discriminate H].
    + rewrite andb_true_iff, IH. split.
      * intros [Hab [post ->]]. apply Ascii.eqb_eq in Hab. subst b.
        exists post. reflexivity.
      * intros [post H]. injection H as -> ->. split; [apply Ascii.eqb_refl | eauto].
Qed.

Lemma includes_spec (sub s : string) :
  JS.includes sub s = true <-> exists pre post, s = pre ++ sub ++ post.
Proof.
  induction s as [| c s IH].
  - simpl. rewrite orb_false_r, startsWith_spec. split.
    + intros [post H]. exists "", post. exact H.
    + intros [pre [post H]]. destruct pre; [exists post; exact H | discriminate H].
  - change (JS.includes sub (String c s))
      with (JS.startsWith sub (String c s) || JS.includes sub s).
    rewrite orb_true_iff, startsWith_spec, IH. split.
    + intros [[post H] | [pre [post H]]].
      * exists "", post. exact H.
      * exists (String c pre), post. simpl. now rewrite H.
    + intros [pre [post H]]. destruct pre as [| a pre].
      * left. exists post. exact H.
      * right. simpl in H. injection H as _ H. exists pre, post. exact H.
Qed.

Lemma append_assoc (a b c : string) : (a ++ b) ++ c = a ++ b ++ c.
Proof. induction a as [| x a IH]; simpl; [reflexivity | now rewrite IH]. Qed.

Lemma lastIndexOf_at_least (c : ascii) (s : string) : -1 <= JS.lastIndexOf c s.
Proof.
  induction s as [| a s IH]; simpl; [lia |].
  destruct (0 <=? JS.lastIndexOf c s) eqn:E; [apply Z.leb_le in E; lia |].
  destruct (Ascii.eqb a c); lia.
Qed.

(** When the character is absent from the head of a string it is
    absent from its tail. *)
Lemma lastIndexOf_absent_cons (sep c : ascii) (s : string) :
  JS.lastIndexOf sep (String c s) = -1 ->
  Ascii.eqb c sep = false /\ JS.lastIndexOf sep s = -1.
Proof.
  simpl. pose proof (lastIndexOf_at_least sep s) as Hlow.
  destruct (0 <=? JS.lastIndexOf sep s) eqn:E.
  - apply Z.leb_le in E. lia.
  - apply Z.leb_gt in E. destruct (Ascii.eqb c sep); [discriminate |].
    intros _. split; [reflexivity | lia].
Qed.

Lemma split_nonempty (sep : ascii) (s : string) : JS.split sep s <> [].
Proof.
  induction s as [| c s IH]; simpl; [discriminate |].
  destruct (Ascii.eqb c sep); [discriminate |].
  destruct (JS.split sep s); discriminate.
Qed.

Lemma split_no_separator (sep : ascii) (s : string) :
  JS.lastIndexOf sep s = -1 -> JS.split sep s = [s].
Proof.
  induction s as [| c s IH]; [reflexivity |].
  intros H. apply lastIndexOf_absent_cons in H as [Hc Hs].
  simpl. rewrite Hc, (IH Hs). reflexivity.
Qed.

Lemma split_piece_then_separator (sep : ascii) (x rest : string) :
  JS.lastIndexOf sep x = -1 ->
  JS.split sep (x ++ String sep rest) = x :: JS.split sep rest.
Proof.
  induction x as [| c x IH].
  - intros _. simpl. rewrite Ascii.eqb_refl. reflexivity.
  - intros H. apply lastIndexOf_absent_cons in H as [Hc Hx].
    simpl. rewrite Hc, (IH Hx). reflexivity.
Qed.

(* ================================================================== *)
(** ** The settings tab *)
(* ================================================================== *)

Lemma includes_char_absent (c : ascii) (s : string) :
  JS.includes (String c "") s = false <-> JS.lastIndexOf c s = -1.
Proof.
  induction s as [| a s IH].
  - simpl. tauto.
  - change (JS.includes (String c "") (String a s))
      with (JS.startsWith (String c "") (String a s) || JS.includes (String c "") s).
    rewrite orb_false_iff, IH. simpl JS.startsWith. rewrite andb_true_r.
    pose proof (lastIndexOf_at_least c s) as Hlow. split.
    + intros [Hac Hs]. simpl. rewrite Hs. simpl.
      rewrite Ascii.eqb_sym, Hac. reflexivity.
    + intros H. apply lastIndexOf_absent_cons in H as [Hac Hs].
      rewrite Ascii.eqb_sym. auto.
Qed.

Lemma split_arrayJoin (sep : ascii) (l : list string) :
  l <> [] ->
  Forall (fun x => JS.lastIndexOf sep x = -1) l ->
  JS.split sep (arrayJoin (String sep "") l) = l.
Proof.
  induction l as [| x rest IH]; [congruence |].
  intros _ Hall. inversion Hall as [| ? ? Hx Hrest]; subst.
  destruct rest as [| y rest'].
  - simpl. apply split_no_separator. exact Hx.
  - change (arrayJoin (String sep "") (x :: y :: rest'))
      with (x ++ String sep (arrayJoin (String sep "") (y :: rest'))).
    rewrite (split_piece_then_separator sep x _ Hx), IH; [reflexivity | discriminate | exact Hrest].
Qed.

(** X1. The "Supported file types" field gives back what it shows:
    storing the text the field displays leaves the settings unchanged,
    provided the list is not empty and no entry holds a space. The
    handler never stores an empty list: an empty list is shown as the
    empty text and stored back as the list of one empty extension. *)
Theorem supportedFileTypes_round_trip :
  forall st : EditInNeovimSettings,
    (supportedFileTypes st <> [] ->
     Forall (fun x => JS.includes " " x = false) (supportedFileTypes st) ->
     onChangeSupportedFileTypes (shownSupportedFileTypes st) st = st)
    /\ (supportedFileTypes st = [] ->
        supportedFileTypes (onChangeSupportedFileTypes (shownSupportedFileTypes st) st)
        = [""])
    /\ (forall value, supportedFileTypes (onChangeSupportedFileTypes value st) <> []).
Proof.
  intros st. split; [| split].
  - intros Hne Hall. unfold onChangeSupportedFileTypes, shownSupportedFileTypes.
    rewrite split_arrayJoin; [destruct st; reflexivity | exact Hne |].
    eapply Forall_impl; [| exact Hall]. intros x Hx.
    apply includes_char_absent. exact Hx.
  - intros Hnil. unfold onChangeSupportedFileTypes, shownSupportedFileTypes.
    rewrite Hnil. reflexivity.
  - intros value. unfold onChangeSupportedFileTypes. simpl. apply split_nonempty.
Qed.

Lemma supportedFileTypes_round_trip_witness :
  onChangeSupportedFileTypes (shownSupportedFileTypes DEFAULT_SETTINGS) DEFAULT_SETTINGS
    = DEFAULT_SETTINGS.
Proof.
  apply (proj1 (supportedFileTypes_round_trip DEFAULT_SETTINGS)).
  - discriminate.
  - repeat constructor.
Defined.

(** Reversal of strings. *)
Lemma list_ascii_of_append (a b : string) :
  list_ascii_of_string (a ++ b) = (list_ascii_of_string a ++ list_ascii_of_string b)%list.
Proof. induction a as [| c a IH]; simpl; [reflexivity | now rewrite IH]. Qed.

Lemma string_of_list_app (l1 l2 : list ascii) :
  string_of_list_ascii (l1 ++ l2) = string_of_list_ascii l1 ++ string_of_list_ascii l2.
Proof. induction l1 as [| c l1 IH]; simpl; [reflexivity | now rewrite IH]. Qed.

Lemma reverse_involutive (s : string) : JS.reverse (JS.reverse s) = s.
Proof.
  unfold JS.reverse.
  rewrite list_ascii_of_string_of_list_ascii, rev_involutive.
  apply string_of_list_ascii_of_string.
Qed.

Lemma reverse_append (a b : string) :
  JS.reverse (a ++ b) = JS.reverse b ++ JS.reverse a.
Proof.
  unfold JS.reverse. rewrite list_ascii_of_append, rev_app_distr.
  apply string_of_list_app.
Qed.

(** What [trimStart] removes and what it leaves. *)
Lemma trimStart_clean (s : string) :
  match JS.trimStart s with
  | EmptyString => True
  | String c _ => JS.isWhiteSpace c = false
  end.
Proof.
  induction s as [| c s IH]; simpl; [exact I |].
  destruct (JS.isWhiteSpace c) eqn:E; [exact IH | exact E].
Qed.

Lemma trimStart_of_clean (s : string) :
  match s with
  | EmptyString => True
  | String c _ => JS.isWhiteSpace c = false
  end ->
  JS.trimStart s = s.
Proof. destruct s as [| c s]; simpl; [reflexivity | intros ->; reflexivity]. Qed.

Lemma trimStart_suffix (s : string) : exists pre, s = pre ++ JS.trimStart s.
Proof.
  induction s as [| c s [pre IH]]; simpl.
  - exists "". reflexivity.
  - destruct (JS.isWhiteSpace c).
    + exists (String c pre). simpl. now rewrite <- IH.
    + exists "". reflexivity.
Qed.

Lemma trimEnd_prefix (s : string) : exists post, s = JS.trimEnd s ++ post.
Proof.
  unfold JS.trimEnd. destruct (trimStart_suffix (JS.reverse s)) as [pre H].
  exists (JS.reverse pre).
  rewrite <- reverse_append, <- H. symmetry. apply reverse_involutive.
Qed.

Lemma trimEnd_keeps_clean (s : string) :
  match s with
  | EmptyString => True
  | String c _ => JS.isWhiteSpace c = false
  end ->
  match JS.trimEnd s with
  | EmptyString => True
  | String c _ => JS.isWhiteSpace c = false
  end.
Proof.
  intros Hs. destruct (trimEnd_prefix s) as [post H].
  destruct (JS.trimEnd s) as [| c t]; [exact I |].
  rewrite H in Hs. exact Hs.
Qed.

(** [trim] does nothing to a string it has already trimmed. *)
Lemma trim_idempotent (s : string) : JS.trim (JS.trim s) = JS.trim s.
Proof.
  unfold JS.trim.
  set (t := JS.trimStart s).
  assert (Ht : match t with
               | EmptyString => True
               | String c _ => JS.isWhiteSpace c = false
               end) by apply trimStart_clean.
  pose proof (trimEnd_keeps_clean t Ht) as Hu.
  rewrite (trimStart_of_clean (JS.trimEnd t) Hu).
  unfold JS.trimEnd at 1.
  assert (Hr : JS.reverse (JS.trimEnd t) = JS.trimStart (JS.reverse t)).
  { unfold JS.trimEnd. apply reverse_involutive. }
  rewrite Hr, (trimStart_of_clean _ (trimStart_clean (JS.reverse t))).
  reflexivity.
Qed.

(** X2. Whatever text is typed into the "tmux session name" field, the
    name that launch and close then use is not empty: it is the typed
    text without its surrounding white space, or [obsidian] when that is
    empty. The fallback name [edit-in-neovim] of [Neovim.ts] is never
    used for a name stored by the field. *)
Theorem saved_session_name_is_usable :
  forall (value : string) (st : EditInNeovimSettings),
    let st' := onChangeTmuxSessionName value st in
    sessionNameOf st' = tmuxSessionName st'
    /\ sessionNameOf st' <> ""
    /\ sessionNameOf st' = (if JS.truthy (JS.trim value) then JS.trim value else "obsidian").
Proof.
  intros value st st'.
  assert (H : sessionNameOf st'
              = (if JS.truthy (JS.trim value) then JS.trim value else "obsidian")
              /\ tmuxSessionName st'
                 = (if JS.truthy (JS.trim value) then JS.trim value else "obsidian")).
  { unfold st', onChangeTmuxSessionName, sessionNameOf, JS.orElse. simpl tmuxSessionName.
    destruct (JS.truthy (JS.trim value)) eqn:E.
    - rewrite E, trim_idempotent. split; reflexivity.
    - split; reflexivity. }
  destruct H as [H1 H2]. rewrite H1, H2. repeat split.
  destruct (JS.truthy (JS.trim value)) eqn:E; [| discriminate].
  destruct (JS.trim value); [discriminate E | discriminate].
Qed.

(* ================================================================== *)
(** ** The binary search *)
(* ================================================================== *)

Lemma existsb_eqb_In (x : string) (l : list string) :
  existsb (String.eqb x) l = true <-> In x l.
Proof.
  rewrite existsb_exists. split.
  - intros [y [Hy Hxy]]. apply String.eqb_eq in Hxy. now subst.
  - intros H. exists x. split; [exact H | apply String.eqb_refl].
Qed.




(** What the loop over the candidates returns. *)
Lemma firstUsable_split (w : World) (lib : PathLib) (pre : list string) (p : string)
    (post : list string) :
  (forall q, In q pre -> existsSync w q = false) ->
  existsSync w p = true ->
  firstUsable w lib (pre ++ p :: post) = if accessSync lib p then Some p else None.
Proof.
  intros Hpre Hp. induction pre as [| q pre IH]; simpl.
  - rewrite Hp. reflexivity.
  - rewrite (Hpre q (or_introl eq_refl)). simpl. apply IH.
    intros r Hr. apply Hpre. right. exact Hr.
Qed.

Lemma firstUsable_sound (w : World) (lib : PathLib) (allPaths : list string) (p : string) :
  firstUsable w lib allPaths = Some p ->
  exists pre post,
    allPaths = (pre ++ p :: post)%list
    /\ (forall q, In q pre -> existsSync w q = false)
    /\ existsSync w p = true /\ accessSync lib p = true.
Proof.
  induction allPaths as [| q rest IH]; simpl; [discriminate |].
  destruct (existsSync w q) eqn:Eq; simpl.
  - destruct (accessSync lib q) eqn:Aq; [| discriminate].
    intros H. injection H as <-. exists [], rest. repeat split; trivial. intros r [].
  - intros H. destruct (IH H) as [pre [post [-> [Hpre [Hp Ha]]]]].
    exists (q :: pre), post. repeat split; trivial.
    intros r [<- | Hr]; [exact Eq | apply Hpre; exact Hr].
Qed.

Lemma firstUsable_none (w : World) (lib : PathLib) (allPaths : list string) :
  (forall q, In q allPaths -> existsSync w q = false) ->
  firstUsable w lib allPaths = None.
Proof.
  induction allPaths as [| q rest IH]; simpl; [reflexivity |].
  intros H. rewrite (H q (or_introl eq_refl)). simpl. apply IH.
  intros r Hr. apply H. right. exact Hr.
Qed.

(** X3. [searchForBinary] answers with the first candidate file that
    exists, and only if that file may be executed: a path it returns is
    a candidate, exists, is executable, and no candidate before it
    exists. It is closed on failure: when the first candidate that
    exists may not be executed the answer is "not found", whatever
    comes later in the search path. When no candidate exists the answer
    is "not found". *)
Theorem searchForBinary_first_existing_decides :
  forall (w : World) (lib : PathLib) (name : string),
    let candidates :=
      map (fun d => pathJoin lib d (binaryName w name)) (searchPaths w lib) in
    (forall p, searchForBinary w lib name = Some p ->
       exists pre post,
         candidates = (pre ++ p :: post)%list
         /\ (forall q, In q pre -> existsSync w q = false)
         /\ existsSync w p = true /\ accessSync lib p = true)
    /\ (forall pre p post,
          candidates = (pre ++ p :: post)%list ->
          (forall q, In q pre -> existsSync w q = false) ->
          existsSync w p = true ->
          searchForBinary w lib name = if accessSync lib p then Some p else None)
    /\ ((forall q, In q candidates -> existsSync w q = false) ->
        searchForBinary w lib name = None).
Proof.
  intros w lib name candidates. unfold searchForBinary. fold candidates.
  split; [| split].
  - intros p. apply firstUsable_sound.
  - intros pre p post -> Hpre Hp. apply firstUsable_split; assumption.
  - apply firstUsable_none.
Qed.

Lemma searchForBinary_first_existing_decides_witness :
  searchForBinary shellWorld plainPaths "kitty"
    = (if accessSync plainPaths "/opt/bin/kitty" then Some "/opt/bin/kitty" else None)
  /\ searchForBinary shellWorld plainPaths "kitty" = None
  /\ existsSync shellWorld "/usr/bin/kitty" = true
  /\ accessSync plainPaths "/usr/bin/kitty" = true.
Proof.
  split; [| repeat split; vm_compute; reflexivity].
  apply (proj1 (proj2 (searchForBinary_first_existing_decides shellWorld plainPaths "kitty"))
           [] "/opt/bin/kitty"
           (map (fun d => pathJoin plainPaths d (binaryName shellWorld "kitty"))
              (tl (searchPaths shellWorld plainPaths)))).
  - vm_compute. reflexivity.
  - intros q [].
  - vm_compute. reflexivity.
Defined.





(* ================================================================== *)
(** ** The direct launches, outcome by outcome *)
(* ================================================================== *)


(** [spawnHeadless], outcome by outcome. *)
Lemma spawnHeadless_run (w : World) (ad : FileSystemAdapter) (extraEnvVars : Env)
    (m : Machine) (b : NvimBinary) :
  nvimBinary (self m) = Some b ->
  let addr := listenOn (settings (self m)) in
  let opts := headlessOptions w ad extraEnvVars addr in
  spawnHeadless w ad extraEnvVars m =
    match spawn w (path b) (spawnArgs opts) with
    | inl e => (Returned tt, spawnThrew ViaHeadless (path b) opts e m)
    | inr p =>
        match pid p with
        | None => (Returned tt, spawnedNoPid ViaHeadless (path b) opts m)
        | Some _ =>
            match waitForServerReady w 7000 (spawned ViaHeadless (path b) opts p m) with
            | (Returned true, m4) =>
                (Returned tt, logged [ENotice (NoticeServerStarted addr) (Some 4000)] m4)
            | (Returned false, m4) =>
                close w (logged [ENotice (NoticeConnectFailed addr) (Some 7000)] m4)
            | (Thrown e, m4) => spawnCatch e m4
            | (Stuck, m4) => (Stuck, m4)
            end
        end
    end.
Proof.
  intros Hbin addr opts. unfold spawnHeadless.
  unfold nvimPath, doSpawn, registerProcessEvents.
  unfold bind at 1. unfold getSelf at 1.
  unfold bind at 1. unfold bind at 1. unfold getSelf at 1. rewrite Hbin. unfold ret at 1.
  fold addr. change (mkSpawnOptions ["--headless"; "--listen"; addr] (getBasePath ad)
                       (envSpread (processEnv w) extraEnvVars) ShellFalse false StdioIgnore)
    with opts.
  unfold tryCatch at 1. unfold bind at 1. unfold modify at 1.
  unfold bind at 1. unfold bind at 1. unfold emit at 1.
  cbn [self trace now attempts fst snd].
  destruct (spawn w (path b) (spawnArgs opts)) as [e | p].
  - unfold throw, spawnCatch, notice, bind, emit, modify, spawnThrew.
    cbn [self trace now attempts fst snd]. rewrite <- app_assoc. reflexivity.
  - unfold ret at 1. unfold bind at 1. unfold modify at 1.
    cbn [self trace now attempts fst snd].
    destruct (pid p) as [n |].
    + unfold bind at 1. unfold bind at 1. unfold getSelf at 1.
      cbn [self process setProcess]. unfold emit at 1.
      cbn [self trace now attempts fst snd]. rewrite <- app_assoc. cbn [app].
      unfold bind at 1. fold (spawned ViaHeadless (path b) opts p m).
      destruct (waitForServerReady w 7000 (spawned ViaHeadless (path b) opts p m))
        as [[[|] | e |] m4].
      * reflexivity.
      * unfold bind, notice, emit. cbn [self trace now attempts fst snd].
        fold (logged [ENotice (NoticeConnectFailed addr) (Some 7000)] m4).
        destruct (close_run w (logged [ENotice (NoticeConnectFailed addr) (Some 7000)] m4))
          as [evs H].
        rewrite H. reflexivity.
      * reflexivity.
      * reflexivity.
    + unfold bind, notice, emit, modify, spawnedNoPid.
      cbn [self trace now attempts fst snd]. rewrite <- app_assoc. reflexivity.
Qed.

(** [spawnWithTerminal], outcome by outcome. *)
Lemma spawnWithTerminal_run (w : World) (ad : FileSystemAdapter) (extraEnvVars : Env)
    (m : Machine) (b : NvimBinary) (term : string) :
  nvimBinary (self m) = Some b ->
  termBinary (self m) = Some term ->
  let addr := listenOn (settings (self m)) in
  let opts := terminalOptions w ad extraEnvVars term (path b) addr in
  spawnWithTerminal w ad extraEnvVars m =
    match spawn w term (spawnArgs opts) with
    | inl e => (Returned tt, spawnThrew ViaTerminal term opts e m)
    | inr p =>
        match pid p with
        | None => (Returned tt, spawnedNoPid ViaTerminal term opts m)
        | Some _ =>
            match waitForServerReady w 7000 (spawned ViaTerminal term opts p m) with
            | (Returned true, m4) =>
                (Returned tt, logged [ENotice NoticeConnected (Some 3000)] m4)
            | (Returned false, m4) =>
                (Returned tt, logged [ENotice (NoticeConnectFailed addr) (Some 7000)] m4)
            | (Thrown e, m4) => spawnCatch e m4
            | (Stuck, m4) => (Stuck, m4)
            end
        end
    end.
Proof.
  intros Hbin Hterm addr opts. unfold spawnWithTerminal.
  unfold nvimPath, termPath, doSpawn, registerProcessEvents.
  unfold bind at 1. unfold getSelf at 1.
  unfold bind at 1. unfold bind at 1. unfold getSelf at 1. rewrite Hterm. unfold ret at 1.
  unfold bind at 1. unfold bind at 1. unfold getSelf at 1. rewrite Hbin. unfold ret at 1.
  fold addr. fold (terminalNameOf term).
  change (configureProcessSpawnArgs w
            (mkSpawnOptions [] (getBasePath ad) (envSpread (processEnv w) extraEnvVars)
               ShellFalse false StdioDefault)
            (terminalNameOf term) term (path b) addr) with opts.
  unfold tryCatch at 1. unfold bind at 1. unfold modify at 1.
  unfold bind at 1. unfold bind at 1. unfold emit at 1.
  cbn [self trace now attempts fst snd].
  destruct (spawn w term (spawnArgs opts)) as [e | p].
  - unfold throw, spawnCatch, notice, bind, emit, modify, spawnThrew.
    cbn [self trace now attempts fst snd]. rewrite <- app_assoc. reflexivity.
  - unfold ret at 1. unfold bind at 1. unfold modify at 1.
    cbn [self trace now attempts fst snd].
    destruct (pid p) as [n |].
    + unfold bind at 1. unfold bind at 1. unfold getSelf at 1.
      cbn [self process setProcess]. unfold emit at 1.
      cbn [self trace now attempts fst snd]. rewrite <- app_assoc. cbn [app].
      unfold bind at 1. fold (spawned ViaTerminal term opts p m).
      destruct (waitForServerReady w 7000 (spawned ViaTerminal term opts p m))
        as [[[|] | e |] m4]; reflexivity.
    + unfold bind, notice, emit, modify, spawnedNoPid.
      cbn [self trace now attempts fst snd]. rewrite <- app_assoc. reflexivity.
Qed.

(** [close], by the way the session was started. *)
Lemma close_direct (w : World) (m : Machine) :
  startedVia (self m) <> ViaTmux ->
  close w m = (Returned tt, logged (closeSignals (self m)) (handlesDropped m)).
Proof.
  intros Hvia. unfold close, bind, getSelf, closeSignals, logged, handlesDropped.
  destruct (startedVia (self m)); try congruence;
    destruct (process (self m)); destruct (instance (self m));
    unfold notice, modify, emit, ret; cbn [self trace now attempts fst snd app];
    rewrite <- ?app_assoc; reflexivity.
Qed.

Lemma close_tmux (w : World) (m : Machine) (tmux : string) :
  startedVia (self m) = ViaTmux ->
  tmuxBinary (self m) = Some tmux ->
  JS.truthy tmux = true ->
  close w m = (Returned tt, logged (closeTmuxEvents w tmux (self m)) (handlesDropped m)).
Proof.
  intros Hvia Htmux Htruthy.
  unfold close, bind, getSelf, closeTmuxEvents, logged, handlesDropped.
  rewrite Hvia, Htmux, Htruthy.
  unfold tryCatch, runSync, bind, emit, disconnect, notice, bind, modify, emit, ret, throw.
  cbn [self trace now attempts fst snd].
  destruct (execFileSync w tmux _); cbn [self trace now attempts fst snd];
    rewrite <- ?app_assoc; reflexivity.
Qed.

(** What a wait keeps, whatever its outcome. *)
Lemma waitLoop_noSignal w start timeoutMs fuel :
  respects (extendsBy notSignal) (waitLoop w start timeoutMs fuel).
Proof.
  induction fuel as [| fuel IH]; simpl waitLoop;
    frame_with (extendsBy_refl notSignal) (extendsBy_trans notSignal) IH
      ltac:(first [exact IH | leaf_events]).
Qed.

Lemma waitLoop_false_cleared (w : World) (start timeoutMs : Z) :
  forall (fuel : nat) (m m' : Machine),
    waitLoop w start timeoutMs fuel m = (Returned false, m') ->
    instance (self m') = None \/ m' = m.
Proof.
  induction fuel as [| fuel IH]; intros m m' H; [discriminate H |].
  rewrite waitLoop_step in H.
  destruct (now m - start <? timeoutMs).
  - destruct (attachToServer_effect w m) as [b [m1 [Hrun [_ [_ [_ Hfalse]]]]]].
    rewrite Hrun in H. destruct b; [discriminate H |].
    destruct (IH _ _ H) as [Hi | ->]; [left; exact Hi |].
    left. exact (Hfalse eq_refl).
  - injection H as <-. right. reflexivity.
Qed.

Lemma waitForServerReady_frame (w : World) (timeoutMs : Z) (m : Machine) :
  exists b m',
    waitForServerReady w timeoutMs m = (Returned b, m')
    /\ process (self m') = process (self m)
    /\ startedVia (self m') = startedVia (self m)
    /\ settings (self m') = settings (self m)
    /\ extendsBy notSignal m m'
    /\ (b = true -> instance (self m') <> None)
    /\ (b = false -> 0 < timeoutMs -> instance (self m') = None)
    /\ ((forall k, probeOk (probe w k) = false) -> b = false).
Proof.
  pose proof (waitForServerReady_sameProcess w timeoutMs m) as Hp.
  pose proof (waitForServerReady_sameStartedVia w timeoutMs m) as Hv.
  pose proof (waitForServerReady_sameSettings w timeoutMs m) as Hs.
  assert (He : extendsBy notSignal m (snd (waitForServerReady w timeoutMs m))).
  { rewrite waitForServerReady_unfold. apply waitLoop_noSignal. }
  rewrite waitForServerReady_unfold in *.
  destruct (waitLoop_returns w (now m) timeoutMs _ m (waitFuel_enough timeoutMs m))
    as [b [m' [Hrun [_ [_ [Htrue [_ [Hdeaf _]]]]]]]].
  unfold waitFuel in *. rewrite Hrun in Hp, Hv, Hs, He. cbn [snd] in *.
  exists b, m'. repeat split; trivial.
  intros -> Hpos.
  rewrite waitLoop_step in Hrun. rewrite Z.sub_diag in Hrun.
  apply Z.ltb_lt in Hpos. rewrite Hpos in Hrun.
  destruct (attachToServer_effect w m) as [b [m1 [Hatt [_ [_ [_ Hfalse]]]]]].
  rewrite Hatt in Hrun. destruct b; [discriminate Hrun |].
  set (n := Z.to_nat ((timeoutMs + (pollInterval - 1)) / pollInterval)) in Hrun.
  destruct (waitLoop_false_cleared w (now m) timeoutMs n _ _ Hrun) as [Hi | ->];
    [exact Hi | exact (Hfalse eq_refl)].
Qed.

Lemma newInstance_direct (w : World) (ad : FileSystemAdapter) (m : Machine)
    (b : NvimBinary) :
  hostMode (settings (self m)) = HostNvim ->
  process (self m) = None ->
  nvimBinary (self m) = Some b ->
  path b <> "" ->
  newInstance w ad m =
    if JS.truthyOpt (termBinary (self m))
    then spawnWithTerminal w ad (launchEnv (self m)) m
    else spawnHeadless w ad (launchEnv (self m)) m.
Proof.
  intros Hmode Hproc Hbin Hpath.
  unfold newInstance, bind, getSelf, isHostNvim, nvimBinaryMissing, selectStrategy.
  rewrite Hmode, Hproc, Hbin. cbn [isSome andb].
  destruct (String.eqb_spec (path b) "") as [E | _]; [contradiction |].
  destruct (JS.truthyOpt (termBinary (self m))); reflexivity.
Qed.

Lemma truthyOpt_some (o : option string) :
  JS.truthyOpt o = true -> exists t, o = Some t.
Proof. destruct o as [t |]; [eauto | discriminate]. Qed.



(** X6. A direct launch whose spawn fails leaves no process handle and
    makes no attach attempt, yet [startedVia] already records the
    strategy that was tried. When the spawn throws, the error message is
    shown and the RPC handle is cleared as well; when the spawn gives a
    process without a process id, a notice is shown, no handler is
    installed and the RPC handle is left as it was. *)
Theorem newInstance_spawn_failure :
  forall (w : World) (ad : FileSystemAdapter) (m : Machine) (b : NvimBinary),
    hostMode (settings (self m)) = HostNvim ->
    process (self m) = None ->
    nvimBinary (self m) = Some b ->
    path b <> "" ->
    let r := newInstance w ad m in
    let via := if JS.truthyOpt (termBinary (self m)) then ViaTerminal else ViaHeadless in
    (forall e, (forall bin args, spawn w bin args = inl e) ->
       fst r = Returned tt
       /\ process (self (snd r)) = None
       /\ instance (self (snd r)) = None
       /\ startedVia (self (snd r)) = via
       /\ attempts (snd r) = attempts m
       /\ exists bin opts,
            newEvents m (snd r)
            = [ESpawn bin opts; ENotice (NoticeSpawnError (message e)) (Some 10000)])
    /\ (forall p, (forall bin args, spawn w bin args = inr p) -> pid p = None ->
       fst r = Returned tt
       /\ process (self (snd r)) = None
       /\ instance (self (snd r)) = instance (self m)
       /\ startedVia (self (snd r)) = via
       /\ attempts (snd r) = attempts m
       /\ exists bin opts,
            newEvents m (snd r)
            = [ESpawn bin opts; ENotice NoticeProcessNotCreated (Some 5000)]).
Proof.
  intros w ad m b Hmode Hproc Hbin Hpath r via.
  assert (Hr : r = if JS.truthyOpt (termBinary (self m))
                   then spawnWithTerminal w ad (launchEnv (self m)) m
                   else spawnHeadless w ad (launchEnv (self m)) m)
    by (apply (newInstance_direct w ad m b); assumption).
  unfold via. clear via.
  destruct (JS.truthyOpt (termBinary (self m))) eqn:Hterm.
  - destruct (truthyOpt_some _ Hterm) as [term Ht].
    rewrite Hr, (spawnWithTerminal_run w ad _ m b term Hbin Ht). cbv zeta. split.
    + intros e Hspawn. rewrite Hspawn. cbn [fst snd]. repeat split.
      eexists _, _. apply newEvents_app. reflexivity.
    + intros p Hspawn Hpid. rewrite Hspawn, Hpid. cbn [fst snd]. repeat split.
      eexists _, _. apply newEvents_app. reflexivity.
  - rewrite Hr, (spawnHeadless_run w ad _ m b Hbin). cbv zeta. split.
    + intros e Hspawn. rewrite Hspawn. cbn [fst snd]. repeat split.
      eexists _, _. apply newEvents_app. reflexivity.
    + intros p Hspawn Hpid. rewrite Hspawn, Hpid. cbn [fst snd]. repeat split.
      eexists _, _. apply newEvents_app. reflexivity.
Qed.

Lemma newInstance_spawn_failure_witness :
  let r := newInstance barrenWorld vaultAdapter freshMachine in
  fst r = Returned tt
  /\ process (self (snd r)) = None
  /\ instance (self (snd r)) = None
  /\ startedVia (self (snd r))
     = (if JS.truthyOpt (termBinary (self freshMachine)) then ViaTerminal else ViaHeadless)
  /\ attempts (snd r) = attempts freshMachine
  /\ exists bin opts,
       newEvents freshMachine (snd r)
       = [ESpawn bin opts;
          ENotice (NoticeSpawnError (message (mkError "spawn EACCES" (Some "EACCES"))))
            (Some 10000)].
Proof.
  apply (proj1 (newInstance_spawn_failure barrenWorld vaultAdapter freshMachine
                  (mkNvimBinary "/usr/bin/nvim" (Some "0.10.0") None)
                  eq_refl eq_refl eq_refl ltac:(discriminate))
           (mkError "spawn EACCES" (Some "EACCES")) (fun _ _ => eq_refl)).
Defined.

(* ================================================================== *)
(** ** Waiting on an address whose port does not parse *)
(* ================================================================== *)

Lemma waitLoop_in_vain (w : World) (start timeoutMs : Z) (e : JsError) :
  forall (fuel : nat) (m : Machine),
    listenTarget (listenOn (settings (self m))) = inl e ->
    enoughFuel start timeoutMs (S fuel) m ->
    now m - start < timeoutMs ->
    waitLoop w start timeoutMs (S fuel) m
    = (Returned false,
       mkMachine (setInstance None (self m)) (trace m)
         (now m + pollInterval * ((timeoutMs - (now m - start) + (pollInterval - 1))
                                  / pollInterval))
         (attempts m)).
Proof.
  unfold enoughFuel, pollInterval.
  induction fuel as [| fuel IH]; intros m Haddr Hfuel Hcond; [lia |].
  rewrite waitLoop_step.
  assert (Hc : (now m - start <? timeoutMs) = true) by (apply Z.ltb_lt; exact Hcond).
  rewrite Hc, attachToServer_run, Haddr.
  set (m2 := slept (instanceCleared m)).
  assert (Hnow2 : now m2 = now m + 200) by reflexivity.
  destruct (Z_lt_le_dec (now m2 - start) timeoutMs) as [Hlt | Hge].
  - rewrite (IH m2); [| exact Haddr | rewrite Hnow2; lia | exact Hlt].
    rewrite Hnow2. f_equal. unfold m2, slept, instanceCleared. cbn [self trace attempts].
    f_equal.
    replace (timeoutMs - (now m - start) + (200 - 1))
      with (timeoutMs - (now m + 200 - start) + (200 - 1) + 1 * 200) by lia.
    rewrite Z.div_add by lia. lia.
  - rewrite waitLoop_step.
    assert (Hc2 : (now m2 - start <? timeoutMs) = false) by (apply Z.ltb_ge; exact Hge).
    rewrite Hc2. f_equal. unfold m2, slept, instanceCleared, pollInterval.
    cbn [self trace now attempts]. f_equal.
    replace ((timeoutMs - (now m - start) + (200 - 1)) / 200) with 1; [lia |].
    apply Z.div_unique with (r := timeoutMs - (now m - start) - 1); lia.
Qed.

(** X7. With a listen address whose port does not parse, a wait makes
    no call at all and still lasts to the end: it answers [false] after
    the timeout rounded up to a whole number of poll intervals, with the
    RPC handle cleared and no attach attempt counted. *)
Theorem waitForServerReady_unparsable_port :
  forall (w : World) (timeoutMs : Z) (m : Machine) (e : JsError),
    listenTarget (listenOn (settings (self m))) = inl e ->
    0 < timeoutMs ->
    waitForServerReady w timeoutMs m = (Returned false, waitedInVain timeoutMs m)
    /\ newEvents m (snd (waitForServerReady w timeoutMs m)) = []
    /\ attempts (snd (waitForServerReady w timeoutMs m)) = attempts m
    /\ timeoutMs <= now (snd (waitForServerReady w timeoutMs m)) - now m
         < timeoutMs + pollInterval.
Proof.
  intros w timeoutMs m e Haddr Hpos.
  assert (H : waitForServerReady w timeoutMs m = (Returned false, waitedInVain timeoutMs m)).
  { rewrite waitForServerReady_unfold. unfold waitFuel.
    rewrite (waitLoop_in_vain w (now m) timeoutMs e _ m Haddr);
      [| apply (waitFuel_enough timeoutMs m) | lia].
    unfold waitedInVain. rewrite Z.sub_diag, Z.sub_0_r. reflexivity. }
  rewrite H. cbn [snd]. split; [reflexivity |].
  split; [unfold newEvents, waitedInVain; cbn [trace]; apply skipn_own_length |].
  split; [reflexivity |].
  unfold waitedInVain, pollInterval. cbn [now].
  pose proof (Z.div_mod (timeoutMs + (200 - 1)) 200 ltac:(lia)).
  pose proof (Z.mod_pos_bound (timeoutMs + (200 - 1)) 200 ltac:(lia)). lia.
Qed.

Lemma waitForServerReady_unparsable_port_witness :
  waitForServerReady readyWorld 7000 (machineListening "localhost:nvim")
    = (Returned false, waitedInVain 7000 (machineListening "localhost:nvim"))
  /\ newEvents (machineListening "localhost:nvim")
       (snd (waitForServerReady readyWorld 7000 (machineListening "localhost:nvim"))) = []
  /\ attempts (snd (waitForServerReady readyWorld 7000 (machineListening "localhost:nvim")))
     = attempts (machineListening "localhost:nvim")
  /\ 7000 <= now (snd (waitForServerReady readyWorld 7000
                         (machineListening "localhost:nvim")))
             - now (machineListening "localhost:nvim")
          < 7000 + pollInterval.
Proof.
  apply (waitForServerReady_unparsable_port readyWorld 7000
           (machineListening "localhost:nvim")
           (mkError "Invalid listen port in: localhost:nvim" None)).
  - vm_compute. reflexivity.
  - lia.
Defined.

(* ================================================================== *)
(** ** The launcher's and the attacher's reading of an address *)
(* ================================================================== *)










(* ================================================================== *)
(** ** What [close] contacts *)
(* ================================================================== *)

Lemma close_tmux_no_binary (w : World) (m : Machine) :
  startedVia (self m) = ViaTmux ->
  JS.truthyOpt (tmuxBinary (self m)) = false ->
  close w m
    = (Returned tt, logged [ENotice NoticeTmuxNoBinary (Some 5000)] (handlesDropped m)).
Proof.
  intros Hvia Hbin. unfold close, bind, getSelf. rewrite Hvia.
  unfold disconnect, notice, bind, modify, emit, logged, handlesDropped.
  destruct (tmuxBinary (self m)) as [tmux |]; cbn [JS.truthyOpt] in Hbin;
    [rewrite Hbin |]; reflexivity.
Qed.

Lemma newEvents_dropped (m : Machine) (evs : list Event) :
  newEvents m (logged evs (handlesDropped m)) = evs.
Proof. apply newEvents_app. reflexivity. Qed.

(** X9. [close] contacts only what the recorded strategy started. In a
    session recorded as started through tmux it never signals the
    process handle nor asks the RPC client to quit, even when such
    handles are held: the only command it gives is [kill-session] for
    the configured session name, to the tmux binary found at
    construction, and it gives it whenever that binary is known. In
    every other state it gives no command to tmux, signals the process
    it holds and asks the client it holds to quit. *)
Theorem close_contacts_what_was_started :
  forall (w : World) (m : Machine),
    let evs := newEvents m (snd (close w m)) in
    match startedVia (self m) with
    | ViaTmux =>
        Forall notSignal evs
        /\ (forall bin args,
              In (EExecFileSync bin args) evs ->
              tmuxBinary (self m) = Some bin
              /\ args = ["kill-session"; "-t"; sessionNameOf (settings (self m))])
        /\ (forall tmux,
              tmuxBinary (self m) = Some tmux -> JS.truthy tmux = true ->
              In (EExecFileSync tmux
                    ["kill-session"; "-t"; sessionNameOf (settings (self m))]) evs)
    | _ =>
        Forall (fun e => isTmuxCommand e = false) evs
        /\ (forall p, process (self m) = Some p -> In (EKill p) evs)
        /\ (forall c, instance (self m) = Some c -> In (EQuit c) evs)
    end.
Proof.
  intros w m evs.
  assert (Hdirect : startedVia (self m) <> ViaTmux ->
            Forall (fun e => isTmuxCommand e = false) evs
            /\ (forall p, process (self m) = Some p -> In (EKill p) evs)
            /\ (forall c, instance (self m) = Some c -> In (EQuit c) evs)).
  { intros Hvia. unfold evs. rewrite (close_direct w m Hvia). cbn [snd].
    rewrite newEvents_dropped. unfold closeSignals.
    split; [| split].
    - destruct (process (self m)); destruct (instance (self m)); repeat constructor.
    - intros p ->. simpl. left. reflexivity.
    - intros c ->. apply in_or_app. right. simpl. left. reflexivity. }
  destruct (startedVia (self m)) eqn:Hvia; try (apply Hdirect; discriminate).
  clear Hdirect.
  destruct (JS.truthyOpt (tmuxBinary (self m))) eqn:Hbin.
  - destruct (tmuxBinary (self m)) as [tmux |] eqn:Htmux; [| discriminate Hbin].
    cbn [JS.truthyOpt] in Hbin.
    unfold evs. rewrite (close_tmux w m tmux Hvia Htmux Hbin). cbn [snd].
    rewrite newEvents_dropped. unfold closeTmuxEvents.
    split; [| split].
    + destruct (execFileSync w tmux _); repeat constructor.
    + intros bin args [H | [H | []]].
      * injection H as <- <-. split; reflexivity.
      * destruct (execFileSync w tmux _); discriminate H.
    + intros tmux' H _. injection H as <-. left. reflexivity.
  - unfold evs. rewrite (close_tmux_no_binary w m Hvia Hbin). cbn [snd].
    rewrite newEvents_dropped.
    split; [| split].
    + repeat constructor.
    + intros bin args [H | []]. discriminate H.
    + intros tmux H Ht. rewrite H in Hbin. cbn [JS.truthyOpt] in Hbin. congruence.
Qed.

(* ================================================================== *)
(** ** When [openFile] sends its command *)
(* ================================================================== *)

Lemma endsWith_spec (suffix s : string) :
  JS.endsWith suffix s = true <-> exists pre, s = pre ++ suffix.
Proof.
  unfold JS.endsWith. rewrite startsWith_spec. split.
  - intros [post H]. exists (JS.reverse post).
    rewrite <- (reverse_involutive s), H, reverse_append, reverse_involutive.
    reflexivity.
  - intros [pre ->]. exists (JS.reverse pre). apply reverse_append.
Qed.

(** The extension check of [openFile], in words. *)
Lemma isSupportedFile_spec (s : Neovim) (f : TFile) :
  isSupportedFile s f = true <->
  In (extension f) (supportedFileTypes (settings s))
  \/ (extension f = "md"
      /\ (exists stem, filePath f = stem ++ ".excalidraw.md")
      /\ In "excalidraw" (supportedFileTypes (settings s))).
Proof.
  unfold isSupportedFile, JS.arrayIncludes.
  rewrite orb_true_iff, !andb_true_iff, !existsb_eqb_In, String.eqb_eq, endsWith_spec.
  tauto.
Qed.

(** X10. [openFile] sends the remote-open command exactly when it is
    given a file, the path of the editor binary is not empty, and the
    file is supported: its extension is listed, or it is a drawing
    ([md] extension, path ending in [.excalidraw.md]) and [excalidraw] is
    listed. In every other case it does nothing at all; and in no case
    does it change a field or raise. *)
Theorem openFile_sends_exactly_when_supported :
  forall (w : World) (m : Machine) (file : option TFile),
    let r := openFile w file m in
    let sendable :=
      exists f,
        file = Some f
        /\ nvimPathOrEmpty (self m) <> ""
        /\ (In (extension f) (supportedFileTypes (settings (self m)))
            \/ (extension f = "md"
                /\ (exists stem, filePath f = stem ++ ".excalidraw.md")
                /\ In "excalidraw" (supportedFileTypes (settings (self m))))) in
    fst r = Returned tt
    /\ self (snd r) = self m
    /\ (existsb isRemoteOpen (newEvents m (snd r)) = true <-> sendable)
    /\ (~ sendable -> snd r = m).
Proof.
  intros w m file r sendable.
  assert (Htruthy : forall s, JS.truthy s = true <-> s <> "").
  { intros [| c s]; simpl; split; congruence. }
  destruct file as [f |].
  - destruct (JS.truthy (nvimPathOrEmpty (self m))) eqn:Hbin.
    + destruct (isSupportedFile (self m) f) eqn:Hsup.
      * assert (Hsend : sendable).
        { exists f. split; [reflexivity |]. split; [apply Htruthy; exact Hbin |].
          apply isSupportedFile_spec. exact Hsup. }
        assert (Hr : r = remoteOpen w (self m) f (nvimPathOrEmpty (self m)) m).
        { unfold r, openFile, bind, getSelf. rewrite Hbin, Hsup. reflexivity. }
        destruct (remoteOpen_run w (self m) f (nvimPathOrEmpty (self m)) m)
          as [rest [Hrun _]].
        rewrite Hr, Hrun. cbn [fst snd]. rewrite newEvents_logged.
        repeat split; trivial. intros H. contradiction.
      * assert (Hr : r = (Returned tt, m)).
        { unfold r, openFile, bind, getSelf. rewrite Hbin, Hsup. reflexivity. }
        assert (Hno : ~ sendable).
        { intros [f' [Hf [_ H]]]. injection Hf as <-.
          apply isSupportedFile_spec in H. congruence. }
        rewrite Hr. cbn [fst snd]. unfold newEvents. rewrite skipn_own_length.
        repeat split; trivial; [discriminate | intros H; contradiction].
    + assert (Hr : r = (Returned tt, m)).
      { unfold r, openFile, bind, getSelf. rewrite Hbin. reflexivity. }
      assert (Hno : ~ sendable).
      { intros [f' [_ [H _]]]. apply Htruthy in H. congruence. }
      rewrite Hr. cbn [fst snd]. unfold newEvents. rewrite skipn_own_length.
      repeat split; trivial; [discriminate | intros H; contradiction].
  - assert (Hno : ~ sendable) by (intros [f [H _]]; discriminate H).
    unfold r, openFile, ret. cbn [fst snd]. unfold newEvents. rewrite skipn_own_length.
    repeat split; trivial; [discriminate | intros H; contradiction].
Qed.

(* ================================================================== *)
(** ** No operation raises *)
(* ================================================================== *)

Section Returns.

Variable P : Machine -> Prop.










End Returns.

Lemma sameBinaries_refl m : sameBinaries m m.
Proof. unfold sameBinaries. auto. Qed.

Lemma sameBinaries_trans a b c : sameBinaries a b -> sameBinaries b c -> sameBinaries a c.
Proof. unfold sameBinaries. intuition congruence. Qed.

Lemma waitLoop_sameBinaries w start timeoutMs fuel :
  respects sameBinaries (waitLoop w start timeoutMs fuel).
Proof.
  induction fuel as [| fuel IH]; simpl waitLoop;
    frame_with sameBinaries_refl sameBinaries_trans IH
      ltac:(first [exact IH | leaf_fields sameBinaries]).
Qed.

Lemma waitForServerReady_sameBinaries w timeoutMs :
  respects sameBinaries (waitForServerReady w timeoutMs).
Proof.
  unfold waitForServerReady.
  apply (respects_bind _ sameBinaries_trans);
    [apply (respects_dateNow _ sameBinaries_refl) | intros; apply waitLoop_sameBinaries].
Qed.

(** No operation reassigns a binary, the adapter or the API key. *)
Lemma run_sameBinaries w op : respects sameBinaries (run w op).
Proof.
  destruct op; simpl run;
    frame_with sameBinaries_refl sameBinaries_trans (waitForServerReady_sameBinaries w)
      ltac:(leaf_fields sameBinaries).
Qed.












(* ================================================================== *)
(** ** What is fixed at construction *)
(* ================================================================== *)

Lemma afterAll_snoc (steps : list (World * Op)) (w : World) (op : Op) (m : Machine) :
  afterAll (steps ++ [(w, op)]) m = after w op (afterAll steps m).
Proof. unfold afterAll. rewrite fold_left_app. reflexivity. Qed.

(** X12. The binaries the component works with are those found when it
    was constructed: whatever operations follow, in whatever worlds, and
    whatever the settings tab writes (a new terminal, a new path to the
    editor), the editor binary, the terminal binary, the tmux binary, the
    adapter and the API key stay as the constructor left them. *)
Theorem binaries_fixed_at_construction :
  forall (w0 : World) (st : EditInNeovimSettings) (ad : FileSystemAdapter)
         (key : option string) (steps : list (World * Op)),
    let m := afterAll steps (construct w0 st ad key) in
    nvimBinary (self m)
      = Some (if JS.truthy (pathToBinary st)
              then mkNvimBinary (pathToBinary st) (Some "manual_path") None
              else hd (mkNvimBinary "" None
                         (Some "Neovim binary not found, and no manual path specified"))
                      (findNvim w0))
    /\ termBinary (self m)
       = (if JS.truthy (terminal st) then searchBinary w0 (terminal st) else None)
    /\ tmuxBinary (self m) = searchBinary w0 "tmux"
    /\ adapter (self m) = ad
    /\ apiKey (self m) = key.
Proof.
  intros w0 st ad key steps m.
  assert (Hsame : sameBinaries (construct w0 st ad key) m).
  { unfold m. induction steps as [| [w op] steps IH] using rev_ind.
    - apply sameBinaries_refl.
    - rewrite afterAll_snoc. eapply sameBinaries_trans; [exact IH |].
      apply run_sameBinaries. }
  destruct Hsame as [Hn [Ht [Hx [Ha Hk]]]].
  rewrite Hn, Ht, Hx, Ha, Hk. unfold construct.
  destruct (JS.truthy (pathToBinary st)); [repeat split |].
  destruct (findNvim w0); repeat split.
Qed.

(* ================================================================== *)
(** ** Without an editor nothing is started *)
(* ================================================================== *)

Lemma missing_binary_empty_path (s : Neovim) :
  nvimBinaryMissing s = true -> JS.truthy (nvimPathOrEmpty s) = false.
Proof.
  unfold nvimBinaryMissing, nvimPathOrEmpty.
  destruct (nvimBinary s) as [b |]; [| reflexivity].
  intros H. apply String.eqb_eq in H. rewrite H. reflexivity.
Qed.

Lemma construct_inert (w : World) (st : EditInNeovimSettings) (ad : FileSystemAdapter)
    (key : option string) :
  JS.truthy (pathToBinary st) = false -> findNvim w = [] ->
  inert (construct w st ad key).
Proof.
  intros Hpath Hfind. unfold construct, inert. rewrite Hpath, Hfind.
  cbn. repeat split. repeat constructor.
Qed.

Lemma inert_step (w : World) (op : Op) (m : Machine) :
  inert m -> inert (after w op m).
Proof.
  intros [Hmiss [Hproc [Hinst [Hvia Htrace]]]].
  assert (Hclose : inert (snd (close w m))).
  { rewrite close_direct by (rewrite Hvia; discriminate).
    unfold closeSignals, inert. rewrite Hproc, Hinst. cbn.
    repeat split; trivial. apply Forall_app. split; [exact Htrace | repeat constructor]. }
  unfold after. destruct op as [ad | file | | | | | ev | st]; simpl run.
  - unfold newInstance, bind, getSelf. rewrite Hproc, Hmiss. cbn [isSome].
    rewrite andb_false_r. unfold notice, emit, inert. cbn.
    repeat split; trivial. apply Forall_app. split; [exact Htrace | repeat constructor].
  - destruct file as [f |]; unfold openFile, bind, getSelf, ret;
      [rewrite (missing_binary_empty_path _ Hmiss) |];
      cbn; repeat split; trivial.
  - unfold forget, getBuffers, bind, getSelf, ret. rewrite Hinst.
    cbn. repeat split; trivial.
  - unfold disconnect, bind, modify, inert. cbn. repeat split; trivial.
  - unfold onObsidianQuit, bind, getSelf. rewrite Hvia. exact Hclose.
  - exact Hclose.
  - unfold onProcessEvent, bind, modify, emit, ret, inert.
    destruct ev; cbn; repeat split; trivial;
      apply Forall_app; split; [exact Htrace | repeat constructor].
  - unfold modify, inert. cbn. repeat split; trivial.
Qed.

(** X13. A component constructed without an editor (no path set by
    hand and none found) never starts anything, whatever is asked of it
    afterwards and whatever the settings tab writes, a path to the
    editor included: it holds no handle, records no strategy, and all it
    ever does towards the outside is to show notices. No process is
    spawned, no command is run, no connection is tried. *)
Theorem without_editor_nothing_is_started :
  forall (w0 : World) (st : EditInNeovimSettings) (ad : FileSystemAdapter)
         (key : option string) (steps : list (World * Op)),
    JS.truthy (pathToBinary st) = false ->
    findNvim w0 = [] ->
    let m := afterAll steps (construct w0 st ad key) in
    process (self m) = None
    /\ instance (self m) = None
    /\ startedVia (self m) = ViaUnknown
    /\ Forall isNoticeEvent (trace m).
Proof.
  intros w0 st ad key steps Hpath Hfind m.
  assert (H : inert m).
  { unfold m. induction steps as [| [w op] steps IH] using rev_ind.
    - apply construct_inert; assumption.
    - rewrite afterAll_snoc. apply inert_step. exact IH. }
  destruct H as [_ H]. exact H.
Qed.

Lemma without_editor_nothing_is_started_witness :
  let m := afterAll [(readyWorld, OpNewInstance vaultAdapter);
                     (readyWorld, OpSaveSettings
                                    (withHostMode HostTmux DEFAULT_SETTINGS));
                     (readyWorld, OpNewInstance vaultAdapter);
                     (readyWorld, OpOpenFile (Some noteFile));
                     (readyWorld, OpClose)]
             (construct blindWorld DEFAULT_SETTINGS vaultAdapter None) in
  process (self m) = None
  /\ instance (self m) = None
  /\ startedVia (self m) = ViaUnknown
  /\ Forall isNoticeEvent (trace m).
Proof.
  apply (without_editor_nothing_is_started blindWorld DEFAULT_SETTINGS vaultAdapter None);
    vm_compute; reflexivity.
Defined.

(* ================================================================== *)
(** ** A handle is held only in a recorded session *)
(* ================================================================== *)

Lemma instanceNotSet_refl m : instanceNotSet m m.
Proof. left. reflexivity. Qed.

Lemma instanceNotSet_trans a b c :
  instanceNotSet a b -> instanceNotSet b c -> instanceNotSet a c.
Proof. unfold instanceNotSet. intros [H1 | H1] [H2 | H2]; auto; left + right; congruence. Qed.

(** Outside a launch the RPC handle is never set. *)
Lemma run_quiet_instanceNotSet w op :
  quietOp op -> respects instanceNotSet (run w op).
Proof.
  intros Hop. destruct op; simpl in Hop; try contradiction; simpl run;
    frame_with instanceNotSet_refl instanceNotSet_trans I
      ltac:(leaf_fields instanceNotSet).
Qed.

Lemma tmuxEnsureAndConnect_sameStartedVia w ad extraEnvVars tmux name sessionExists :
  respects sameStartedVia (tmuxEnsureAndConnect w ad extraEnvVars tmux name sessionExists).
Proof.
  frame_with sameStartedVia_refl sameStartedVia_trans
    (waitForServerReady_sameStartedVia w) ltac:(leaf_fields sameStartedVia).
Qed.

(** A launch leaves every field as it was or ends with a recorded
    strategy. *)
Lemma newInstance_records (w : World) (ad : FileSystemAdapter) (m : Machine) :
  self (snd (newInstance w ad m)) = self m
  \/ startedVia (self (snd (newInstance w ad m))) <> ViaUnknown.
Proof.
  destruct (isHostNvim (self m) && isSome (process (self m))) eqn:Hguard.
  { left. unfold newInstance, bind, getSelf. rewrite Hguard. reflexivity. }
  destruct (nvimBinaryMissing (self m)) eqn:Hmiss.
  { left. unfold newInstance, bind, getSelf. rewrite Hguard, Hmiss. reflexivity. }
  unfold nvimBinaryMissing in Hmiss.
  destruct (nvimBinary (self m)) as [b |] eqn:Hbin; [| discriminate Hmiss].
  assert (Hpath : path b <> "") by (apply String.eqb_neq; exact Hmiss).
  destruct (hostMode (settings (self m))) eqn:Hmode.
  - unfold isHostNvim in Hguard. rewrite Hmode in Hguard. cbn [andb] in Hguard.
    assert (Hproc : process (self m) = None)
      by (destruct (process (self m)); [discriminate Hguard | reflexivity]).
    right. rewrite (newInstance_direct w ad m b Hmode Hproc Hbin Hpath).
    destruct (JS.truthyOpt (termBinary (self m))) eqn:Hterm.
    + destruct (truthyOpt_some _ Hterm) as [term Ht].
      rewrite (spawnWithTerminal_run w ad _ m b term Hbin Ht). cbv zeta.
      destruct (spawn w term _) as [e | p]; [cbn; discriminate |].
      destruct (pid p); [| cbn; discriminate].
      match goal with
      | |- context [waitForServerReady ?w0 ?t ?m0] =>
          destruct (waitForServerReady_frame w0 t m0) as [ok [m4 [Hrun [_ [Hvia _]]]]];
          rewrite Hrun
      end.
      destruct ok; cbn [snd logged self]; rewrite Hvia; cbn; discriminate.
    + rewrite (spawnHeadless_run w ad _ m b Hbin). cbv zeta.
      destruct (spawn w (path b) _) as [e | p]; [cbn; discriminate |].
      destruct (pid p); [| cbn; discriminate].
      match goal with
      | |- context [waitForServerReady ?w0 ?t ?m0] =>
          destruct (waitForServerReady_frame w0 t m0) as [ok [m4 [Hrun [_ [Hvia _]]]]];
          rewrite Hrun
      end.
      destruct ok.
      * cbn [snd logged self]. rewrite Hvia. cbn. discriminate.
      * match goal with
        | |- context [close ?w0 ?m0] => destruct (close_run w0 m0) as [evs Hclose]
        end.
        rewrite Hclose. cbn [snd logged handlesDropped self startedVia setProcess
                              setInstance].
        rewrite Hvia. cbn. discriminate.
  - assert (Hrun : newInstance w ad m = spawnWithTmux w ad (launchEnv (self m)) m).
    { unfold newInstance, bind, getSelf, nvimBinaryMissing, selectStrategy.
      rewrite Hguard, Hbin, Hmiss, Hmode. reflexivity. }
    rewrite Hrun.
    destruct (win32 w) eqn:Hwin.
    { left. unfold spawnWithTmux. rewrite Hwin. reflexivity. }
    destruct (JS.truthyOpt (tmuxBinary (self m))) eqn:Htmux.
    + destruct (truthyOpt_some _ Htmux) as [tmux Ht]. rewrite Ht in Htmux.
      cbn [JS.truthyOpt] in Htmux. right.
      rewrite (spawnWithTmux_run w ad _ m tmux Hwin Ht Htmux). cbv zeta.
      match goal with
      | |- context [if ?c then _ else _] => destruct c
      end.
      * cbn. discriminate.
      * match goal with
        | |- context [tmuxEnsureAndConnect ?a1 ?a2 ?a3 ?a4 ?a5 ?a6 ?m0] =>
            rewrite (tmuxEnsureAndConnect_sameStartedVia a1 a2 a3 a4 a5 a6 m0)
        end.
        cbn. discriminate.
    + left. unfold spawnWithTmux, bind, getSelf. rewrite Hwin.
      destruct (tmuxBinary (self m)) as [tmux |]; [| reflexivity].
      cbn [JS.truthyOpt] in Htmux. rewrite Htmux. reflexivity.
Qed.

Lemma construct_handlesImplyStarted w st ad key :
  handlesImplyStarted (self (construct w st ad key)).
Proof.
  unfold construct, handlesImplyStarted.
  destruct (JS.truthy (pathToBinary st)); [| destruct (findNvim w)];
    cbn; intros [H | H]; congruence.
Qed.

Lemma step_handlesImplyStarted w op m :
  handlesImplyStarted (self m) -> handlesImplyStarted (self (after w op m)).
Proof.
  intros Hinv. unfold after.
  destruct op as [ad | file | | | | | ev | st];
    try (match goal with
         | |- handlesImplyStarted (self (snd (run ?w0 ?o ?m0))) =>
             pose proof (run_quiet_sameStartedVia w0 o I m0) as Hvia;
             pose proof (run_quiet_processNotSet w0 o I m0) as Hproc;
             pose proof (run_quiet_instanceNotSet w0 o I m0) as Hinst
         end;
         unfold sameStartedVia, processNotSet, instanceNotSet, handlesImplyStarted in *;
         rewrite Hvia; intros [H | H]; apply Hinv;
         [ destruct Hproc as [Hproc | Hproc]; [left; congruence | contradiction]
         | destruct Hinst as [Hinst | Hinst]; [right; congruence | contradiction] ]).
  - simpl run. destruct (newInstance_records w ad m) as [H | H].
    + rewrite H. exact Hinv.
    + intros _. exact H.
  - exact Hinv.
Qed.

(** X14. In every state the component can reach from its constructor,
    by any operations in any worlds, a held process handle or RPC handle
    comes with a recorded strategy: [startedVia] is [unknown] only while
    both handles are empty. *)
Theorem handles_come_with_a_strategy :
  forall m : Machine,
    reachable m ->
    startedVia (self m) = ViaUnknown ->
    process (self m) = None /\ instance (self m) = None.
Proof.
  intros m Hreach.
  assert (Hinv : handlesImplyStarted (self m)).
  { induction Hreach as [w st ad key | m w op Hreach IH _].
    - apply construct_handlesImplyStarted.
    - apply step_handlesImplyStarted. exact IH. }
  intros Hvia. unfold handlesImplyStarted in Hinv.
  destruct (process (self m)) eqn:Hp; destruct (instance (self m)) eqn:Hi;
    try (split; reflexivity);
    exfalso; apply Hinv; trivial; (left + right); discriminate.
Qed.

Lemma handles_come_with_a_strategy_witness :
  process (self (after readyWorld (OpOpenFile (Some noteFile))
                   (construct readyWorld DEFAULT_SETTINGS vaultAdapter None))) = None
  /\ instance (self (after readyWorld (OpOpenFile (Some noteFile))
                       (construct readyWorld DEFAULT_SETTINGS vaultAdapter None))) = None.
Proof.
  apply handles_come_with_a_strategy.
  - apply reach_step; [apply reach_construct | exact I].
  - vm_compute. reflexivity.
Defined.

(* ================================================================== *)
(** ** Where an RPC handle comes from *)
(* ================================================================== *)










(* ================================================================== *)
(** ** What a launch hands to the process it spawns *)
(* ================================================================== *)

Lemma envGet_envSet (k k' v : string) (e : Env) :
  envGet k (envSet k' v e) = if String.eqb k k' then Some v else envGet k e.
Proof.
  induction e as [| [k2 v2] e IH]; [reflexivity |].
  cbn [envSet]. destruct (String.eqb_spec k' k2) as [-> | Hne].
  - cbn [envGet]. destruct (String.eqb k k2); reflexivity.
  - cbn [envGet]. rewrite IH.
    destruct (String.eqb_spec k k2) as [-> | _]; [| reflexivity].
    destruct (String.eqb_spec k2 k') as [E | _]; [congruence | reflexivity].
Qed.

Lemma configureProcessSpawnArgs_frame (w : World) (o : SpawnProcessOptions)
    (terminalName terminalPath nvim port : string) :
  let o' := configureProcessSpawnArgs w o terminalName terminalPath nvim port in
  cwd o' = cwd o /\ env o' = env o /\ detached o' = detached o /\ stdio o' = stdio o.
Proof.
  unfold configureProcessSpawnArgs.
  repeat match goal with
         | |- context [if ?c then _ else _] => destruct c
         end;
    cbn; auto.
Qed.

(** X16. The process of a direct launch inherits the environment of
    Obsidian with at most two variables laid over it: [NVIM_APPNAME]
    when the app name of the settings is not empty, and
    [OBSIDIAN_REST_API_KEY] when an API key is known and not empty. Every
    other variable is passed on as Obsidian has it, for the headless
    launch and, on every platform and for every terminal, for the
    terminal launch. *)
Theorem launch_environment_overlay :
  forall (w : World) (ad : FileSystemAdapter) (s : Neovim) (term nvim addr k : string),
    let expected :=
      if String.eqb k "NVIM_APPNAME" && negb (String.eqb (appname (settings s)) "")
      then Some (appname (settings s))
      else if String.eqb k "OBSIDIAN_REST_API_KEY" && JS.truthyOpt (apiKey s)
      then apiKey s
      else envGet k (processEnv w) in
    envGet k (env (headlessOptions w ad (launchEnv s) addr)) = expected
    /\ envGet k (env (terminalOptions w ad (launchEnv s) term nvim addr)) = expected.
Proof.
  intros w ad s term nvim addr k expected.
  assert (H : envGet k (envSpread (processEnv w) (launchEnv s)) = expected).
  { unfold expected, launchEnv, envSpread.
    destruct (apiKey s) as [key |]; [destruct (JS.truthy key) eqn:Hkey |];
      destruct (String.eqb (appname (settings s)) "");
      cbn [negb envSet fold_left fst snd JS.truthyOpt];
      rewrite ?Hkey; cbn [String.eqb Ascii.eqb Bool.eqb andb fold_left fst snd];
      rewrite ?envGet_envSet, ?andb_true_r, ?andb_false_r; reflexivity. }
  split.
  - exact H.
  - unfold terminalOptions.
    destruct (configureProcessSpawnArgs_frame w
                (mkSpawnOptions [] (getBasePath ad)
                   (envSpread (processEnv w) (launchEnv s)) ShellFalse false StdioDefault)
                (terminalNameOf term) term nvim addr) as [_ [Henv _]].
    rewrite Henv. exact H.
Qed.

(** X17. [configureProcessSpawnArgs] only decides the arguments and the
    [shell] option: working directory, environment, [detached] and
    [stdio] are left as given. Off Windows the terminal is always
    started through a shell. The listen address is handed over as the
    last argument, right after [--listen], on every platform and for
    every terminal except PowerShell on Windows, where it follows
    [--listen] inside the text of the command. *)
Theorem configureProcessSpawnArgs_hands_over_address :
  forall (w : World) (o : SpawnProcessOptions) (terminalName terminalPath nvim port : string),
    let o' := configureProcessSpawnArgs w o terminalName terminalPath nvim port in
    (cwd o' = cwd o /\ env o' = env o /\ detached o' = detached o /\ stdio o' = stdio o)
    /\ (win32 w = false -> shell o' <> ShellFalse)
    /\ (win32 w && (String.eqb terminalName "powershell.exe"
                    || String.eqb terminalName "pwsh.exe") = false ->
        exists front, spawnArgs o' = (front ++ ["--listen"; port])%list)
    /\ (win32 w && (String.eqb terminalName "powershell.exe"
                    || String.eqb terminalName "pwsh.exe") = true ->
        exists front command,
          spawnArgs o' = (front ++ ["-Command"; command])%list
          /\ JS.includes ("--listen " ++ port) command = true).
Proof.
  intros w o terminalName terminalPath nvim port o'.
  split; [apply configureProcessSpawnArgs_frame |].
  unfold o', configureProcessSpawnArgs.
  destruct (win32 w); cbn [negb andb].
  - split; [discriminate |].
    destruct (String.eqb terminalName "alacritty.exe" || String.eqb terminalName "wezterm.exe"
              || String.eqb terminalName "kitty.exe") eqn:H1.
    { assert (Hps : String.eqb terminalName "powershell.exe"
                    || String.eqb terminalName "pwsh.exe" = false).
      { apply orb_true_iff in H1 as [H1 | H1];
          [apply orb_true_iff in H1 as [H1 | H1] |];
          apply String.eqb_eq in H1; subst terminalName; reflexivity. }
      rewrite Hps. split; [| discriminate].
      intros _. exists ["-e"; nvim]. reflexivity. }
    destruct (String.eqb terminalName "wt.exe") eqn:H2.
    { apply String.eqb_eq in H2. subst terminalName. cbn [String.eqb Ascii.eqb Bool.eqb orb].
      split; [| discriminate].
      intros _. exists ["new-tab"; "--title"; "Neovim"; nvim]. reflexivity. }
    destruct (String.eqb terminalName "powershell.exe" || String.eqb terminalName "pwsh.exe")
      eqn:H3.
    { split; [discriminate |]. intros _. cbn [spawnArgs withArgs].
      exists ["-ExecutionPolicy"; "Bypass"; "-NoProfile"; "-NoExit"]. eexists.
      split; [reflexivity |]. apply includes_spec.
      exists ("Start-Process -FilePath '" ++ nvim ++ "' -ArgumentList '"),
             "' -WindowStyle Normal".
      rewrite !append_assoc. reflexivity. }
    split; [| discriminate]. intros _.
    destruct (String.eqb terminalName "cmd.exe").
    + eexists [_; _; _; _]. reflexivity.
    + exists ["-e"; nvim]. reflexivity.
  - split.
    + intros _. cbn. destruct (JS.truthy (userShell w)); discriminate.
    + split; [| discriminate]. intros _. exists ["-e"; nvim]. reflexivity.
Qed.

(* ================================================================== *)
(** ** How the terminal is recognised *)
(* ================================================================== *)

Lemma lastOf_snoc (l : list string) (x : string) : JS.lastOf (l ++ [x]) = Some x.
Proof. unfold JS.lastOf. rewrite rev_app_distr. reflexivity. Qed.

Lemma split_after_separator (sep : ascii) (dir name : string) :
  exists front, JS.split sep (dir ++ String sep name) = (front ++ JS.split sep name)%list
                /\ front <> [].
Proof.
  induction dir as [| c dir [front [IH Hne]]].
  - exists [""]. split; [| discriminate]. simpl. rewrite Ascii.eqb_refl. reflexivity.
  - cbn [String.append JS.split]. rewrite IH. destruct (Ascii.eqb c sep).
    + exists ("" :: front). split; [reflexivity | discriminate].
    + destruct front as [| piece rest]; [congruence |].
      exists (String c piece :: rest). split; [reflexivity | discriminate].
Qed.

Lemma orElse_empty (s : string) : JS.orElse s "" = s.
Proof. destruct s; reflexivity. Qed.

(** X18. The terminal launch recognises the terminal by the part of
    its path after the last backslash, in lower case: whatever precedes
    that backslash plays no role. A path without a backslash is taken
    whole, so a path written with forward slashes is not cut down to its
    file name. *)
Theorem terminal_recognised_by_file_name :
  forall dir name : string,
    JS.lastIndexOf "\" name = -1 ->
    terminalNameOf (dir ++ String "\" name) = JS.toLowerCase name
    /\ terminalNameOf name = JS.toLowerCase name.
Proof.
  intros dir name Hname. unfold terminalNameOf.
  pose proof (split_no_separator "\" name Hname) as Hsplit.
  split.
  - destruct (split_after_separator "\" dir name) as [front [H _]].
    rewrite H, Hsplit, lastOf_snoc. apply orElse_empty.
  - rewrite Hsplit. cbn [JS.lastOf rev app]. apply orElse_empty.
Qed.

Lemma terminal_recognised_by_file_name_witness :
  terminalNameOf ("C:\Program Files\WezTerm" ++ String "\" "WezTerm.EXE")
    = JS.toLowerCase "WezTerm.EXE"
  /\ terminalNameOf "WezTerm.EXE" = JS.toLowerCase "WezTerm.EXE".
Proof.
  apply (terminal_recognised_by_file_name "C:\Program Files\WezTerm" "WezTerm.EXE").
  vm_compute. reflexivity.
Defined.

(* ================================================================== *)
(** ** A wait that is answered late *)
(* ================================================================== *)





(* ================================================================== *)
(** ** The tmux launch and the session it finds *)
(* ================================================================== *)

(** X20. A tmux launch that is refused for a port conflict has already
    recorded [tmux] as the way the session was started, and has left
    both handles as they were. A [close] that follows therefore tells
    tmux to kill the session of the configured name, which the launch
    never created, and signals neither the process nor the RPC client,
    even if a process handle was held: the handle is just dropped. *)
Theorem refused_tmux_launch_claims_session :
  forall (w w' : World) (ad : FileSystemAdapter) (extraEnvVars : Env) (m : Machine)
         (tmux : string),
    win32 w = false ->
    tmuxBinary (self m) = Some tmux ->
    JS.truthy tmux = true ->
    isTcpListen (listenOn (settings (self m))) = true ->
    portBound w (listenOn (settings (self m))) = true ->
    execFileSync w tmux ["has-session"; "-t"; sessionNameOf (settings (self m))] = false ->
    let m1 := snd (spawnWithTmux w ad extraEnvVars m) in
    let m2 := snd (close w' m1) in
    startedVia (self m1) = ViaTmux
    /\ process (self m1) = process (self m)
    /\ instance (self m1) = instance (self m)
    /\ In (EExecFileSync tmux ["kill-session"; "-t"; sessionNameOf (settings (self m))])
          (newEvents m1 m2)
    /\ Forall notSignal (newEvents m1 m2)
    /\ process (self m2) = None
    /\ startedVia (self m2) = ViaTmux.
Proof.
  intros w w' ad extraEnvVars m tmux Hwin Htmux Htruthy Htcp Hbound Hnone m1 m2.
  assert (Hm1 : m1 = logged [ENotice (NoticePortInUse (listenOn (settings (self m))))
                               (Some 12000)] (tmuxLookedUp tmux m)).
  { unfold m1. rewrite (spawnWithTmux_run w ad extraEnvVars m tmux Hwin Htmux Htruthy).
    cbv zeta. rewrite Htcp, Hbound, Hnone. reflexivity. }
  assert (Hclose : close w' m1
                   = (Returned tt, logged (closeTmuxEvents w' tmux (self m1))
                                     (handlesDropped m1))).
  { apply close_tmux; [| | exact Htruthy]; rewrite Hm1; [reflexivity | exact Htmux]. }
  unfold m2. rewrite Hclose. cbn [snd]. rewrite newEvents_dropped.
  assert (Hname : sessionNameOf (settings (self m1)) = sessionNameOf (settings (self m)))
    by (rewrite Hm1; reflexivity).
  unfold closeTmuxEvents. rewrite Hname.
  repeat split; try (rewrite Hm1; reflexivity).
  - left. reflexivity.
  - destruct (execFileSync w' tmux _); repeat constructor.
Qed.

Lemma refused_tmux_launch_claims_session_witness :
  let m1 := snd (spawnWithTmux crowdedWorld vaultAdapter [] staleMachine) in
  let m2 := snd (close readyWorld m1) in
  startedVia (self m1) = ViaTmux
  /\ process (self m1) = process (self staleMachine)
  /\ instance (self m1) = instance (self staleMachine)
  /\ In (EExecFileSync "/usr/bin/tmux"
           ["kill-session"; "-t"; sessionNameOf (settings (self staleMachine))])
        (newEvents m1 m2)
  /\ Forall notSignal (newEvents m1 m2)
  /\ process (self m2) = None
  /\ startedVia (self m2) = ViaTmux.
Proof.
  apply (refused_tmux_launch_claims_session crowdedWorld readyWorld vaultAdapter []
           staleMachine "/usr/bin/tmux"); vm_compute; reflexivity.
Defined.






